(** * The reconciliation engine of the Jenkins operator

    A shallow embedding of the base-configuration reconciler
    ([pkg/configuration/base]), its resource builders
    ([pkg/configuration/base/resources]), the notification dispatcher
    ([pkg/notifications]) and the ownership event router ([controllers]),
    followed by the properties proved about them.

    Conventions of the embedding:
    - a Go [error] is an [option Err] ([None] is [nil]); functions keep the
      shape of their Go results, a pair [(value, err)] where Go returns one;
    - a Go [map[string]T] is a [gmap string T]; indexing a missing key gives
      the zero value of [T];
    - code that reads or writes the platform threads a [World] through a
      state monad;
    - logger calls have no effect on a returned value or on the platform and
      are left out. *)

From Stdlib Require Import ZArith String List Bool Lia Ascii DecimalString.
From stdpp Require Import base option list gmap strings fin_maps.
Import ListNotations.

Open Scope string_scope.
Open Scope list_scope.

(** ** Go's standard library, as far as the sources use it *)
Module Go.

(** [m[k]] on a [map[string]string]: the empty string for a missing key. *)
Definition index (m : gmap string string) (k : string) : string :=
  default "" (m !! k).

(** [strings.HasPrefix(s, prefix)]. *)
Definition HasPrefix (s prefix : string) : bool := String.prefix prefix s.

(** [strings.HasSuffix(s, suffix)]. *)
Definition HasSuffix (s suffix : string) : bool :=
  String.prefix (String.rev suffix) (String.rev s).

(** [strings.Join(elems, sep)]. *)
Definition Join (elems : list string) (sep : string) : string :=
  String.concat sep elems.

(** An operand of [fmt.Sprintf]: a string for [%s], an integer for [%d], and
    for [%v] and [%+v] the operand's rendering. *)
Inductive Arg :=
| ArgS (s : string)
| ArgD (z : Z)
| ArgV (rendering : string).

Definition showArg (a : Arg) : string :=
  match a with
  | ArgS s => s
  | ArgD z => NilZero.string_of_int (Z.to_int z)
  | ArgV s => s
  end.

(** [fmt.Sprintf] for the verbs [%s], [%d], [%v] and [%+v]: each verb takes
    the next operand. *)
Fixpoint Sprintf (format : string) (args : list Arg) : string :=
  match format with
  | EmptyString => EmptyString
  | String "%" (String "+" (String _ rest))
  | String "%" (String _ rest) =>
      match args with
      | a :: args' => showArg a +:+ Sprintf rest args'
      | [] => Sprintf rest []
      end
  | String c rest => String c (Sprintf rest args)
  end.

(** The double quote, for string constants that contain one. *)
Definition dq : string := String (ascii_of_nat 34) EmptyString.

End Go.

(** ** [pkg/constants]

    The package is not among the sources; its constants are parameters. *)
Class Constants := {
  OperatorName : string;
  LabelAppKey : string;
  LabelAppValue : string;
  LabelWatchKey : string;
  LabelWatchValue : string;
  LabelJenkinsCRKey : string;
  SeedJobSuffix : string;
  DefaultAmountOfExecutors : Z;
  DefaultHTTPPortInt32 : Z;
  DefaultSlavePortInt32 : Z
}.

(** ** The ownership event router ([controllers], [enqueueRequestForJenkins]) *)
Module Router.

(** What the router reads of a [metav1.Object]. *)
Record Object := {
  GetNamespace : string;
  GetName : string;
  GetLabels : gmap string string
}.

(** [reconcile.Request{NamespacedName: types.NamespacedName{...}}]. *)
Record Request := {
  Namespace : string;
  Name : string
}.

Record UpdateEvent := {
  ObjectOld : Object;
  ObjectNew : Object
}.

(** The work queue, as the requests handed to [q.Add], oldest first. *)
Definition Queue := list Request.

Definition Add (q : Queue) (req : Request) : Queue := q ++ [req].

Section WithConstants.
Context `{Constants}.

Definition getOwnerReconcileRequests (object : Object) : option Request :=
  if String.eqb (Go.index (GetLabels object) LabelAppKey) LabelAppValue
     && String.eqb (Go.index (GetLabels object) LabelWatchKey) LabelWatchValue
     && (0 <? String.length (Go.index (GetLabels object) LabelJenkinsCRKey))%nat
  then Some {| Namespace := GetNamespace object;
               Name := Go.index (GetLabels object) LabelJenkinsCRKey |}
  else None.

Definition Create (obj : Object) (q : Queue) : Queue :=
  match getOwnerReconcileRequests obj with
  | Some req => Add q req
  | None => q
  end.

(** The block that only picks the name under which the update is logged is
    left out with the log line. *)
Definition Update (evt : UpdateEvent) (q : Queue) : Queue :=
  let req1 := getOwnerReconcileRequests (ObjectOld evt) in
  let req2 := getOwnerReconcileRequests (ObjectNew evt) in
  match req1 with
  | Some r1 => Add q r1
  | None =>
      match req2 with
      | Some r2 => Add q r2
      | None => q
      end
  end.

Definition Delete (obj : Object) (q : Queue) : Queue :=
  match getOwnerReconcileRequests obj with
  | Some req => Add q req
  | None => q
  end.

Definition Generic (obj : Object) (q : Queue) : Queue :=
  match getOwnerReconcileRequests obj with
  | Some req => Add q req
  | None => q
  end.

End WithConstants.
End Router.

(** ** The route capability probe ([resources/route.go]) *)
Module Route.

(** The two package-level variables, and the number of discovery requests
    the process has sent so far. *)
Record Process := {
  isRouteAPIAvailable : bool;
  routeAPIChecked : bool;
  discoveryCalls : nat
}.

(** The state a process starts in: [var isRouteAPIAvailable = false],
    [var routeAPIChecked = false]. *)
Definition start : Process :=
  {| isRouteAPIAvailable := false; routeAPIChecked := false; discoveryCalls := 0%nat |}.

(** The client set, as the answer of the platform to each successive
    [discovery.ServerSupportsVersion] request for the route group version:
    [true] when the call returns an error. *)
Record Clientset := {
  ServerSupportsVersionFails : nat -> bool
}.

Definition IsRouteAPIAvailable (clientSet : Clientset) (p : Process) : bool * Process :=
  if routeAPIChecked p then (isRouteAPIAvailable p, p)
  else if ServerSupportsVersionFails clientSet (discoveryCalls p)
  then (false, {| isRouteAPIAvailable := false; routeAPIChecked := true;
                  discoveryCalls := S (discoveryCalls p) |})
  else (true, {| isRouteAPIAvailable := true; routeAPIChecked := true;
                 discoveryCalls := S (discoveryCalls p) |}).

(** [n] calls in a row: the answers, first call first, and the final state. *)
Fixpoint calls (n : nat) (clientSet : Clientset) (p : Process) : list bool * Process :=
  match n with
  | O => ([], p)
  | S n' =>
      let '(b, p1) := IsRouteAPIAvailable clientSet p in
      let '(bs, p2) := calls n' clientSet p1 in
      (b :: bs, p2)
  end.

End Route.

(** ** Platform errors ([k8s.io/apimachinery/pkg/api/errors]) *)
Inductive Err :=
| ErrNotFound
| ErrAlreadyExists
| ErrOther (msg : string).

Definition error := option Err.

Definition IsNotFound (err : Err) : bool :=
  match err with ErrNotFound => true | _ => false end.

Definition IsAlreadyExists (err : Err) : bool :=
  match err with ErrAlreadyExists => true | _ => false end.

(** ** API types ([metav1], [rbacv1], [api/v1alpha2])

    The declarations are not among the sources; each record has the fields
    the sources read or write, under their Go names. *)
Module ObjectMeta.
Record t := {
  Name : string;
  Namespace : string;
  Labels : gmap string string;
  Annotations : gmap string string
}.
End ObjectMeta.

Module RoleRef.
Record t := {
  APIGroup : string;
  Kind : string;
  Name : string
}.
End RoleRef.

(** [v1alpha2.Customization]: a secret and a list of config maps, by name. *)
Module Customization.
Record t := {
  Secret : string;
  Configurations : list string
}.
End Customization.

(** [v1alpha2.Service]; of its fields the sources read [Port] (an [int32]). *)
Module Service.
Record t := {
  Port : Z
}.
End Service.

(** [v1alpha2.NotificationLevel] is a string type; its two constants are
    parameters. *)
Class NotificationLevels := {
  NotificationLevelWarning : string;
  NotificationLevelInfo : string
}.

(** [v1alpha2.Notification]: a channel has a name, a minimum level and one
    pointer per kind of service, [None] for [nil]; what a service's settings
    hold is opaque here. *)
Module Notification.
Record t := {
  LoggingLevel : string;
  Name : string;
  Slack : option string;
  Teams : option string;
  Mailgun : option string;
  SMTP : option string
}.
End Notification.

Module JenkinsMaster.
Record t := {
  DisableCSRFProtection : bool
}.
End JenkinsMaster.

Module JenkinsSpec.
Record t := {
  Master : JenkinsMaster.t;
  Service : Service.t;
  SlaveService : Service.t;
  Roles : list RoleRef.t;
  Notifications : list Notification.t;
  GroovyScripts : Customization.t;
  ConfigurationAsCode : Customization.t
}.
End JenkinsSpec.

(** Times are instants in nanoseconds; [ProvisionStartTime] is a pointer. *)
Module JenkinsStatus.
Record t := {
  ProvisionStartTime : option Z
}.
End JenkinsStatus.

Module Jenkins.
Record t := {
  ObjectMeta : ObjectMeta.t;
  Spec : JenkinsSpec.t;
  Status : JenkinsStatus.t
}.
Definition Name (j : t) : string := ObjectMeta.Name (ObjectMeta j).
Definition Namespace (j : t) : string := ObjectMeta.Namespace (ObjectMeta j).
Definition Annotations (j : t) : gmap string string := ObjectMeta.Annotations (ObjectMeta j).
End Jenkins.

(** ** The base-configuration config map
    ([resources/base_configuration_configmap.go]) *)
Module Resources.

Module ConfigMap.
Record t := {
  TypeMeta : string * string;
  ObjectMeta : ObjectMeta.t;
  Data : gmap string string
}.
End ConfigMap.

(** Functions of package [resources] that are not among the sources. *)
Class Helpers := {
  getClusterDomain : string -> string * error;
  GetJenkinsHTTPServiceFQDN : Jenkins.t -> string -> string * error;
  GetJenkinsSlavesServiceFQDN : Jenkins.t -> string -> string * error;
  GetJenkinsOpts : Jenkins.t -> gmap string string;
  buildConfigMapTypeMeta : string * string
}.

Definition basicSettingsGroovyScriptName := "1-basic-settings.groovy".
Definition enableCSRFGroovyScriptName := "2-enable-csrf.groovy".
Definition disableUsageStatsGroovyScriptName := "3-disable-usage-stats.groovy".
Definition disableInsecureFeaturesGroovyScriptName := "4-disable-insecure-features.groovy".
Definition configureKubernetesPluginGroovyScriptName := "5-configure-kubernetes-plugin.groovy".
Definition configureViewsGroovyScriptName := "6-configure-views.groovy".
Definition disableJobDslScriptApprovalGroovyScriptName := "7-disable-job-dsl-script-approval.groovy".

Definition basicSettingsFmt : string :=
"
import jenkins.model.Jenkins
import jenkins.model.JenkinsLocationConfiguration
import hudson.model.Node.Mode

def jenkins = Jenkins.instance
//Number of jobs that run simultaneously on master.
jenkins.setNumExecutors(%d)
//Jobs must specify that they want to run on master
jenkins.setMode(Mode.EXCLUSIVE)
jenkins.save()
".

Definition enableCSRF : string :=
"
import hudson.security.csrf.DefaultCrumbIssuer
import jenkins.model.Jenkins

def jenkins = Jenkins.instance

if (jenkins.getCrumbIssuer() == null) {
    jenkins.setCrumbIssuer(new DefaultCrumbIssuer(true))
    jenkins.save()
    println('CSRF Protection enabled.')
} else {
    println('CSRF Protection already configured.')
}
".

Definition disableUsageStats : string :=
"
import jenkins.model.Jenkins

def jenkins = Jenkins.instance

if (jenkins.isUsageStatisticsCollected()) {
    jenkins.setNoUsageStatistics(true)
    jenkins.save()
    println('Jenkins usage stats submitting disabled.')
} else {
    println('Nothing changed.  Usage stats are not submitted to the Jenkins project.')
}
".

Definition disableInsecureFeatures : string :=
"
import jenkins.*
import jenkins.model.*
import hudson.model.*
import jenkins.security.s2m.*

def jenkins = Jenkins.instance

println(" +:+ Go.dq +:+
"Disabling insecure Jenkins features..." +:+ Go.dq +:+
")

println(" +:+ Go.dq +:+
"Disabling insecure protocols..." +:+ Go.dq +:+
")
println(" +:+ Go.dq +:+
"Old protocols: [" +:+ Go.dq +:+
" + jenkins.getAgentProtocols().join(" +:+ Go.dq +:+
", " +:+ Go.dq +:+
") + " +:+ Go.dq +:+
"]" +:+ Go.dq +:+
")
HashSet<String> newProtocols = new HashSet<>(jenkins.getAgentProtocols())
newProtocols.removeAll(Arrays.asList(" +:+ Go.dq +:+
"JNLP3-connect" +:+ Go.dq +:+
", " +:+ Go.dq +:+
"JNLP2-connect" +:+ Go.dq +:+
", " +:+ Go.dq +:+
"JNLP-connect" +:+ Go.dq +:+
", " +:+ Go.dq +:+
"CLI-connect" +:+ Go.dq +:+
"))
println(" +:+ Go.dq +:+
"New protocols: [" +:+ Go.dq +:+
" + newProtocols.join(" +:+ Go.dq +:+
", " +:+ Go.dq +:+
") + " +:+ Go.dq +:+
"]" +:+ Go.dq +:+
")
jenkins.setAgentProtocols(newProtocols)

println(" +:+ Go.dq +:+
"Disabling CLI access of /cli URL..." +:+ Go.dq +:+
")
def remove = { list ->
    list.each { item ->
        if (item.getClass().name.contains(" +:+ Go.dq +:+
"CLIAction" +:+ Go.dq +:+
")) {
            println(" +:+ Go.dq +:+
"Removing extension ${item.getClass().name}" +:+ Go.dq +:+
")
            list.remove(item)
        }
    }
}
remove(jenkins.getExtensionList(RootAction.class))
remove(jenkins.actions)

if (jenkins.getDescriptor(" +:+ Go.dq +:+
"jenkins.CLI" +:+ Go.dq +:+
") != null) {
    jenkins.getDescriptor(" +:+ Go.dq +:+
"jenkins.CLI" +:+ Go.dq +:+
").get().setEnabled(false)
}

jenkins.save()
".

Definition configureKubernetesPluginFmt : string :=
"
import com.cloudbees.plugins.credentials.CredentialsScope
import com.cloudbees.plugins.credentials.SystemCredentialsProvider
import com.cloudbees.plugins.credentials.domains.Domain
import jenkins.model.Jenkins
import org.csanchez.jenkins.plugins.kubernetes.KubernetesCloud

def jenkins = Jenkins.getInstance()

def kubernetes = Jenkins.instance.clouds.getByName(" +:+ Go.dq +:+
"kubernetes" +:+ Go.dq +:+
")
def add = false
if (kubernetes == null) {
    add = true
	kubernetes = new KubernetesCloud(" +:+ Go.dq +:+
"kubernetes" +:+ Go.dq +:+
")
}
kubernetes.setServerUrl(" +:+ Go.dq +:+
"https://kubernetes.default.svc.%s:443" +:+ Go.dq +:+
")
kubernetes.setNamespace(" +:+ Go.dq +:+
"%s" +:+ Go.dq +:+
")
kubernetes.setJenkinsUrl(" +:+ Go.dq +:+
"%s" +:+ Go.dq +:+
")
kubernetes.setJenkinsTunnel(" +:+ Go.dq +:+
"%s" +:+ Go.dq +:+
")
kubernetes.setRetentionTimeout(15)
if (add) {
	jenkins.clouds.add(kubernetes)
}

jenkins.save()
".

Definition disableJobDSLScriptApproval : string :=
"
import jenkins.model.Jenkins
import javaposse.jobdsl.plugin.GlobalJobDslSecurityConfiguration
import jenkins.model.GlobalConfiguration

// disable Job DSL script approval
GlobalConfiguration.all().get(GlobalJobDslSecurityConfiguration.class).useScriptSecurity=false
GlobalConfiguration.all().get(GlobalJobDslSecurityConfiguration.class).save()
".

Definition configureViews `{Constants} : string :=
"
import hudson.model.ListView
import jenkins.model.Jenkins

def Jenkins jenkins = Jenkins.getInstance()

def seedViewName = 'seed-jobs'
def nonSeedViewName = 'non-seed-jobs'

if (jenkins.getView(seedViewName) == null) {
    def seedView = new ListView(seedViewName)
    seedView.setIncludeRegex('.*" +:+ SeedJobSuffix +:+ ".*')
    jenkins.addView(seedView)
}

if (jenkins.getView(nonSeedViewName) == null) {
    def nonSeedView = new ListView(nonSeedViewName)
    nonSeedView.setIncludeRegex('((?!seed)(?!jenkins).)*')
    jenkins.addView(nonSeedView)
}

jenkins.save()
".

Section WithHelpers.
Context `{Constants} `{Helpers}.

Definition GetBaseConfigurationConfigMapName (jenkins : Jenkins.t) : string :=
  Go.Sprintf "%s-base-configuration-%s"
    [Go.ArgS OperatorName; Go.ArgS (Jenkins.Name jenkins)].

Definition NewBaseConfigurationConfigMap (meta : ObjectMeta.t) (jenkins : Jenkins.t)
    (kubernetesClusterDomain : string) : option ConfigMap.t * error :=
  let meta :=
    {| ObjectMeta.Name := GetBaseConfigurationConfigMapName jenkins;
       ObjectMeta.Namespace := ObjectMeta.Namespace meta;
       ObjectMeta.Labels := ObjectMeta.Labels meta;
       ObjectMeta.Annotations := ObjectMeta.Annotations meta |} in
  match getClusterDomain kubernetesClusterDomain with
  | (_, Some err) => (None, Some err)
  | (clusterDomain, None) =>
  match GetJenkinsHTTPServiceFQDN jenkins kubernetesClusterDomain with
  | (_, Some err) => (None, Some err)
  | (jenkinsServiceFQDN, None) =>
  match GetJenkinsSlavesServiceFQDN jenkins kubernetesClusterDomain with
  | (_, Some err) => (None, Some err)
  | (jenkinsSlavesServiceFQDN, None) =>
  let suffix :=
    match GetJenkinsOpts jenkins !! "prefix" with
    | Some prefix => prefix
    | None => ""
    end in
  let groovyScriptsMap : gmap string string :=
    <[basicSettingsGroovyScriptName :=
        Go.Sprintf basicSettingsFmt [Go.ArgD DefaultAmountOfExecutors]]>
    (<[enableCSRFGroovyScriptName := enableCSRF]>
    (<[disableUsageStatsGroovyScriptName := disableUsageStats]>
    (<[disableInsecureFeaturesGroovyScriptName := disableInsecureFeatures]>
    (<[configureKubernetesPluginGroovyScriptName :=
        Go.Sprintf configureKubernetesPluginFmt
          [Go.ArgS clusterDomain;
           Go.ArgS (Jenkins.Namespace jenkins);
           Go.ArgS (Go.Sprintf "http://%s:%d%s"
                      [Go.ArgS jenkinsServiceFQDN;
                       Go.ArgD (Service.Port (JenkinsSpec.Service (Jenkins.Spec jenkins)));
                       Go.ArgS suffix]);
           Go.ArgS (Go.Sprintf "%s:%d"
                      [Go.ArgS jenkinsSlavesServiceFQDN;
                       Go.ArgD (Service.Port (JenkinsSpec.SlaveService (Jenkins.Spec jenkins)))])]]>
    (<[configureViewsGroovyScriptName := configureViews]>
    (<[disableJobDslScriptApprovalGroovyScriptName := disableJobDSLScriptApproval]>
     ∅)))))) in
  let groovyScriptsMap :=
    if JenkinsMaster.DisableCSRFProtection (JenkinsSpec.Master (Jenkins.Spec jenkins))
    then delete enableCSRFGroovyScriptName groovyScriptsMap
    else groovyScriptsMap in
  (Some {| ConfigMap.TypeMeta := buildConfigMapTypeMeta;
           ConfigMap.ObjectMeta := meta;
           ConfigMap.Data := groovyScriptsMap |}, None)
  end end end.

End WithHelpers.
End Resources.

(** ** Reasons and notification events
    ([pkg/notifications/reason], [pkg/notifications/event]) *)
Module Reason.

Inductive Source :=
| OperatorSource
| KubernetesSource
| HumanSource.

(** Modelled from the spec: package [reason] is not among the sources. A
    restart reason is a source ("tagged variant over Operator, Platform,
    User") that carries an ordered list of cause messages. *)
Record t := {
  source : Source;
  messages : list string
}.

Definition NewPodRestart (source : Source) (short : list string) : t :=
  {| source := source; messages := short |}.

(** An event "carrying no cause messages" is one whose list is empty. *)
Definition HasMessages (r : t) : bool :=
  match messages r with [] => false | _ :: _ => true end.

Definition Short (r : t) : list string := messages r.

End Reason.

Module Event.

Definition Phase := string.
Definition PhaseBase : Phase := "base".
Definition PhaseUser : Phase := "user".

Record t := {
  Jenkins : Jenkins.t;
  Phase_ : Phase;
  Level : string;
  Reason : Reason.t
}.

End Event.

(** ** The notification dispatcher ([pkg/notifications/sender.go]) *)
Module Notifications.

(** [k8sevent.Type]. *)
Inductive K8sEventType :=
| TypeWarning
| TypeNormal.

(** The provider built for a channel: [slack.New], [msteams.New],
    [mailgun.New] or [smtp.New] over the channel's configuration. *)
Inductive Provider :=
| SlackProvider (notificationConfig : Notification.t)
| TeamsProvider (notificationConfig : Notification.t)
| MailgunProvider (notificationConfig : Notification.t)
| SMTPProvider (notificationConfig : Notification.t).

Definition configOf (p : Provider) : Notification.t :=
  match p with
  | SlackProvider c | TeamsProvider c | MailgunProvider c | SMTPProvider c => c
  end.

(** What [Listen] does to the outside: a platform event emitted through
    [k8sEvent.Emit] (with the reason whose type name and short messages it
    is given), and a goroutine started to call [provider.Send(e)] once.
    [GoSend provider e] records the [go] statement: [provider] is the
    provider of the round and [e] the value of the loop variable when the
    statement runs. The body of the goroutine reads the captured variable
    [e] when it runs; where the rounds of the loop share the variable (Go
    before 1.22) that can be a later event of the feed, which the trace
    does not record. *)
Inductive Effect :=
| Emit (object : Jenkins.t) (eventType : K8sEventType) (reason : Reason.t) (message : string)
| GoSend (provider : Provider) (e : Event.t).

Section WithLevels.
Context `{NotificationLevels}.

Definition eventLevelToKubernetesEventType (level : string) : K8sEventType :=
  if String.eqb level NotificationLevelWarning then TypeWarning
  else if String.eqb level NotificationLevelInfo then TypeNormal
  else TypeNormal.

(** The [switch] that picks the provider; [None] is its [default] case. *)
Definition providerFor (notificationConfig : Notification.t) : option Provider :=
  match Notification.Slack notificationConfig,
        Notification.Teams notificationConfig,
        Notification.Mailgun notificationConfig,
        Notification.SMTP notificationConfig with
  | Some _, _, _, _ => Some (SlackProvider notificationConfig)
  | None, Some _, _, _ => Some (TeamsProvider notificationConfig)
  | None, None, Some _, _ => Some (MailgunProvider notificationConfig)
  | None, None, None, Some _ => Some (SMTPProvider notificationConfig)
  | None, None, None, None => None
  end.

(** One round of the loop over [e.Jenkins.Spec.Notifications]. *)
Definition notifyChannel (e : Event.t) (notificationConfig : Notification.t) : list Effect :=
  match providerFor notificationConfig with
  | None => []
  | Some provider =>
      let isInfoEvent := String.eqb (Event.Level e) NotificationLevelInfo in
      let wantsWarning :=
        String.eqb (Notification.LoggingLevel notificationConfig) NotificationLevelWarning in
      if isInfoEvent && wantsWarning then [] else [GoSend provider e]
  end.

(** One round of the loop over the events of the channel. *)
Definition handleEvent (e : Event.t) : list Effect :=
  if negb (Reason.HasMessages (Event.Reason e)) then []
  else
    Emit (Event.Jenkins e)
         (eventLevelToKubernetesEventType (Event.Level e))
         (Event.Reason e)
         (Go.Join (Reason.Short (Event.Reason e)) "; ")
    :: flat_map (notifyChannel e)
         (JenkinsSpec.Notifications (Jenkins.Spec (Event.Jenkins e))).

(** [Listen] over the events the channel delivers, in order. *)
Definition Listen (events : list Event.t) : list Effect :=
  flat_map handleEvent events.

End WithLevels.

#[global] Instance Notification_eq_dec : EqDecision Notification.t.
Proof. solve_decision. Defined.

(** The [Send] calls of a trace that go to the channel [c]. *)
Definition sendsTo (c : Notification.t) (trace : list Effect) : list Effect :=
  List.filter (fun eff => match eff with
                          | GoSend p _ => bool_decide (configOf p = c)
                          | Emit _ _ _ _ => false
                          end) trace.

End Notifications.

(** ** The platform

    The resource store of the platform as the reconciler's client sees it,
    the instance under reconciliation, the clock, and what the reconciler
    has caused so far. *)
Module Platform.

(** [corev1.Secret]: [Data] maps a key to a byte slice, [None] for [nil]. *)
Module Secret.
Record t := {
  ObjectMeta : ObjectMeta.t;
  Data : gmap string (option (list Byte.byte))
}.
(** [found.Data[key]]: [nil] for a missing key. *)
Definition data (s : t) (key : string) : option (list Byte.byte) :=
  default None (Data s !! key).
End Secret.

(** [corev1.Service]: the selector, and the rest of its specification. *)
Module K8sService.
Record t := {
  ObjectMeta : ObjectMeta.t;
  Selector : gmap string string;
  Ports : list (string * Z * Z)
}.
End K8sService.

Module Role.
Record t := {
  ObjectMeta : ObjectMeta.t;
  Rules : list string
}.
End Role.

Module Subject.
Record t := {
  Kind : string;
  Name : string;
  Namespace : string
}.
End Subject.

Module RoleBinding.
Record t := {
  ObjectMeta : ObjectMeta.t;
  RoleRef : RoleRef.t;
  Subjects : list Subject.t
}.
Definition Name (rb : t) : string := ObjectMeta.Name (ObjectMeta rb).
End RoleBinding.

(** [corev1.Event], with the fields [filterEvents] reads. *)
Module K8sEvent.
Record t := {
  Name : string;
  Namespace : string;
  Type_ : string;
  LastTimestamp : Z;
  Message : string;
  FieldPath : string
}.
End K8sEvent.

Module ContainerStatus.
Record t := {
  Name : string;
  Ready : bool;
  Terminated : option string
}.
End ContainerStatus.

Module Pod.
Record t := {
  Name : string;
  Phase : string;
  ContainerStatuses : list ContainerStatus.t
}.
End Pod.

Definition PodPending := "Pending".
Definition PodRunning := "Running".
Definition EventTypeNormal := "Normal".

Inductive Verb := VerbCreate | VerbUpdate | VerbDelete.
Inductive Kind := KindSecret | KindService | KindRole | KindRoleBinding.

(** A write request sent to the platform, whether it succeeded or not. *)
Record Write := {
  verb : Verb;
  kind : Kind;
  namespace : string;
  name : string
}.

Record World := {
  jenkins : Jenkins.t;
  secrets : gmap (string * string) Secret.t;
  services : gmap (string * string) K8sService.t;
  roles : gmap (string * string) Role.t;
  roleBindings : gmap (string * string) RoleBinding.t;
  events : list K8sEvent.t;
  now : Z;
  faults : list bool;
  route : Route.Process;
  writes : list Write;
  notifications : list Event.t;
  restarts : list Reason.t
}.

Definition set_secrets (x : gmap (string * string) Secret.t) (w : World) : World :=
  {| jenkins := jenkins w; secrets := x; services := services w; roles := roles w;
     roleBindings := roleBindings w; events := events w; now := now w;
     faults := faults w; route := route w; writes := writes w;
     notifications := notifications w; restarts := restarts w |}.

Definition set_services (x : gmap (string * string) K8sService.t) (w : World) : World :=
  {| jenkins := jenkins w; secrets := secrets w; services := x; roles := roles w;
     roleBindings := roleBindings w; events := events w; now := now w;
     faults := faults w; route := route w; writes := writes w;
     notifications := notifications w; restarts := restarts w |}.

Definition set_roles (x : gmap (string * string) Role.t) (w : World) : World :=
  {| jenkins := jenkins w; secrets := secrets w; services := services w; roles := x;
     roleBindings := roleBindings w; events := events w; now := now w;
     faults := faults w; route := route w; writes := writes w;
     notifications := notifications w; restarts := restarts w |}.

Definition set_roleBindings (x : gmap (string * string) RoleBinding.t) (w : World) : World :=
  {| jenkins := jenkins w; secrets := secrets w; services := services w; roles := roles w;
     roleBindings := x; events := events w; now := now w;
     faults := faults w; route := route w; writes := writes w;
     notifications := notifications w; restarts := restarts w |}.

Definition set_faults (x : list bool) (w : World) : World :=
  {| jenkins := jenkins w; secrets := secrets w; services := services w; roles := roles w;
     roleBindings := roleBindings w; events := events w; now := now w;
     faults := x; route := route w; writes := writes w;
     notifications := notifications w; restarts := restarts w |}.

Definition set_route (x : Route.Process) (w : World) : World :=
  {| jenkins := jenkins w; secrets := secrets w; services := services w; roles := roles w;
     roleBindings := roleBindings w; events := events w; now := now w;
     faults := faults w; route := x; writes := writes w;
     notifications := notifications w; restarts := restarts w |}.

Definition set_writes (x : list Write) (w : World) : World :=
  {| jenkins := jenkins w; secrets := secrets w; services := services w; roles := roles w;
     roleBindings := roleBindings w; events := events w; now := now w;
     faults := faults w; route := route w; writes := x;
     notifications := notifications w; restarts := restarts w |}.

Definition set_notifications (x : list Event.t) (w : World) : World :=
  {| jenkins := jenkins w; secrets := secrets w; services := services w; roles := roles w;
     roleBindings := roleBindings w; events := events w; now := now w;
     faults := faults w; route := route w; writes := writes w;
     notifications := x; restarts := restarts w |}.

Definition set_restarts (x : list Reason.t) (w : World) : World :=
  {| jenkins := jenkins w; secrets := secrets w; services := services w; roles := roles w;
     roleBindings := roleBindings w; events := events w; now := now w;
     faults := faults w; route := route w; writes := writes w;
     notifications := notifications w; restarts := x |}.

(** The state monad of code that talks to the platform. *)
Definition M (A : Type) : Type := World -> A * World.

#[global] Instance M_ret : MRet M := fun A (a : A) (w : World) => (a, w).

#[global] Instance M_bind : MBind M :=
  fun A B (f : A -> M B) (m : M A) (w : World) => let '(a, w') := m w in f a w'.

Definition gets {A : Type} (f : World -> A) : M A := fun w => (f w, w).

Definition modify (f : World -> World) : M unit := fun w => (tt, f w).

(** Go's [if err := m; err != nil { return err }] followed by [k]. *)
Definition check (m : M error) (k : M error) : M error :=
  err ← m;
  match err with
  | Some e => mret (Some e)
  | None => k
  end.

(** Each request to the platform takes the next entry of [faults]: on [true]
    the request fails with an error that is neither "not found" nor
    "already exists", and changes nothing. With no entry left, requests no
    longer fail this way. *)
Definition transient : Err := ErrOther "transient".

Definition fault : M bool := fun w =>
  match faults w with
  | [] => (false, w)
  | b :: rest => (b, set_faults rest w)
  end.

Definition record (v : Verb) (k : Kind) (key : string * string) : M unit :=
  modify (fun w => set_writes (writes w ++ [{| verb := v; kind := k;
                                               namespace := key.1; name := key.2 |}]) w).

(** A kind of stored object: its store in the world, and the namespace and
    name of an object. What the platform returns carries the namespace and
    the name it is stored under. *)
Class Stored (V : Type) := {
  kindOf : Kind;
  store : World -> gmap (string * string) V;
  set_store : gmap (string * string) V -> World -> World;
  metaOf : V -> ObjectMeta.t;
  withMeta : ObjectMeta.t -> V -> V
}.

Definition rekey (key : string * string) (m : ObjectMeta.t) : ObjectMeta.t :=
  {| ObjectMeta.Name := key.2; ObjectMeta.Namespace := key.1;
     ObjectMeta.Labels := ObjectMeta.Labels m;
     ObjectMeta.Annotations := ObjectMeta.Annotations m |}.

Definition keyOf `{Stored V} (obj : V) : string * string :=
  (ObjectMeta.Namespace (metaOf obj), ObjectMeta.Name (metaOf obj)).

Definition stored `{Stored V} (key : string * string) (obj : V) : V :=
  withMeta (rekey key (metaOf obj)) obj.

Section Client.
Context `{Stored V}.

(** [r.Client.Get(ctx, types.NamespacedName{Name, Namespace}, found)]: the
    error, or else the object read into [found]. *)
Definition ClientGet (namespace name : string) : M (Err + V) :=
  failed ← fault;
  if failed : bool then mret (inl transient)
  else
    m ← gets store;
    match m !! (namespace, name) with
    | Some obj => mret (inr (stored (namespace, name) obj))
    | None => mret (inl ErrNotFound)
    end.

(** [r.Client.Create(ctx, obj)]. *)
Definition ClientCreate (obj : V) : M error :=
  record VerbCreate kindOf (keyOf obj);;
  failed ← fault;
  if failed : bool then mret (Some transient)
  else
    m ← gets store;
    match m !! keyOf obj with
    | Some _ => mret (Some ErrAlreadyExists)
    | None => modify (set_store (<[keyOf obj := obj]> m));; mret None
    end.

(** [r.Client.Update(ctx, obj)]. *)
Definition ClientUpdate (obj : V) : M error :=
  record VerbUpdate kindOf (keyOf obj);;
  failed ← fault;
  if failed : bool then mret (Some transient)
  else
    m ← gets store;
    match m !! keyOf obj with
    | Some _ => modify (set_store (<[keyOf obj := obj]> m));; mret None
    | None => mret (Some ErrNotFound)
    end.

(** [r.Client.Delete(ctx, obj)]. *)
Definition ClientDelete (obj : V) : M error :=
  record VerbDelete kindOf (keyOf obj);;
  failed ← fault;
  if failed : bool then mret (Some transient)
  else
    m ← gets store;
    match m !! keyOf obj with
    | Some _ => modify (set_store (delete (keyOf obj) m));; mret None
    | None => mret (Some ErrNotFound)
    end.

(** [r.Client.List(ctx, list, client.InNamespace(namespace))]. *)
Definition ClientList (namespace : string) : M (list V * error) :=
  failed ← fault;
  if failed : bool then mret ([], Some transient)
  else
    m ← gets store;
    mret (omap (fun '(key, obj) =>
                  if String.eqb key.1 namespace then Some (stored key obj) else None)
               (map_to_list m), None).

End Client.

#[global] Instance Stored_Secret : Stored Secret.t := {|
  kindOf := KindSecret; store := secrets; set_store := set_secrets;
  metaOf := Secret.ObjectMeta;
  withMeta m s := {| Secret.ObjectMeta := m; Secret.Data := Secret.Data s |}
|}.

#[global] Instance Stored_Service : Stored K8sService.t := {|
  kindOf := KindService; store := services; set_store := set_services;
  metaOf := K8sService.ObjectMeta;
  withMeta m s := {| K8sService.ObjectMeta := m;
                     K8sService.Selector := K8sService.Selector s;
                     K8sService.Ports := K8sService.Ports s |}
|}.

#[global] Instance Stored_Role : Stored Role.t := {|
  kindOf := KindRole; store := roles; set_store := set_roles;
  metaOf := Role.ObjectMeta;
  withMeta m r := {| Role.ObjectMeta := m; Role.Rules := Role.Rules r |}
|}.

#[global] Instance Stored_RoleBinding : Stored RoleBinding.t := {|
  kindOf := KindRoleBinding; store := roleBindings; set_store := set_roleBindings;
  metaOf := RoleBinding.ObjectMeta;
  withMeta m rb := {| RoleBinding.ObjectMeta := m;
                      RoleBinding.RoleRef := RoleBinding.RoleRef rb;
                      RoleBinding.Subjects := RoleBinding.Subjects rb |}
|}.

(** [r.Client.List] of the events of a namespace. *)
Definition ClientListEvents (namespace : string) : M (list K8sEvent.t * error) :=
  failed ← fault;
  if failed : bool then mret ([], Some transient)
  else
    evs ← gets events;
    mret (List.filter (fun ev => String.eqb (K8sEvent.Namespace ev) namespace) evs, None).

(** Modelled from the spec: [CreateResource], [UpdateResource] and
    [CreateOrUpdateResource] of [pkg/configuration] are not among the
    sources. They are the create and the update of the platform resource
    store ("get/create/update/list/delete operations over typed resource
    kinds", "idempotent create-or-update"). *)
Definition CreateResource `{Stored V} (obj : V) : M error := ClientCreate obj.

Definition UpdateResource `{Stored V} (obj : V) : M error := ClientUpdate obj.

Definition CreateOrUpdateResource `{Stored V} (obj : V) : M error :=
  err ← ClientCreate obj;
  match err with
  | Some e => if IsAlreadyExists e then UpdateResource obj else mret (Some e)
  | None => mret None
  end.

End Platform.

(** ** The base-configuration reconciler ([pkg/configuration/base]) *)
Module Base.
Import Platform.

(** [reconcile.Result]; [RequeueAfter] is a duration in nanoseconds. *)
Module Result.
Record t := {
  Requeue : bool;
  RequeueAfter : Z
}.
Definition zero : t := {| Requeue := false; RequeueAfter := 0 |}.
End Result.

Definition Second : Z := 1000000000.
Definition Minute : Z := 60 * Second.

(** Functions and methods the reconciler calls that are not among the
    sources. [JenkinsClient] is the client of the instance's API;
    [ClientSet] is the reconciler's discovery client; [showContainerStatus]
    is the rendering of a container status under [%+v]. *)
Class Collaborators := {
  JenkinsClient : Type;
  ClientSet : Route.Clientset;
  NewResourceObjectMeta : Jenkins.t -> ObjectMeta.t;
  GetOperatorCredentialsSecretName : Jenkins.t -> string;
  NewOperatorCredentialsSecret : ObjectMeta.t -> Jenkins.t -> Secret.t;
  OperatorCredentialsSecretUserNameKey : string;
  OperatorCredentialsSecretPasswordKey : string;
  NewRole : ObjectMeta.t -> Role.t;
  UpdateService : K8sService.t -> Service.t -> Z -> K8sService.t;
  GetJenkinsHTTPServiceName : Jenkins.t -> string;
  GetJenkinsSlavesServiceName : Jenkins.t -> string;
  createScriptsConfigMap : ObjectMeta.t -> M error;
  createInitConfigurationConfigMap : ObjectMeta.t -> M error;
  createBaseConfigurationConfigMap : ObjectMeta.t -> M error;
  addLabelForWatchesResources : Customization.t -> M error;
  createServiceAccount : ObjectMeta.t -> M error;
  createRoute : ObjectMeta.t -> string -> Jenkins.t -> M error;
  ensureJenkinsDeployment : ObjectMeta.t -> M (Result.t * error);
  ensureJenkinsMasterPod : ObjectMeta.t -> M (Result.t * error);
  GetJenkinsMasterPod : M (Pod.t * error);
  IsJenkinsTerminating : Pod.t -> bool;
  showContainerStatus : ContainerStatus.t -> string;
  GetJenkinsClient : M (JenkinsClient * error);
  verifyPlugins : JenkinsClient -> M (bool * error);
  groovyEnsure : JenkinsClient -> string -> Customization.t ->
                 (string -> bool) -> (string -> string) -> M (bool * error);
  restartPhase : Event.Phase
}.

(** Modelled from the spec: [resources.NewRoleBinding] is not among the
    sources. The binding it builds has the given name and namespace, refers
    to the given role and binds the given service account. *)
Definition NewRoleBinding (name namespace serviceAccountName : string)
    (roleRef : RoleRef.t) : RoleBinding.t :=
  {| RoleBinding.ObjectMeta :=
       {| ObjectMeta.Name := name; ObjectMeta.Namespace := namespace;
          ObjectMeta.Labels := ∅; ObjectMeta.Annotations := ∅ |};
     RoleBinding.RoleRef := roleRef;
     RoleBinding.Subjects :=
       [{| Subject.Kind := "ServiceAccount"; Subject.Name := serviceAccountName;
           Subject.Namespace := namespace |}] |}.

(** Modelled from the spec: [RestartJenkinsMasterPod] of [pkg/configuration]
    is not among the sources. It "emits a NotificationEvent{Warning}" that
    carries the reason "and issues the restart action"
    ([RestartManagedInstance(RestartReason) -> error]), which is a request
    to the platform. The spec leaves the event's phase open: it is the
    parameter [restartPhase]. *)
Definition RestartJenkinsMasterPod `{Collaborators} `{NotificationLevels}
    (reason : Reason.t) : M error :=
  j ← gets jenkins;
  modify (fun w => set_notifications
                     (notifications w ++ [{| Event.Jenkins := j;
                                             Event.Phase_ := restartPhase;
                                             Event.Level := NotificationLevelWarning;
                                             Event.Reason := reason |}]) w);;
  modify (fun w => set_restarts (restarts w ++ [reason]) w);;
  failed ← fault;
  mret (if failed : bool then Some transient else None).

Section Reconciler.
Context `{Constants} `{NotificationLevels} `{Collaborators}.

Definition useDeploymentForJenkinsMaster (jenkins : Jenkins.t) : bool :=
  match Jenkins.Annotations jenkins !! "jenkins.io/use-deployment" with
  | Some val => String.eqb val "true"
  | None => false
  end.

Definition createOperatorCredentialsSecret (meta : ObjectMeta.t) : M error :=
  j ← gets jenkins;
  got ← ClientGet (V := Secret.t) (Jenkins.Namespace j)
          (GetOperatorCredentialsSecretName j);
  match got with
  | inl e =>
      if IsNotFound e
      then j ← gets jenkins; CreateResource (NewOperatorCredentialsSecret meta j)
      else mret (Some e)
  | inr found =>
      if bool_decide (Secret.data found OperatorCredentialsSecretUserNameKey <> None)
         && bool_decide (Secret.data found OperatorCredentialsSecretPasswordKey <> None)
      then mret None
      else j ← gets jenkins; UpdateResource (NewOperatorCredentialsSecret meta j)
  end.

Definition createRBAC (meta : ObjectMeta.t) : M error :=
  check (createServiceAccount meta)
  (check (CreateOrUpdateResource (NewRole meta))
  (check (CreateOrUpdateResource
            (NewRoleBinding (ObjectMeta.Name meta) (ObjectMeta.Namespace meta)
               (ObjectMeta.Name meta)
               {| RoleRef.APIGroup := "rbac.authorization.k8s.io";
                  RoleRef.Kind := "Role";
                  RoleRef.Name := ObjectMeta.Name meta |}))
  (mret None))).

Definition getExtraRoleBindingName (serviceAccountName : string) (roleRef : RoleRef.t) : string :=
  let typeName := if String.eqb (RoleRef.Kind roleRef) "ClusterRole" then "cr" else "r" in
  Go.Sprintf "%s-%s-%s"
    [Go.ArgS serviceAccountName; Go.ArgS typeName; Go.ArgS (RoleRef.Name roleRef)].

(** The first loop of [ensureExtraRBAC], over the roles of the instance. *)
Fixpoint createExtraRoleBindings (meta : ObjectMeta.t) (roles : list RoleRef.t) : M error :=
  match roles with
  | [] => mret None
  | roleRef :: rest =>
      let name := getExtraRoleBindingName (ObjectMeta.Name meta) roleRef in
      let roleBinding :=
        NewRoleBinding name (ObjectMeta.Namespace meta) (ObjectMeta.Name meta) roleRef in
      err ← ClientCreate roleBinding;
      match err with
      | Some e =>
          if IsAlreadyExists e then createExtraRoleBindings meta rest
          else mret (Some e)
      | None => createExtraRoleBindings meta rest
      end
  end.

(** The prefix test of the second loop. *)
Definition hasExtraRoleBindingPrefix (meta : ObjectMeta.t) (name : string) : bool :=
  Go.HasPrefix name
    (getExtraRoleBindingName (ObjectMeta.Name meta)
       {| RoleRef.APIGroup := ""; RoleRef.Kind := "Role"; RoleRef.Name := "" |})
  || Go.HasPrefix name
       (getExtraRoleBindingName (ObjectMeta.Name meta)
          {| RoleRef.APIGroup := ""; RoleRef.Kind := "ClusterRole"; RoleRef.Name := "" |}).

(** The inner loop of the second loop: is the binding's name the name of one
    of the instance's roles? *)
Definition foundAmong (meta : ObjectMeta.t) (roles : list RoleRef.t) (name : string) : bool :=
  existsb (fun roleRef =>
             String.eqb name (getExtraRoleBindingName (ObjectMeta.Name meta) roleRef))
          roles.

(** The second loop of [ensureExtraRBAC], over the listed bindings. *)
Fixpoint deleteExtraRoleBindings (meta : ObjectMeta.t) (items : list RoleBinding.t) : M error :=
  match items with
  | [] => mret None
  | roleBinding :: rest =>
      if negb (hasExtraRoleBindingPrefix meta (RoleBinding.Name roleBinding))
      then deleteExtraRoleBindings meta rest
      else
        j ← gets jenkins;
        if negb (foundAmong meta (JenkinsSpec.Roles (Jenkins.Spec j))
                   (RoleBinding.Name roleBinding))
        then
          err ← ClientDelete roleBinding;
          match err with
          | Some e => mret (Some e)
          | None => deleteExtraRoleBindings meta rest
          end
        else deleteExtraRoleBindings meta rest
  end.

Definition ensureExtraRBAC (meta : ObjectMeta.t) : M error :=
  j ← gets jenkins;
  check (createExtraRoleBindings meta (JenkinsSpec.Roles (Jenkins.Spec j)))
  (j ← gets jenkins;
   '(roleBindings, err) ← ClientList (V := RoleBinding.t) (Jenkins.Namespace j);
   match err with
   | Some e => mret (Some e)
   | None => deleteExtraRoleBindings meta roleBindings
   end).

Definition createService (meta : ObjectMeta.t) (name : string) (config : Service.t)
    (targetPort : Z) : M error :=
  let update (service : K8sService.t) : M error :=
    let service :=
      {| K8sService.ObjectMeta := K8sService.ObjectMeta service;
         K8sService.Selector := ObjectMeta.Labels meta;
         K8sService.Ports := K8sService.Ports service |} in
    UpdateResource (UpdateService service config targetPort) in
  got ← ClientGet (V := K8sService.t) (ObjectMeta.Namespace meta) name;
  match got with
  | inl e =>
      if IsNotFound e then
        let service :=
          UpdateService
            {| K8sService.ObjectMeta :=
                 {| ObjectMeta.Name := name;
                    ObjectMeta.Namespace := ObjectMeta.Namespace meta;
                    ObjectMeta.Labels := ObjectMeta.Labels meta;
                    ObjectMeta.Annotations := ∅ |};
               K8sService.Selector := ObjectMeta.Labels meta;
               K8sService.Ports := [] |}
            config targetPort in
        check (CreateResource service) (update service)
      else mret (Some e)
  | inr service => update service
  end.

(** [resources.IsRouteAPIAvailable(&r.ClientSet)], on the process state of
    the world. *)
Definition IsRouteAPIAvailable : M bool := fun w =>
  let '(b, p) := Route.IsRouteAPIAvailable ClientSet (route w) in (b, set_route p w).

Definition ensureResourcesRequiredForJenkinsPod (metaObject : ObjectMeta.t) : M error :=
  check (createOperatorCredentialsSecret metaObject)
  (check (createScriptsConfigMap metaObject)
  (check (createInitConfigurationConfigMap metaObject)
  (check (createBaseConfigurationConfigMap metaObject)
  (check (j ← gets jenkins;
          addLabelForWatchesResources (JenkinsSpec.GroovyScripts (Jenkins.Spec j)))
  (check (j ← gets jenkins;
          addLabelForWatchesResources (JenkinsSpec.ConfigurationAsCode (Jenkins.Spec j)))
  (check (createRBAC metaObject)
  (check (ensureExtraRBAC metaObject)
  (j ← gets jenkins;
   let httpServiceName := GetJenkinsHTTPServiceName j in
   check (createService metaObject httpServiceName
            (JenkinsSpec.Service (Jenkins.Spec j)) DefaultHTTPPortInt32)
   (j ← gets jenkins;
    check (createService metaObject (GetJenkinsSlavesServiceName j)
             (JenkinsSpec.SlaveService (Jenkins.Spec j)) DefaultSlavePortInt32)
    (available ← IsRouteAPIAvailable;
     if available : bool
     then j ← gets jenkins;
          check (createRoute metaObject httpServiceName j) (mret None)
     else mret None)))))))))).

(** The body of the loop of [filterEvents] keeps an event unless one of its
    three tests skips it. [start] is the receiver's
    [r.Configuration.Jenkins.Status.ProvisionStartTime], which the caller
    has found not to be [nil]. *)
Definition filterEvents (start : Z) (source : list K8sEvent.t) (jenkinsMasterPod : Pod.t)
    : list string :=
  flat_map
    (fun eventItem =>
       if (K8sEvent.LastTimestamp eventItem <? start)%Z then []
       else if String.eqb (K8sEvent.Type_ eventItem) EventTypeNormal then []
       else if negb (Go.HasPrefix (K8sEvent.Name eventItem) (Pod.Name jenkinsMasterPod)) then []
       else [Go.Sprintf "Message: %s Subobject: %s"
               [Go.ArgS (K8sEvent.Message eventItem);
                Go.ArgS (K8sEvent.FieldPath eventItem)]])
    source.

Definition detectJenkinsMasterPodStartingIssues : M (bool * error) :=
  '(jenkinsMasterPod, err) ← GetJenkinsMasterPod;
  match err with
  | Some e => mret (false, Some e)
  | None =>
      j ← gets jenkins;
      match JenkinsStatus.ProvisionStartTime (Jenkins.Status j) with
      | None => mret (true, None)
      | Some start =>
          if String.eqb (Pod.Phase jenkinsMasterPod) PodPending then
            let timeout := (start + Minute * 2)%Z in
            now ← gets now;
            if (timeout <? now)%Z then
              j ← gets jenkins;
              '(events, err) ← ClientListEvents (Jenkins.Namespace j);
              match err with
              | Some e => mret (false, Some e)
              | None =>
                  let filteredEvents := filterEvents start events jenkinsMasterPod in
                  if (length filteredEvents =? 0)%nat then mret (false, None)
                  else mret (true, None)
              end
            else mret (false, None)
          else mret (false, None)
      end
  end.

(** The loop of [waitForJenkins] over the container statuses: the message
    for the first terminated container it meets, or else the number of
    ready containers. *)
Fixpoint countReadyContainers (statuses : list ContainerStatus.t)
    (containersReadyCount : nat) : string + nat :=
  match statuses with
  | [] => inr containersReadyCount
  | containerStatus :: rest =>
      match ContainerStatus.Terminated containerStatus with
      | Some _ =>
          inl (Go.Sprintf "Container '%s' is terminated, status '%+v'"
                 [Go.ArgS (ContainerStatus.Name containerStatus);
                  Go.ArgV (showContainerStatus containerStatus)])
      | None =>
          if negb (ContainerStatus.Ready containerStatus)
          then countReadyContainers rest containersReadyCount
          else countReadyContainers rest (S containersReadyCount)
      end
  end.

Definition waitForJenkins : M (Result.t * error) :=
  '(jenkinsMasterPod, err) ← GetJenkinsMasterPod;
  match err with
  | Some e => mret (Result.zero, Some e)
  | None =>
      if IsJenkinsTerminating jenkinsMasterPod then
        mret ({| Result.Requeue := true; Result.RequeueAfter := Second * 5 |}, None)
      else if negb (String.eqb (Pod.Phase jenkinsMasterPod) PodRunning) then
        mret ({| Result.Requeue := true; Result.RequeueAfter := Second * 5 |}, None)
      else
        match countReadyContainers (Pod.ContainerStatuses jenkinsMasterPod) 0 with
        | inl message =>
            let restartReason := Reason.NewPodRestart Reason.KubernetesSource [message] in
            err ← RestartJenkinsMasterPod restartReason;
            mret ({| Result.Requeue := true; Result.RequeueAfter := 0 |}, err)
        | inr containersReadyCount =>
            if negb (containersReadyCount =? length (Pod.ContainerStatuses jenkinsMasterPod))%nat
            then mret ({| Result.Requeue := true; Result.RequeueAfter := Second * 5 |}, None)
            else mret (Result.zero, None)
        end
  end.

Definition ensureBaseConfiguration (jenkinsClient : JenkinsClient) : M (Result.t * error) :=
  j ← gets jenkins;
  let customization :=
    {| Customization.Secret := "";
       Customization.Configurations := [Resources.GetBaseConfigurationConfigMapName j] |} in
  '(requeue, err) ← groovyEnsure jenkinsClient "base-groovy" customization
                      (fun name => Go.HasSuffix name ".groovy")
                      (fun groovyScript => groovyScript);
  mret ({| Result.Requeue := requeue; Result.RequeueAfter := 0 |}, err).

Definition pluginsChangedMessage := "Some plugins have changed, restarting Jenkins".

Definition Reconcile : M (Result.t * option JenkinsClient * error) :=
  j ← gets jenkins;
  let metaObject := NewResourceObjectMeta j in
  err ← ensureResourcesRequiredForJenkinsPod metaObject;
  match err with
  | Some e => mret (Result.zero, None, Some e)
  | None =>
  j ← gets jenkins;
  if useDeploymentForJenkinsMaster j then
    '(result, err) ← ensureJenkinsDeployment metaObject;
    match err with
    | Some e => mret (Result.zero, None, Some e)
    | None =>
        if Result.Requeue result then mret (result, None, None)
        else mret (result, None, err)
    end
  else
  '(result, err) ← ensureJenkinsMasterPod metaObject;
  match err with
  | Some e => mret (Result.zero, None, Some e)
  | None =>
  if Result.Requeue result then mret (result, None, None) else
  '(stopReconcileLoop, err) ← detectJenkinsMasterPodStartingIssues;
  match err with
  | Some e => mret (Result.zero, None, Some e)
  | None =>
  if stopReconcileLoop : bool
  then mret ({| Result.Requeue := false; Result.RequeueAfter := 0 |}, None, None) else
  '(result, err) ← waitForJenkins;
  match err with
  | Some e => mret (Result.zero, None, Some e)
  | None =>
  if Result.Requeue result then mret (result, None, None) else
  '(jenkinsClient, err) ← GetJenkinsClient;
  match err with
  | Some e => mret (Result.zero, None, Some e)
  | None =>
  '(ok, err) ← verifyPlugins jenkinsClient;
  match err with
  | Some e => mret (Result.zero, None, Some e)
  | None =>
  if negb ok then
    let message := pluginsChangedMessage in
    let restartReason := Reason.NewPodRestart Reason.OperatorSource [message] in
    err ← RestartJenkinsMasterPod restartReason;
    mret ({| Result.Requeue := true; Result.RequeueAfter := 0 |}, None, err)
  else
  '(result, err) ← ensureBaseConfiguration jenkinsClient;
  mret (result, Some jenkinsClient, err)
  end end end end end end.

End Reconciler.
End Base.

(** ** Sample data, for the examples below *)
Module Samples.

#[export] Instance constants : Constants := {|
  OperatorName := "jenkins-operator";
  LabelAppKey := "app";
  LabelAppValue := "jenkins-operator";
  LabelWatchKey := "watch";
  LabelWatchValue := "true";
  LabelJenkinsCRKey := "jenkins-cr";
  SeedJobSuffix := "job-dsl-seed";
  DefaultAmountOfExecutors := 0;
  DefaultHTTPPortInt32 := 8080;
  DefaultSlavePortInt32 := 50000
|}.

#[export] Instance levels : NotificationLevels := {|
  NotificationLevelWarning := "warning";
  NotificationLevelInfo := "info"
|}.

Definition meta (name : string) : ObjectMeta.t :=
  {| ObjectMeta.Name := name; ObjectMeta.Namespace := "default";
     ObjectMeta.Labels := ∅; ObjectMeta.Annotations := ∅ |}.

Definition customization : Customization.t :=
  {| Customization.Secret := ""; Customization.Configurations := [] |}.

Definition spec (csrfOff : bool) (roles : list RoleRef.t)
    (channels : list Notification.t) : JenkinsSpec.t :=
  {| JenkinsSpec.Master := {| JenkinsMaster.DisableCSRFProtection := csrfOff |};
     JenkinsSpec.Service := {| Service.Port := 8080 |};
     JenkinsSpec.SlaveService := {| Service.Port := 50000 |};
     JenkinsSpec.Roles := roles;
     JenkinsSpec.Notifications := channels;
     JenkinsSpec.GroovyScripts := customization;
     JenkinsSpec.ConfigurationAsCode := customization |}.

Definition instance (csrfOff : bool) (roles : list RoleRef.t)
    (channels : list Notification.t) (started : option Z) : Jenkins.t :=
  {| Jenkins.ObjectMeta := meta "example";
     Jenkins.Spec := spec csrfOff roles channels;
     Jenkins.Status := {| JenkinsStatus.ProvisionStartTime := started |} |}.

Definition slack (level : string) : Notification.t :=
  {| Notification.LoggingLevel := level; Notification.Name := "slack";
     Notification.Slack := Some "webhook"; Notification.Teams := None;
     Notification.Mailgun := None; Notification.SMTP := None |}.

Definition event (level : string) (messages : list string)
    (channels : list Notification.t) : Event.t :=
  {| Event.Jenkins := instance false [] channels None;
     Event.Phase_ := Event.PhaseBase;
     Event.Level := level;
     Event.Reason := Reason.NewPodRestart Reason.OperatorSource messages |}.

#[export] Instance helpers : Resources.Helpers := {|
  Resources.getClusterDomain d := (d, None);
  Resources.GetJenkinsHTTPServiceFQDN j d := ("jenkins-operator-http-example.default.svc." +:+ d, None);
  Resources.GetJenkinsSlavesServiceFQDN j d := ("jenkins-operator-slave-example.default.svc." +:+ d, None);
  Resources.GetJenkinsOpts j := ∅;
  Resources.buildConfigMapTypeMeta := ("ConfigMap", "v1")
|}.

Definition pod (phase : string) (statuses : list Platform.ContainerStatus.t)
    : Platform.Pod.t :=
  {| Platform.Pod.Name := "jenkins-example"; Platform.Pod.Phase := phase;
     Platform.Pod.ContainerStatuses := statuses |}.

Definition ready : Platform.ContainerStatus.t :=
  {| Platform.ContainerStatus.Name := "jenkins-master";
     Platform.ContainerStatus.Ready := true;
     Platform.ContainerStatus.Terminated := None |}.

Definition credentials (data : gmap string (option (list Byte.byte))) : Platform.Secret.t :=
  {| Platform.Secret.ObjectMeta := meta "jenkins-operator-credentials-example";
     Platform.Secret.Data := data |}.

(** Collaborators that succeed and leave the world as it is: the pod they
    fetch is [p], and the plugin check answers [pluginsOk]. *)
Definition collaborators (p : Platform.Pod.t) (pluginsOk : bool) : Base.Collaborators := {|
  Base.JenkinsClient := unit;
  Base.ClientSet := {| Route.ServerSupportsVersionFails := fun _ => true |};
  Base.NewResourceObjectMeta j := meta ("jenkins-operator-" +:+ Jenkins.Name j);
  Base.GetOperatorCredentialsSecretName j :=
    "jenkins-operator-credentials-" +:+ Jenkins.Name j;
  Base.NewOperatorCredentialsSecret m j :=
    credentials (<["user" := Some [Byte.x6a]]> (<["password" := Some [Byte.x70]]> ∅));
  Base.OperatorCredentialsSecretUserNameKey := "user";
  Base.OperatorCredentialsSecretPasswordKey := "password";
  Base.NewRole m := {| Platform.Role.ObjectMeta := m; Platform.Role.Rules := [] |};
  Base.UpdateService svc cfg port :=
    {| Platform.K8sService.ObjectMeta := Platform.K8sService.ObjectMeta svc;
       Platform.K8sService.Selector := Platform.K8sService.Selector svc;
       Platform.K8sService.Ports := [("", Service.Port cfg, port)] |};
  Base.GetJenkinsHTTPServiceName j := "jenkins-operator-http-" +:+ Jenkins.Name j;
  Base.GetJenkinsSlavesServiceName j := "jenkins-operator-slave-" +:+ Jenkins.Name j;
  Base.createScriptsConfigMap _ := mret None;
  Base.createInitConfigurationConfigMap _ := mret None;
  Base.createBaseConfigurationConfigMap _ := mret None;
  Base.addLabelForWatchesResources _ := mret None;
  Base.createServiceAccount _ := mret None;
  Base.createRoute _ _ _ := mret None;
  Base.ensureJenkinsDeployment _ := mret (Base.Result.zero, None);
  Base.ensureJenkinsMasterPod _ := mret (Base.Result.zero, None);
  Base.GetJenkinsMasterPod := mret (p, None);
  Base.IsJenkinsTerminating _ := false;
  Base.showContainerStatus cs := Platform.ContainerStatus.Name cs;
  Base.GetJenkinsClient := mret (tt, None);
  Base.verifyPlugins _ := mret (pluginsOk, None);
  Base.groovyEnsure _ _ _ _ _ := mret (false, None);
  Base.restartPhase := Event.PhaseBase
|}.

Definition binding (name : string) : Platform.RoleBinding.t :=
  Base.NewRoleBinding name "default" "jenkins-operator-example"
    {| RoleRef.APIGroup := "rbac.authorization.k8s.io"; RoleRef.Kind := "ClusterRole";
       RoleRef.Name := "view" |}.

Definition adminRole : RoleRef.t :=
  {| RoleRef.APIGroup := "rbac.authorization.k8s.io"; RoleRef.Kind := "ClusterRole";
     RoleRef.Name := "admin" |}.

(** Three bindings: the one of the desired role [admin], a managed one of a
    role no longer desired, and one that is not the operator's. *)
Definition bindings : gmap (string * string) Platform.RoleBinding.t :=
  <[("default", "jenkins-operator-example-cr-admin") :=
      binding "jenkins-operator-example-cr-admin"]>
  (<[("default", "jenkins-operator-example-r-old") :=
      binding "jenkins-operator-example-r-old"]>
  (<[("default", "unrelated") := binding "unrelated"]> ∅)).

Definition warning (name : string) (at_ : Z) : Platform.K8sEvent.t :=
  {| Platform.K8sEvent.Name := name; Platform.K8sEvent.Namespace := "default";
     Platform.K8sEvent.Type_ := "Warning"; Platform.K8sEvent.LastTimestamp := at_;
     Platform.K8sEvent.Message := "Failed to pull image";
     Platform.K8sEvent.FieldPath := "spec.containers{jenkins-master}" |}.

Definition world (j : Jenkins.t) (secrets : gmap (string * string) Platform.Secret.t)
    (bindings : gmap (string * string) Platform.RoleBinding.t)
    (events : list Platform.K8sEvent.t) (now : Z) (faults : list bool) : Platform.World :=
  {| Platform.jenkins := j; Platform.secrets := secrets; Platform.services := ∅;
     Platform.roles := ∅; Platform.roleBindings := bindings;
     Platform.events := events; Platform.now := now; Platform.faults := faults;
     Platform.route := Route.start; Platform.writes := [];
     Platform.notifications := []; Platform.restarts := [] |}.

(** The instance was provisioned at instant 0; it is now three minutes
    later. *)
Definition started : Jenkins.t := instance false [adminRole] [] (Some 0%Z).

Definition threeMinutes : Z := 180000000000.

(** Worlds and collaborators of the examples of the cycle. *)
Definition drift : Base.Collaborators := collaborators (pod "Running" [ready]) false.

Definition pending : Base.Collaborators := collaborators (pod "Pending" []) true.

Definition quiet : Platform.World := world started ∅ bindings [] threeMinutes [].

Definition noisy : Platform.World :=
  world started ∅ bindings
    [warning "jenkins-example.17a" 5%Z; warning "other-pod.2c" 7%Z] threeMinutes [].

Definition unprovisioned : Platform.World :=
  world (instance false [adminRole] [] None) ∅ bindings [] threeMinutes [].

Definition provisioned : Platform.World :=
  world started
    {[ ("default", "jenkins-operator-credentials-example") :=
         credentials (<["user" := Some [Byte.x61]]> (<["password" := Some [Byte.x62]]> ∅)) ]}
    bindings [] threeMinutes [].

End Samples.

(** ** The comparison helpers of the reconciler ([base/reconciler.go]) *)
Module Compare.

(** A Go slice: [None] is the [nil] slice, [Some []] an empty slice that is
    not [nil]. *)
Definition Slice (A : Type) : Type := option (list A).

(** The elements a [range] over the slice visits. *)
Definition elems {A : Type} (s : Slice A) : list A := default [] s.

(** [append(s, x)]. *)
Definition append {A : Type} (s : Slice A) (x : A) : Slice A := Some (elems s ++ [x]).

(** [append(s, t...)]: [s] itself when [t] has no element. *)
Definition appendAll {A : Type} (s t : Slice A) : Slice A :=
  match elems t with
  | [] => s
  | _ :: _ => Some (elems s ++ elems t)
  end.

(** The slice a loop builds from [nil] by appending what it keeps: [nil]
    when it keeps nothing. *)
Definition collected {A : Type} (kept : list A) : Slice A :=
  match kept with
  | [] => None
  | _ :: _ => Some kept
  end.

(** [reflect.DeepEqual] on two slices whose elements compare by their
    fields: both [nil], or both not [nil] with equal elements in order. *)
Definition DeepEqual `{EqDecision A} (s t : Slice A) : bool := bool_decide (s = t).

(** [corev1.LocalObjectReference]. *)
Module LocalObjectReference.
Record t := {
  Name : string
}.
End LocalObjectReference.

(** [corev1.EnvVar]; what [ValueFrom] points to is opaque. *)
Module EnvVar.
Record t := {
  Name : string;
  Value : string;
  ValueFrom : option string
}.
End EnvVar.

(** [corev1.VolumeMount]; [Other] stands for the fields the reconciler does
    not read, which [reflect.DeepEqual] compares all the same. *)
Module VolumeMount.
Record t := {
  Name : string;
  ReadOnly : bool;
  MountPath : string;
  SubPath : string;
  Other : string
}.
End VolumeMount.

(** [corev1.Volume]; the volume source is opaque. *)
Module Volume.
Record t := {
  Name : string;
  VolumeSource : string
}.
End Volume.

(** [corev1.Container], with the field the comparison reads. *)
Module Container.
Record t := {
  VolumeMounts : Slice VolumeMount.t
}.
End Container.

(** What [compareVolumes] reads of the pod: [Spec.ServiceAccountName] and
    [Spec.Volumes]. *)
Module PodSpec.
Record t := {
  ServiceAccountName : string;
  Volumes : Slice Volume.t
}.
End PodSpec.

#[global] Instance EnvVar_eq_dec : EqDecision EnvVar.t.
Proof. solve_decision. Defined.

#[global] Instance VolumeMount_eq_dec : EqDecision VolumeMount.t.
Proof. solve_decision. Defined.

#[global] Instance Volume_eq_dec : EqDecision Volume.t.
Proof. solve_decision. Defined.

Definition compareImagePullSecrets (expected actual : list LocalObjectReference.t) : bool :=
  forallb
    (fun expected =>
       existsb (fun actual => String.eqb (LocalObjectReference.Name expected)
                                         (LocalObjectReference.Name actual))
               actual)
    expected.

(** The order in which Go visits the keys does not matter: the answer is
    false as soon as one key fails. *)
Definition compareMap (expected actual : gmap string string) : bool :=
  forallb
    (fun '(expectedKey, expectedValue) =>
       match actual !! expectedKey with
       | None => false
       | Some actualValue => String.eqb expectedValue actualValue
       end)
    (map_to_list expected).

(** The test of the loop of [compareEnv]. *)
Definition isKubernetesEnv (name : string) : bool :=
  String.eqb name "KUBERNETES_PORT_443_TCP_ADDR" || String.eqb name "KUBERNETES_PORT"
  || String.eqb name "KUBERNETES_PORT_443_TCP" || String.eqb name "KUBERNETES_SERVICE_HOST".

Definition compareEnv (expected actual : Slice EnvVar.t) : bool :=
  let actualEnv :=
    fold_left (fun (actualEnv : Slice EnvVar.t) env =>
                 if isKubernetesEnv (EnvVar.Name env) then actualEnv
                 else append actualEnv env)
              (elems actual) None in
  DeepEqual expected actualEnv.

Definition CompareContainerVolumeMounts (expected actual : Container.t) : bool :=
  let withoutServiceAccount :=
    fold_left (fun (withoutServiceAccount : Slice VolumeMount.t) volumeMount =>
                 if negb (String.eqb (VolumeMount.MountPath volumeMount)
                            "/var/run/secrets/kubernetes.io/serviceaccount")
                 then append withoutServiceAccount volumeMount
                 else withoutServiceAccount)
              (elems (Container.VolumeMounts actual)) None in
  DeepEqual (Container.VolumeMounts expected) withoutServiceAccount.

(** [resources.GetJenkinsMasterPodBaseVolumes] is not among the sources, and
    the record of the instance above does not carry [Spec.Master.Volumes]:
    both are parameters. *)
Class VolumeSources := {
  GetJenkinsMasterPodBaseVolumes : Jenkins.t -> Slice Volume.t;
  MasterVolumes : Jenkins.t -> Slice Volume.t
}.

Definition kubeAPIAccessPrefix := "kube-api-access-".

Definition compareVolumes `{VolumeSources} (jenkins : Jenkins.t) (actualPod : PodSpec.t) : bool :=
  let toCompare :=
    fold_left (fun (toCompare : Slice Volume.t) volume =>
                 if Go.HasPrefix (Volume.Name volume) (PodSpec.ServiceAccountName actualPod)
                 then toCompare
                 else if Go.HasPrefix (Volume.Name volume) kubeAPIAccessPrefix
                 then toCompare
                 else append toCompare volume)
              (elems (PodSpec.Volumes actualPod)) None in
  DeepEqual (appendAll (GetJenkinsMasterPodBaseVolumes jenkins) (MasterVolumes jenkins))
            toCompare.

End Compare.

(** ** The route resource ([resources/route.go], [UpdateRoute]) *)
Module RouteResource.

(** [intstr.IntOrString]. *)
Inductive IntOrStringType :=
| Int
| String_.

Module IntOrString.
Record t := {
  Type_ : IntOrStringType;
  IntVal : Z;
  StrVal : string
}.
End IntOrString.


(** [routev1.RouteTargetReference]. *)
Module RouteTargetReference.
Record t := {
  Kind : string;
  Name : string;
  Weight : option Z
}.
End RouteTargetReference.

(** [routev1.RoutePort]. *)
Module RoutePort.
Record t := {
  TargetPort : IntOrString.t
}.
End RoutePort.

(** [routev1.Route]: [Port] is a pointer in [RouteSpec]; [Other] stands for
    the fields [UpdateRoute] does not touch. *)
Module Route_.
Record t := {
  ObjectMeta : ObjectMeta.t;
  To : RouteTargetReference.t;
  Port : option RoutePort.t;
  Other : string
}.
End Route_.


End RouteResource.

(** The platform events of a trace of [Listen]. *)
Definition emitted (trace : list Notifications.Effect) : list Notifications.Effect :=
  List.filter (fun eff => match eff with
                          | Notifications.Emit _ _ _ _ => true
                          | Notifications.GoSend _ _ => false
                          end) trace.

(** ** Further sample data *)
Module Cases.
Import Samples.

Definition waiting : Platform.ContainerStatus.t :=
  {| Platform.ContainerStatus.Name := "jenkins-master";
     Platform.ContainerStatus.Ready := false;
     Platform.ContainerStatus.Terminated := None |}.

Definition dead : Platform.ContainerStatus.t :=
  {| Platform.ContainerStatus.Name := "backup";
     Platform.ContainerStatus.Ready := false;
     Platform.ContainerStatus.Terminated := Some "exit code 137" |}.

(** The pod runs; its second container has terminated. *)
Definition crashed : Base.Collaborators :=
  collaborators (pod "Running" [waiting; dead]) true.

(** The pod runs with its one container ready, and the plugins match. *)
Definition healthy : Base.Collaborators :=
  collaborators (pod "Running" [ready]) true.

(** The secret is there with a user name and no password. *)
Definition halfProvisioned : Platform.World :=
  world started
    {[ ("default", "jenkins-operator-credentials-example") :=
         credentials (<["user" := Some [Byte.x61]]> ∅) ]}
    bindings [] threeMinutes [].

(** An instance that asks for deployment mode. *)
Definition deployed : Platform.World :=
  world {| Jenkins.ObjectMeta :=
             {| ObjectMeta.Name := "example"; ObjectMeta.Namespace := "default";
                ObjectMeta.Labels := ∅;
                ObjectMeta.Annotations := {[ "jenkins.io/use-deployment" := "true" ]} |};
           Jenkins.Spec := spec false [adminRole] [];
           Jenkins.Status := {| JenkinsStatus.ProvisionStartTime := Some 0%Z |} |}
    ∅ bindings [] threeMinutes [].

(** No role binding is stored yet. *)
Definition bare : Platform.World := world started ∅ ∅ [] threeMinutes [].

End Cases.

(** * Properties *)

(** ** The ownership event router *)
Section RouterProperties.
Context `{Constants}.
Import Router.

Lemma getOwnerReconcileRequests_Some (obj : Object) (req : Request) :
  getOwnerReconcileRequests obj = Some req <->
  Go.index (GetLabels obj) LabelAppKey = LabelAppValue /\
  Go.index (GetLabels obj) LabelWatchKey = LabelWatchValue /\
  Go.index (GetLabels obj) LabelJenkinsCRKey <> "" /\
  req = {| Namespace := GetNamespace obj;
           Name := Go.index (GetLabels obj) LabelJenkinsCRKey |}.
Proof.
  unfold getOwnerReconcileRequests.
  destruct (String.eqb_spec (Go.index (GetLabels obj) LabelAppKey) LabelAppValue) as [Ha|Ha];
  destruct (String.eqb_spec (Go.index (GetLabels obj) LabelWatchKey) LabelWatchValue) as [Hw|Hw];
  cbn [andb]; try (split; [discriminate | tauto]).
  destruct (Go.index (GetLabels obj) LabelJenkinsCRKey) as [|c s] eqn:Hn; cbn.
  - split; [discriminate | intros (_ & _ & Hne & _); congruence].
  - split.
    + intros [= <-]. repeat split; auto; discriminate.
    + intros (_ & _ & _ & ->). reflexivity.
Qed.

Lemma getOwnerReconcileRequests_None (obj : Object) :
  getOwnerReconcileRequests obj = None <->
  ~ (Go.index (GetLabels obj) LabelAppKey = LabelAppValue /\
     Go.index (GetLabels obj) LabelWatchKey = LabelWatchValue /\
     Go.index (GetLabels obj) LabelJenkinsCRKey <> "").
Proof.
  destruct (getOwnerReconcileRequests obj) as [req|] eqn:E.
  - apply getOwnerReconcileRequests_Some in E. split; [discriminate | tauto].
  - split; [| reflexivity]. intros _ (Ha & Hw & Hn).
    assert (getOwnerReconcileRequests obj =
            Some {| Namespace := GetNamespace obj;
                    Name := Go.index (GetLabels obj) LabelJenkinsCRKey |}) as E'
      by (apply getOwnerReconcileRequests_Some; auto).
    congruence.
Qed.

(** C6. Whether the router derives an owner key, and the name in it, depend
    on the labels alone: a request is derived exactly when the application
    label and the watch label hold their expected values and the
    owning-instance label is not empty, and it is the resource's namespace
    with that label's value as name. With no request derived, a create, a
    delete and a generic event add nothing to the queue; with one derived,
    each adds exactly that request. *)
Theorem owner_key_from_labels (obj : Object) (q : Queue) :
  (forall req,
      getOwnerReconcileRequests obj = Some req <->
      Go.index (GetLabels obj) LabelAppKey = LabelAppValue /\
      Go.index (GetLabels obj) LabelWatchKey = LabelWatchValue /\
      Go.index (GetLabels obj) LabelJenkinsCRKey <> "" /\
      req = {| Namespace := GetNamespace obj;
               Name := Go.index (GetLabels obj) LabelJenkinsCRKey |}) /\
  (forall obj',
      GetLabels obj' = GetLabels obj ->
      Name <$> getOwnerReconcileRequests obj' = Name <$> getOwnerReconcileRequests obj) /\
  (getOwnerReconcileRequests obj = None ->
      Create obj q = q /\ Delete obj q = q /\ Generic obj q = q) /\
  (forall req,
      getOwnerReconcileRequests obj = Some req ->
      Create obj q = q ++ [req] /\ Delete obj q = q ++ [req] /\
      Generic obj q = q ++ [req]).
Proof.
  split; [| split; [| split]].
  - intros req. apply getOwnerReconcileRequests_Some.
  - intros obj' Hl. unfold getOwnerReconcileRequests. rewrite Hl.
    destruct (_ && _ && _); reflexivity.
  - intros E. unfold Create, Delete, Generic. rewrite E. auto.
  - intros req E. unfold Create, Delete, Generic, Add. rewrite E. auto.
Qed.

(** C9. An update event adds at most one request to the queue: the request
    of the old object when it has one (whatever the new object yields), else
    the request of the new object when it has one, else nothing. *)
Theorem Update_enqueues_at_most_one (evt : UpdateEvent) (q : Queue) :
  exists added : list Request,
    Update evt q = q ++ added /\
    length added <= 1 /\
    (forall r1, getOwnerReconcileRequests (ObjectOld evt) = Some r1 -> added = [r1]) /\
    (getOwnerReconcileRequests (ObjectOld evt) = None ->
     forall r2, getOwnerReconcileRequests (ObjectNew evt) = Some r2 -> added = [r2]) /\
    (getOwnerReconcileRequests (ObjectOld evt) = None ->
     getOwnerReconcileRequests (ObjectNew evt) = None -> added = []).
Proof.
  unfold Update, Add.
  destruct (getOwnerReconcileRequests (ObjectOld evt)) as [r1|] eqn:E1.
  - exists [r1]. repeat split; cbn; auto; try discriminate.
    intros ? [= ->]. reflexivity.
  - destruct (getOwnerReconcileRequests (ObjectNew evt)) as [r2|] eqn:E2.
    + exists [r2]. repeat split; cbn; auto; try discriminate.
      intros _ ? [= ->]. reflexivity.
    + exists []. rewrite app_nil_r. repeat split; cbn; auto; discriminate.
Qed.

End RouterProperties.

(** ** The route capability probe *)
Section RouteProperties.
Import Route.

Lemma IsRouteAPIAvailable_checked (clientSet : Clientset) (p : Process) :
  routeAPIChecked p = true ->
  IsRouteAPIAvailable clientSet p = (isRouteAPIAvailable p, p).
Proof. intros Hc. unfold IsRouteAPIAvailable. rewrite Hc. reflexivity. Qed.

Lemma IsRouteAPIAvailable_caches (clientSet : Clientset) (p : Process) :
  routeAPIChecked (snd (IsRouteAPIAvailable clientSet p)) = true /\
  isRouteAPIAvailable (snd (IsRouteAPIAvailable clientSet p)) =
    fst (IsRouteAPIAvailable clientSet p).
Proof.
  unfold IsRouteAPIAvailable.
  destruct (routeAPIChecked p) eqn:Hc; [cbn; auto |].
  destruct (ServerSupportsVersionFails clientSet (discoveryCalls p)); cbn; auto.
Qed.

Lemma calls_checked (n : nat) (clientSet : Clientset) (p : Process) :
  routeAPIChecked p = true ->
  calls n clientSet p = (repeat (isRouteAPIAvailable p) n, p).
Proof.
  intros Hc. induction n as [|n IH]; cbn; [reflexivity |].
  rewrite (IsRouteAPIAvailable_checked _ _ Hc), IH. reflexivity.
Qed.

(** C7. The first call of [IsRouteAPIAvailable] marks the probe as done and
    caches its answer; from then on every call, whatever the platform would
    answer, returns that answer and leaves the state as it is, discovery
    counter included. A process therefore sends one discovery request in
    all, however often it asks. *)
Theorem IsRouteAPIAvailable_memoized (clientSet : Clientset) (p : Process) :
  let '(b, p1) := IsRouteAPIAvailable clientSet p in
  routeAPIChecked p1 = true /\
  (forall clientSet', IsRouteAPIAvailable clientSet' p1 = (b, p1)) /\
  (forall n clientSet', calls n clientSet' p1 = (repeat b n, p1)) /\
  discoveryCalls p1 <= S (discoveryCalls p) /\
  (forall n,
      let '(b0, _) := IsRouteAPIAvailable clientSet start in
      let '(bs, pn) := calls (S n) clientSet start in
      bs = repeat b0 (S n) /\ discoveryCalls pn = 1).
Proof.
  pose proof (IsRouteAPIAvailable_caches clientSet p) as [Hc Hb].
  destruct (IsRouteAPIAvailable clientSet p) as [b p1] eqn:E. cbn in Hc, Hb.
  split; [exact Hc |]. split; [| split; [| split]].
  - intros cs'. rewrite (IsRouteAPIAvailable_checked _ _ Hc), Hb. reflexivity.
  - intros n cs'. rewrite (calls_checked _ _ _ Hc), Hb. reflexivity.
  - revert E. unfold IsRouteAPIAvailable.
    destruct (routeAPIChecked p);
      [| destruct (ServerSupportsVersionFails clientSet (discoveryCalls p))];
      intros [= <- <-]; cbn; lia.
  - intros n. cbn [calls].
    pose proof (IsRouteAPIAvailable_caches clientSet start) as [Hc0 Hb0].
    destruct (IsRouteAPIAvailable clientSet start) as [b0 p0] eqn:E0.
    cbn in Hc0, Hb0. rewrite (calls_checked _ _ _ Hc0), Hb0. split; [reflexivity |].
    revert E0. unfold IsRouteAPIAvailable, start. cbn.
    destruct (ServerSupportsVersionFails clientSet 0); intros [= <- <-]; reflexivity.
Qed.

End RouteProperties.

(** ** The base-configuration config map *)
Section ConfigMapProperties.
Context `{Constants} `{Resources.Helpers}.
Import Resources.

(** C10. A config map built by [NewBaseConfigurationConfigMap] holds the
    entry [2-enable-csrf.groovy] exactly when [DisableCSRFProtection] is
    false; the six other script entries are there whatever the flag. *)
Theorem csrf_script_iff_protection_enabled
    (meta : ObjectMeta.t) (jenkins : Jenkins.t) (domain : string) (cm : ConfigMap.t)
    (Hbuilt : NewBaseConfigurationConfigMap meta jenkins domain = (Some cm, None)) :
  (is_Some (ConfigMap.Data cm !! "2-enable-csrf.groovy") <->
   JenkinsMaster.DisableCSRFProtection (JenkinsSpec.Master (Jenkins.Spec jenkins)) = false) /\
  is_Some (ConfigMap.Data cm !! "1-basic-settings.groovy") /\
  is_Some (ConfigMap.Data cm !! "3-disable-usage-stats.groovy") /\
  is_Some (ConfigMap.Data cm !! "4-disable-insecure-features.groovy") /\
  is_Some (ConfigMap.Data cm !! "5-configure-kubernetes-plugin.groovy") /\
  is_Some (ConfigMap.Data cm !! "6-configure-views.groovy") /\
  is_Some (ConfigMap.Data cm !! "7-disable-job-dsl-script-approval.groovy").
Proof.
  unfold NewBaseConfigurationConfigMap in Hbuilt.
  destruct (getClusterDomain domain) as [cd [e|]]; [discriminate |].
  destruct (GetJenkinsHTTPServiceFQDN jenkins domain) as [h [e|]]; [discriminate |].
  destruct (GetJenkinsSlavesServiceFQDN jenkins domain) as [sl [e|]]; [discriminate |].
  injection Hbuilt as <-. cbn [ConfigMap.Data].
  unfold basicSettingsGroovyScriptName, enableCSRFGroovyScriptName,
    disableUsageStatsGroovyScriptName, disableInsecureFeaturesGroovyScriptName,
    configureKubernetesPluginGroovyScriptName, configureViewsGroovyScriptName,
    disableJobDslScriptApprovalGroovyScriptName.
  destruct (JenkinsMaster.DisableCSRFProtection _).
  - repeat split; try (intros [? Hx]; simplify_map_eq); try discriminate;
      simplify_map_eq; eauto.
  - repeat split; intros; simplify_map_eq; eauto.
Qed.

End ConfigMapProperties.

Section ConfigMapExamples.
Import Resources Samples.

Lemma csrf_script_witness :
  exists cm,
    NewBaseConfigurationConfigMap (Samples.meta "m")
      (Samples.instance true [] [] None) "cluster.local" = (Some cm, None) /\
    ConfigMap.Data cm !! "2-enable-csrf.groovy" = None /\
    is_Some (ConfigMap.Data cm !! "6-configure-views.groovy").
Proof.
  eexists. split; [reflexivity |].
  pose proof (csrf_script_iff_protection_enabled (Samples.meta "m")
                (Samples.instance true [] [] None) "cluster.local" _ eq_refl)
    as (Hcsrf & _ & _ & _ & _ & Hviews & _).
  split; [| exact Hviews].
  destruct (ConfigMap.Data _ !! "2-enable-csrf.groovy") eqn:E; [| reflexivity].
  destruct Hcsrf as [Hcsrf _]. specialize (Hcsrf (ex_intro _ _ eq_refl)). discriminate.
Defined.

End ConfigMapExamples.


(** ** The notification dispatcher *)
Section NotificationProperties.
Context `{NotificationLevels}.
Import Notifications.

Lemma sendsTo_app (c : Notification.t) (t1 t2 : list Effect) :
  sendsTo c (t1 ++ t2) = sendsTo c t1 ++ sendsTo c t2.
Proof. apply List.filter_app. Qed.

Lemma providerFor_configOf (c : Notification.t) (p : Provider) :
  providerFor c = Some p -> configOf p = c.
Proof.
  unfold providerFor.
  destruct (Notification.Slack c), (Notification.Teams c),
    (Notification.Mailgun c), (Notification.SMTP c); intros [= <-]; reflexivity.
Qed.

(** The sends of one round of the channel loop go to the round's channel. *)
Lemma sendsTo_notifyChannel (e : Event.t) (c c' : Notification.t) :
  sendsTo c (notifyChannel e c') = if decide (c' = c) then notifyChannel e c' else [].
Proof.
  unfold notifyChannel.
  destruct (providerFor c') as [p|] eqn:Hp; [| destruct (decide _); reflexivity].
  apply providerFor_configOf in Hp.
  destruct (_ && _); [destruct (decide _); reflexivity |].
  cbn. rewrite Hp. destruct (decide (c' = c)) as [->|Hne].
  - rewrite bool_decide_eq_true_2; auto.
  - rewrite bool_decide_eq_false_2; auto.
Qed.

Lemma sendsTo_channels (e : Event.t) (c : Notification.t) (channels : list Notification.t) :
  length (sendsTo c (flat_map (notifyChannel e) channels)) =
  count_occ Notification_eq_dec channels c * length (notifyChannel e c).
Proof.
  induction channels as [|c' channels IH]; [reflexivity |].
  cbn [flat_map count_occ]. rewrite sendsTo_app, length_app, IH, sendsTo_notifyChannel.
  destruct (decide (c' = c)) as [->|Hne], (Notification_eq_dec _ c);
    try congruence; cbn; lia.
Qed.

(** C5, as the code has it. An event with no message is dropped whole. For
    an event with a message and a channel of a recognised kind, the number
    of [Send] calls started for the channel is its number of entries in the
    instance's channel list times 0 when the event is Info and the channel
    asks for Warning, times 1 otherwise: none, or one per entry. *)
Theorem dispatch_once_unless_filtered (e : Event.t) (c : Notification.t) :
  (Reason.HasMessages (Event.Reason e) = false -> Listen [e] = []) /\
  (Reason.HasMessages (Event.Reason e) = true ->
   is_Some (providerFor c) ->
   length (sendsTo c (Listen [e])) =
   count_occ Notification_eq_dec
     (JenkinsSpec.Notifications (Jenkins.Spec (Event.Jenkins e))) c *
   (if String.eqb (Event.Level e) NotificationLevelInfo
       && String.eqb (Notification.LoggingLevel c) NotificationLevelWarning
    then 0 else 1)).
Proof.
  unfold Listen. cbn [flat_map]. rewrite app_nil_r. unfold handleEvent. split.
  - intros ->. reflexivity.
  - intros -> [p Hp]. cbn [negb sendsTo List.filter].
    fold (sendsTo c (flat_map (notifyChannel e)
                       (JenkinsSpec.Notifications (Jenkins.Spec (Event.Jenkins e))))).
    rewrite sendsTo_channels. f_equal.
    unfold notifyChannel. rewrite Hp. destruct (_ && _); reflexivity.
Qed.

End NotificationProperties.

Section NotificationExamples.
Import Samples.

Lemma dispatch_once_witness :
  length (Notifications.sendsTo (Samples.slack "info")
            (Notifications.Listen [Samples.event "info" ["restart"] [Samples.slack "info"]])) = 1 /\
  length (Notifications.sendsTo (Samples.slack "warning")
            (Notifications.Listen [Samples.event "info" ["restart"] [Samples.slack "warning"]])) = 0.
Proof.
  split.
  - exact (proj2 (dispatch_once_unless_filtered
                    (Samples.event "info" ["restart"] [Samples.slack "info"])
                    (Samples.slack "info")) eq_refl (ex_intro _ _ eq_refl)).
  - exact (proj2 (dispatch_once_unless_filtered
                    (Samples.event "info" ["restart"] [Samples.slack "warning"])
                    (Samples.slack "warning")) eq_refl (ex_intro _ _ eq_refl)).
Defined.

(** C5 as stated fails: a Warning event that carries no message starts no
    [Send] for a Warning channel of a recognised kind, where the claim asks
    for one. *)
Lemma dispatch_claim_fails_without_messages :
  ~ (forall (e : Event.t) (c : Notification.t),
        is_Some (Notifications.providerFor c) ->
        length (Notifications.sendsTo c (Notifications.Listen [e])) =
        count_occ Notifications.Notification_eq_dec
          (JenkinsSpec.Notifications (Jenkins.Spec (Event.Jenkins e))) c *
        (if String.eqb (Event.Level e) NotificationLevelInfo
            && String.eqb (Notification.LoggingLevel c) NotificationLevelWarning
         then 0 else 1)).
Proof.
  intros Hclaim.
  specialize (Hclaim (Samples.event "warning" [] [Samples.slack "warning"])
                     (Samples.slack "warning") (ex_intro _ _ eq_refl)).
  vm_compute in Hclaim. discriminate.
Qed.

End NotificationExamples.

(** ** The platform client *)
Section PlatformProperties.
Import Platform.

Lemma fault_frame (w : World) :
  exists b fs,
    fault w = (b, set_faults fs w).
Proof.
  unfold fault. destruct (faults w) as [|b fs] eqn:E.
  - exists false, []. destruct w; cbn in *; subst; reflexivity.
  - exists b, fs. reflexivity.
Qed.

Lemma ClientCreate_RoleBinding (rb : RoleBinding.t) (w : World) :
  exists err w',
    ClientCreate rb w = (err, w') /\
    jenkins w' = jenkins w /\
    ((err <> None /\ roleBindings w' = roleBindings w) \/
     (err = None /\ roleBindings w !! keyOf rb = None /\
      roleBindings w' = <[keyOf rb := rb]> (roleBindings w))).
Proof.
  unfold ClientCreate, record, modify, gets, mbind, M_bind, mret, M_ret.
  destruct (fault_frame (set_writes (writes w ++ [{| verb := VerbCreate; kind := kindOf;
      namespace := (keyOf rb).1; name := (keyOf rb).2 |}]) w)) as (b & fs & Hf).
  cbn in *. rewrite Hf. destruct b.
  - eexists _, _. split; [reflexivity |]. cbn. split; [reflexivity |]. left. split; [discriminate | reflexivity].
  - cbn. destruct (roleBindings w !! keyOf rb) eqn:E.
    + eexists _, _. split; [reflexivity |]. cbn. split; [reflexivity |]. left. split; [discriminate | reflexivity].
    + eexists _, _. split; [reflexivity |]. cbn. split; [reflexivity |]. right. auto.
Qed.

Lemma ClientDelete_RoleBinding (rb : RoleBinding.t) (w : World) :
  exists err w',
    ClientDelete rb w = (err, w') /\
    jenkins w' = jenkins w /\
    ((err <> None /\ roleBindings w' = roleBindings w) \/
     (err = None /\ roleBindings w' = delete (keyOf rb) (roleBindings w))).
Proof.
  unfold ClientDelete, record, modify, gets, mbind, M_bind, mret, M_ret.
  destruct (fault_frame (set_writes (writes w ++ [{| verb := VerbDelete; kind := kindOf;
      namespace := (keyOf rb).1; name := (keyOf rb).2 |}]) w)) as (b & fs & Hf).
  cbn in *. rewrite Hf. destruct b.
  - eexists _, _. split; [reflexivity |]. cbn. split; [reflexivity |].
    left. split; [discriminate | reflexivity].
  - cbn. destruct (roleBindings w !! keyOf rb) eqn:E.
    + eexists _, _. split; [reflexivity |]. cbn. split; [reflexivity |]. right. auto.
    + eexists _, _. split; [reflexivity |]. cbn. split; [reflexivity |].
      left. split; [discriminate | reflexivity].
Qed.

Lemma keyOf_stored_RoleBinding (key : string * string) (rb : RoleBinding.t) :
  keyOf (stored key rb) = key /\ RoleBinding.Name (stored key rb) = key.2.
Proof. destruct key. split; reflexivity. Qed.

Lemma ClientList_RoleBinding (ns : string) (w : World) :
  exists items err w',
    ClientList (V := RoleBinding.t) ns w = ((items, err), w') /\
    jenkins w' = jenkins w /\
    roleBindings w' = roleBindings w /\
    (forall item, item ∈ items ->
       exists key rb, roleBindings w !! key = Some rb /\ key.1 = ns /\ item = stored key rb) /\
    (err = None ->
     forall name rb, roleBindings w !! (ns, name) = Some rb -> stored (ns, name) rb ∈ items).
Proof.
  unfold ClientList, gets, mbind, M_bind, mret, M_ret.
  destruct (fault_frame w) as (b & fs & Hf). rewrite Hf. destruct b; cbn.
  - eexists _, _, _. split; [reflexivity |]. cbn. repeat split; try discriminate.
    intros item Hin. inversion Hin.
  - eexists _, _, _. split; [reflexivity |]. cbn. repeat split.
    + intros item Hin. apply list_elem_of_omap in Hin as ([key rb] & Hin & Hsome).
      apply elem_of_map_to_list in Hin.
      destruct (String.eqb_spec key.1 ns) as [Hns|Hns]; [| discriminate].
      injection Hsome as <-. eauto.
    + intros _ name rb Hrb. apply list_elem_of_omap. exists ((ns, name), rb).
      split; [apply elem_of_map_to_list; exact Hrb |].
      cbn. rewrite String.eqb_refl. reflexivity.
Qed.

End PlatformProperties.

(** ** Extra role bindings *)
Section ExtraRBACProperties.
Import Platform Base.

Lemma string_app_nil_r (s : string) : s +:+ "" = s.
Proof.
  induction s as [|c s IH]; [reflexivity |].
  change (String c (s +:+ "") = String c s). f_equal. exact IH.
Qed.

(** The deterministic name: [<account>-cr-<role>] for a cluster role,
    [<account>-r-<role>] otherwise. *)
Lemma getExtraRoleBindingName_eq (serviceAccountName : string) (roleRef : RoleRef.t) :
  getExtraRoleBindingName serviceAccountName roleRef =
  serviceAccountName +:+ "-"
    +:+ (if String.eqb (RoleRef.Kind roleRef) "ClusterRole" then "cr" else "r")
    +:+ "-" +:+ RoleRef.Name roleRef.
Proof.
  unfold getExtraRoleBindingName. cbn. rewrite string_app_nil_r. reflexivity.
Qed.

Lemma hasExtraRoleBindingPrefix_true (meta : ObjectMeta.t) (name : string) :
  hasExtraRoleBindingPrefix meta name = true <->
  String.prefix (ObjectMeta.Name meta +:+ "-r-") name = true \/
  String.prefix (ObjectMeta.Name meta +:+ "-cr-") name = true.
Proof.
  unfold hasExtraRoleBindingPrefix, Go.HasPrefix.
  rewrite !getExtraRoleBindingName_eq. cbn. rewrite orb_true_iff. reflexivity.
Qed.

Lemma foundAmong_true (meta : ObjectMeta.t) (roles : list RoleRef.t) (name : string) :
  foundAmong meta roles name = true <->
  exists roleRef, roleRef ∈ roles /\
    name = ObjectMeta.Name meta +:+ "-"
             +:+ (if String.eqb (RoleRef.Kind roleRef) "ClusterRole" then "cr" else "r")
             +:+ "-" +:+ RoleRef.Name roleRef.
Proof.
  unfold foundAmong. rewrite existsb_exists. split.
  - intros (roleRef & Hin & Heq). exists roleRef. split; [apply list_elem_of_In; exact Hin |].
    apply String.eqb_eq in Heq. rewrite Heq. apply getExtraRoleBindingName_eq.
  - intros (roleRef & Hin & ->). exists roleRef. split; [apply list_elem_of_In; exact Hin |].
    apply String.eqb_eq. symmetry. apply getExtraRoleBindingName_eq.
Qed.

Lemma createExtraRoleBindings_frame (meta : ObjectMeta.t) (roles : list RoleRef.t) (w : World) :
  exists err w',
    createExtraRoleBindings meta roles w = (err, w') /\
    jenkins w' = jenkins w /\
    (forall key rb, roleBindings w !! key = Some rb -> roleBindings w' !! key = Some rb).
Proof.
  revert w. induction roles as [|roleRef roles IH]; intros w; cbn [createExtraRoleBindings].
  - exists None, w. auto.
  - unfold mbind, M_bind.
    destruct (ClientCreate_RoleBinding
                (NewRoleBinding (getExtraRoleBindingName (ObjectMeta.Name meta) roleRef)
                   (ObjectMeta.Namespace meta) (ObjectMeta.Name meta) roleRef) w)
      as (err & w1 & -> & Hj & Hrb).
    assert (forall key rb, roleBindings w !! key = Some rb -> roleBindings w1 !! key = Some rb)
      as Hkeep.
    { intros key rb Hk. destruct Hrb as [[_ ->] | (_ & Hnone & ->)]; [exact Hk |].
      rewrite lookup_insert_ne; [exact Hk | congruence]. }
    destruct (IH w1) as (err' & w' & Hrun & Hj' & Hkeep').
    destruct err as [e|].
    + destruct (IsAlreadyExists e).
      * exists err', w'. split; [exact Hrun |]. split; [congruence | auto].
      * exists (Some e), w1. split; [reflexivity |]. auto.
    + exists err', w'. split; [exact Hrun |]. split; [congruence | auto].
Qed.

Lemma deleteExtraRoleBindings_spec (meta : ObjectMeta.t) (items : list RoleBinding.t)
    (w : World) :
  exists err w',
    deleteExtraRoleBindings meta items w = (err, w') /\
    jenkins w' = jenkins w /\
    (forall key,
        roleBindings w' !! key = roleBindings w !! key \/
        (roleBindings w' !! key = None /\
         exists item, item ∈ items /\ keyOf item = key /\
           hasExtraRoleBindingPrefix meta (RoleBinding.Name item) = true /\
           foundAmong meta (JenkinsSpec.Roles (Jenkins.Spec (jenkins w)))
             (RoleBinding.Name item) = false)) /\
    (err = None ->
     forall item, item ∈ items ->
       hasExtraRoleBindingPrefix meta (RoleBinding.Name item) = true ->
       foundAmong meta (JenkinsSpec.Roles (Jenkins.Spec (jenkins w)))
         (RoleBinding.Name item) = false ->
       roleBindings w' !! keyOf item = None).
Proof.
  revert w. induction items as [|item items IH]; intros w; cbn [deleteExtraRoleBindings].
  - exists None, w. repeat split; auto. intros _ item Hin. inversion Hin.
  - destruct (hasExtraRoleBindingPrefix meta (RoleBinding.Name item)) eqn:Hp; cbn [negb].
    2:{ destruct (IH w) as (err & w' & Hrun & Hj & Hsafe & Hdone).
        exists err, w'. split; [exact Hrun |]. split; [exact Hj |]. split.
        - intros key. destruct (Hsafe key) as [Hk | (Hk & it & Hin & Hrest)]; [auto |].
          right. split; [exact Hk |]. exists it. split; [right; exact Hin | exact Hrest].
        - intros He it Hin Hpre Hnf. apply elem_of_cons in Hin as [-> | Hin]; [congruence |].
          eauto. }
    unfold mbind at 1, M_bind at 1, gets at 1.
    destruct (foundAmong meta (JenkinsSpec.Roles (Jenkins.Spec (jenkins w)))
                (RoleBinding.Name item)) eqn:Hf; cbn [negb].
    { destruct (IH w) as (err & w' & Hrun & Hj & Hsafe & Hdone).
      exists err, w'. split; [exact Hrun |]. split; [exact Hj |]. split.
      - intros key. destruct (Hsafe key) as [Hk | (Hk & it & Hin & Hrest)]; [auto |].
        right. split; [exact Hk |]. exists it. split; [right; exact Hin | exact Hrest].
      - intros He it Hin Hpre Hnf. apply elem_of_cons in Hin as [-> | Hin]; [congruence |].
        eauto. }
    unfold mbind, M_bind.
    destruct (ClientDelete_RoleBinding item w) as (err & w1 & -> & Hj1 & Hdel).
    destruct err as [e|].
    + destruct Hdel as [[_ Hsame] | [Hnone _]]; [| discriminate].
      exists (Some e), w1. split; [reflexivity |]. split; [exact Hj1 |]. split.
      * intros key. left. rewrite Hsame. reflexivity.
      * discriminate.
    + destruct Hdel as [[Hne _] | [_ Hdel]]; [congruence |].
      destruct (IH w1) as (err & w' & Hrun & Hj & Hsafe & Hdone). rewrite Hj1 in Hsafe, Hdone.
      exists err, w'. split; [exact Hrun |]. split; [congruence |]. split.
      * intros key. destruct (Hsafe key) as [Hk | (Hk & it & Hin & Hrest)].
        -- rewrite Hk, Hdel. destruct (decide (keyOf item = key)) as [<- | Hne].
           ++ right. split; [apply lookup_delete_eq |].
              exists item. split; [left |]. auto.
           ++ left. apply lookup_delete_ne. exact Hne.
        -- right. split; [exact Hk |]. exists it. split; [right; exact Hin | exact Hrest].
      * intros He it Hin Hpre Hnf. apply elem_of_cons in Hin as [-> | Hin]; [| eauto].
        destruct (Hsafe (keyOf item)) as [Hk | [Hk _]]; [| exact Hk].
        rewrite Hk, Hdel. apply lookup_delete_eq.
Qed.

(** C2. One pass of [ensureExtraRBAC], whatever its outcome, leaves every
    role binding that was there in place and as it was, or deletes it; it
    deletes none outside the instance's namespace, none whose name lacks the
    prefix [<account>-r-] or [<account>-cr-], and none whose name is the
    name computed for one of the instance's roles. When the pass returns no
    error, a binding of the namespace is deleted exactly when its name has
    one of the two prefixes and is the computed name of no role. *)
Theorem ensureExtraRBAC_deletes_stale_managed_only (meta : ObjectMeta.t) (w : World) :
  let ns := Jenkins.Namespace (jenkins w) in
  let managed (name : string) :=
    String.prefix (ObjectMeta.Name meta +:+ "-r-") name = true \/
    String.prefix (ObjectMeta.Name meta +:+ "-cr-") name = true in
  let desired (name : string) :=
    exists roleRef, roleRef ∈ JenkinsSpec.Roles (Jenkins.Spec (jenkins w)) /\
      name = ObjectMeta.Name meta +:+ "-"
               +:+ (if String.eqb (RoleRef.Kind roleRef) "ClusterRole" then "cr" else "r")
               +:+ "-" +:+ RoleRef.Name roleRef in
  let '(err, w') := ensureExtraRBAC meta w in
  (forall key rb,
      roleBindings w !! key = Some rb ->
      (roleBindings w' !! key = Some rb \/ roleBindings w' !! key = None) /\
      (roleBindings w' !! key = None ->
       key.1 = ns /\ managed key.2 /\ ~ desired key.2)) /\
  (err = None ->
   forall name rb,
     roleBindings w !! (ns, name) = Some rb ->
     (roleBindings w' !! (ns, name) = None <-> managed name /\ ~ desired name)).
Proof.
  cbv zeta. unfold ensureExtraRBAC, check.
  unfold mbind at 1, M_bind at 1, gets at 1.
  unfold mbind at 1, M_bind at 1.
  destruct (createExtraRoleBindings_frame meta
              (JenkinsSpec.Roles (Jenkins.Spec (jenkins w))) w)
    as (err1 & w1 & -> & Hj1 & Hkeep1).
  destruct err1 as [e1|].
  { cbn. split; [| discriminate]. intros key rb Hk. apply Hkeep1 in Hk. rewrite Hk.
    split; [auto | discriminate]. }
  unfold mbind at 1, M_bind at 1, gets at 1.
  unfold mbind at 1, M_bind at 1.
  destruct (ClientList_RoleBinding (Jenkins.Namespace (jenkins w1)) w1)
    as (items & err2 & w2 & -> & Hj2 & Hrb2 & Hitems & Hall).
  rewrite Hj1 in Hitems, Hall.
  destruct err2 as [e2|].
  { cbn. split; [| discriminate]. intros key rb Hk. apply Hkeep1 in Hk.
    rewrite Hrb2, Hk. split; [auto | discriminate]. }
  destruct (deleteExtraRoleBindings_spec meta items w2)
    as (err & w' & -> & Hj & Hsafe & Hdone).
  rewrite Hj2, Hj1 in Hsafe, Hdone. rewrite Hrb2 in Hsafe.
  assert (forall key rb,
             roleBindings w !! key = Some rb ->
             roleBindings w' !! key = None ->
             key.1 = Jenkins.Namespace (jenkins w) /\
             hasExtraRoleBindingPrefix meta key.2 = true /\
             foundAmong meta (JenkinsSpec.Roles (Jenkins.Spec (jenkins w))) key.2 = false)
    as Hgone.
  { intros key rb Hk Hnone. apply Hkeep1 in Hk.
    destruct (Hsafe key) as [Hsame | (_ & item & Hin & Hkey & Hp & Hf)]; [congruence |].
    destruct (Hitems item Hin) as (key' & rb' & Hk' & Hns & ->).
    destruct (keyOf_stored_RoleBinding key' rb') as [Hkey' Hname].
    rewrite Hname in Hp, Hf. rewrite Hkey' in Hkey. subst key'. auto. }
  split.
  - intros key rb Hk. split.
    + destruct (Hsafe key) as [Hsame | [Hnone _]]; [| auto].
      left. rewrite Hsame. apply Hkeep1. exact Hk.
    + intros Hnone. destruct (Hgone key rb Hk Hnone) as (Hns & Hp & Hf).
      split; [exact Hns |]. split; [apply hasExtraRoleBindingPrefix_true; exact Hp |].
      intros Hd. apply foundAmong_true in Hd. congruence.
  - intros -> name rb Hk. split.
    + intros Hnone. destruct (Hgone _ rb Hk Hnone) as (_ & Hp & Hf).
      split; [apply hasExtraRoleBindingPrefix_true; exact Hp |].
      intros Hd. apply foundAmong_true in Hd. cbn in Hf. congruence.
    + intros [Hm Hnd].
      pose proof (Hall eq_refl name rb (Hkeep1 _ _ Hk)) as Hin.
      destruct (keyOf_stored_RoleBinding (Jenkins.Namespace (jenkins w), name) rb)
        as [Hkey Hname].
      rewrite <- Hkey. apply (Hdone eq_refl _ Hin); rewrite Hname; cbn.
      * apply hasExtraRoleBindingPrefix_true. exact Hm.
      * destruct (foundAmong meta _ name) eqn:Hf; [| reflexivity].
        apply foundAmong_true in Hf. contradiction.
Qed.

End ExtraRBACProperties.

(** ** The operator credentials secret *)
Section CredentialsProperties.
Context `{Base.Collaborators}.
Import Platform Base.

(** C8. [createOperatorCredentialsSecret] sends at most one write request.
    When the secret exists with data that is not [nil] under both the user
    name key and the password key, it sends none and the stored secrets stay
    as they are. An update request is sent only when the secret exists and
    the data under one of the two keys is [nil]. *)
Theorem createOperatorCredentialsSecret_writes (meta : ObjectMeta.t) (w : World) :
  let key := (Jenkins.Namespace (jenkins w), GetOperatorCredentialsSecretName (jenkins w)) in
  let complete (s : Secret.t) :=
    Secret.data s OperatorCredentialsSecretUserNameKey <> None /\
    Secret.data s OperatorCredentialsSecretPasswordKey <> None in
  let '(err, w') := createOperatorCredentialsSecret meta w in
  exists added : list Write,
    writes w' = writes w ++ added /\
    length added <= 1 /\
    (forall found, secrets w !! key = Some found -> complete found ->
       added = [] /\ secrets w' = secrets w) /\
    (forall wr, wr ∈ added -> verb wr = VerbUpdate ->
       exists found, secrets w !! key = Some found /\ ~ complete found).
Proof.
  cbv zeta. unfold createOperatorCredentialsSecret.
  unfold mbind at 1, M_bind at 1, gets at 1.
  unfold mbind at 1, M_bind at 1. unfold ClientGet.
  unfold mbind at 1, M_bind at 1.
  destruct (fault_frame w) as (b & fs & ->).
  destruct b.
  - (* the read fails *)
    cbn. exists []. rewrite app_nil_r. repeat split; auto.
    intros wr Hin. inversion Hin.
  - unfold mbind at 1, M_bind at 1, gets at 1. cbn [store Stored_Secret secrets set_faults].
    destruct (secrets w !! (Jenkins.Namespace (jenkins w),
                            GetOperatorCredentialsSecretName (jenkins w)))
      as [found|] eqn:Hfound.
    + (* the secret exists *)
      cbn [mret M_ret].
      set (fnd := stored _ found).
      assert (forall k, Secret.data fnd k = Secret.data found k) as Hdata by reflexivity.
      rewrite !Hdata.
      destruct (bool_decide (Secret.data found OperatorCredentialsSecretUserNameKey <> None)
                && bool_decide (Secret.data found OperatorCredentialsSecretPasswordKey <> None))
        eqn:Hc.
      * cbn. exists []. rewrite app_nil_r. repeat split; auto.
        intros wr Hin. inversion Hin.
      * assert (~ (Secret.data found OperatorCredentialsSecretUserNameKey <> None /\
                   Secret.data found OperatorCredentialsSecretPasswordKey <> None)) as Hnc.
        { intros [Hu Hp]. rewrite !bool_decide_eq_true_2 in Hc by assumption. discriminate. }
        unfold UpdateResource, ClientUpdate, record, modify, gets, mbind, M_bind, mret, M_ret.
        cbn [jenkins set_faults].
        match goal with
        | |- context [fault ?w0] => destruct (fault_frame w0) as (b' & fs' & ->)
        end.
        destruct b'; [| destruct (store _ !! _)]; cbn;
          (eexists [_]; split; [reflexivity |]; split; [auto |]; split;
           [intros found' [= <-] Hcomplete; contradiction | intros; eauto]).
    + (* the secret is not there *)
      cbn [mret M_ret IsNotFound].
      unfold CreateResource, ClientCreate, record, modify, gets, mbind, M_bind, mret, M_ret.
      cbn [jenkins set_faults].
      match goal with
      | |- context [fault ?w0] => destruct (fault_frame w0) as (b' & fs' & ->)
      end.
      destruct b'; [| destruct (store _ !! _)]; cbn;
        (eexists [_]; split; [reflexivity |]; split; [auto |]; split;
         [intros found' [=] |
          intros wr Hin Hu; apply list_elem_of_singleton in Hin; subst wr; discriminate]).
Qed.

End CredentialsProperties.

(** ** The reconcile cycle *)
Section CycleProperties.
Context `{Constants} `{NotificationLevels} `{Base.Collaborators}.
Import Platform Base.

(** The stages before the starting-issue detector have run from [w0] to [w]
    with no error and no requeue, in single-pod mode. *)
Definition reachesDetector (w0 w : World) : Prop :=
  exists w1 result,
    ensureResourcesRequiredForJenkinsPod (NewResourceObjectMeta (jenkins w0)) w0 = (None, w1) /\
    useDeploymentForJenkinsMaster (jenkins w1) = false /\
    ensureJenkinsMasterPod (NewResourceObjectMeta (jenkins w0)) w1 = ((result, None), w) /\
    Result.Requeue result = false.

(** The stages before the plugin check have run from [w0] to [w] with no
    error, no stop and no requeue, and have given the client [client]. *)
Definition reachesPluginCheck (w0 : World) (client : JenkinsClient) (w : World) : Prop :=
  exists w2 w3 w4 result,
    reachesDetector w0 w2 /\
    detectJenkinsMasterPodStartingIssues w2 = ((false, None), w3) /\
    waitForJenkins w3 = ((result, None), w4) /\
    Result.Requeue result = false /\
    GetJenkinsClient w4 = ((client, None), w).

Lemma Reconcile_from_detector (w0 w : World) :
  reachesDetector w0 w ->
  Reconcile w0 =
  (let '((stopReconcileLoop, err), w3) := detectJenkinsMasterPodStartingIssues w in
   match err with
   | Some e => ((Result.zero, None, Some e), w3)
   | None =>
       if stopReconcileLoop : bool
       then (({| Result.Requeue := false; Result.RequeueAfter := 0 |}, None, None), w3)
       else
         let '((result, err), w4) := waitForJenkins w3 in
         match err with
         | Some e => ((Result.zero, None, Some e), w4)
         | None =>
             if Result.Requeue result then ((result, None, None), w4)
             else
               let '((jenkinsClient, err), w5) := GetJenkinsClient w4 in
               match err with
               | Some e => ((Result.zero, None, Some e), w5)
               | None =>
                   let '((ok, err), w6) := verifyPlugins jenkinsClient w5 in
                   match err with
                   | Some e => ((Result.zero, None, Some e), w6)
                   | None =>
                       if negb ok then
                         let '(err, w7) :=
                           RestartJenkinsMasterPod
                             (Reason.NewPodRestart Reason.OperatorSource
                                [pluginsChangedMessage]) w6 in
                         (({| Result.Requeue := true; Result.RequeueAfter := 0 |}, None, err), w7)
                       else
                         let '((result, err), w7) := ensureBaseConfiguration jenkinsClient w6 in
                         ((result, Some jenkinsClient, err), w7)
                   end
               end
         end
   end).
Proof.
  intros (w1 & result & Hres & Hdep & Hpod & Hrq).
  unfold Reconcile. unfold mbind at 1, M_bind at 1, gets at 1.
  unfold mbind at 1, M_bind at 1. rewrite Hres.
  unfold mbind at 1, M_bind at 1, gets at 1. rewrite Hdep.
  unfold mbind at 1, M_bind at 1. rewrite Hpod, Hrq.
  unfold mbind at 1, M_bind at 1.
  destruct (detectJenkinsMasterPodStartingIssues w) as [[stop [e|]] w3]; [reflexivity |].
  destruct stop; [reflexivity |].
  unfold mbind at 1, M_bind at 1.
  destruct (waitForJenkins w3) as [[result' [e|]] w4]; [reflexivity |].
  destruct (Result.Requeue result'); [reflexivity |].
  unfold mbind at 1, M_bind at 1.
  destruct (GetJenkinsClient w4) as [[client [e|]] w5]; [reflexivity |].
  unfold mbind at 1, M_bind at 1.
  destruct (verifyPlugins client w5) as [[ok [e|]] w6]; [reflexivity |].
  destruct ok; cbn [negb]; unfold mbind at 1, M_bind at 1.
  - destruct (ensureBaseConfiguration client w6) as [[r e] w7]. reflexivity.
  - destruct (RestartJenkinsMasterPod _ w6) as [e w7]. reflexivity.
Qed.

Lemma RestartJenkinsMasterPod_spec (reason : Reason.t) (w : World) :
  exists (failed : bool) (fs : list bool),
    RestartJenkinsMasterPod reason w =
    (if failed then Some transient else None,
     set_faults fs
       (set_restarts (restarts w ++ [reason])
          (set_notifications
             (notifications w ++ [{| Event.Jenkins := jenkins w;
                                     Event.Phase_ := restartPhase;
                                     Event.Level := NotificationLevelWarning;
                                     Event.Reason := reason |}]) w))).
Proof.
  unfold RestartJenkinsMasterPod, modify, gets, mbind, M_bind, mret, M_ret.
  match goal with
  | |- context [fault ?w0] => destruct (fault_frame w0) as (b & fs & ->)
  end.
  exists b, fs. reflexivity.
Qed.

(** C1. When the cycle reaches the plugin check and the check reports a
    mismatch, [Reconcile] builds the reason [Operator] with the one message
    "Some plugins have changed, restarting Jenkins", calls
    [RestartJenkinsMasterPod] with it once, and returns a result with
    [Requeue] set, no client, and the error of the restart. The world it
    leaves is the world after the plugin check with one more notification
    event, of level Warning and carrying that reason, and one more restart
    request: nothing of the configuration stage has run. *)
Theorem plugin_mismatch_restarts_and_requeues
    (w0 w5 w6 : World) (client : JenkinsClient)
    (Hreach : reachesPluginCheck w0 client w5)
    (Hdrift : verifyPlugins client w5 = ((false, None), w6)) :
  let reason :=
    {| Reason.source := Reason.OperatorSource;
       Reason.messages := ["Some plugins have changed, restarting Jenkins"] |} in
  exists (err : error) (fs : list bool),
    Reconcile w0 =
    (({| Result.Requeue := true; Result.RequeueAfter := 0 |}, None, err),
     set_faults fs
       (set_restarts (restarts w6 ++ [reason])
          (set_notifications
             (notifications w6 ++ [{| Event.Jenkins := jenkins w6;
                                      Event.Phase_ := restartPhase;
                                      Event.Level := NotificationLevelWarning;
                                      Event.Reason := reason |}]) w6))).
Proof.
  destruct Hreach as (w2 & w3 & w4 & result & Hdet & Hgo & Hwait & Hrq & Hcli).
  rewrite (Reconcile_from_detector _ _ Hdet), Hgo, Hwait, Hrq, Hcli, Hdrift. cbn [negb].
  destruct (RestartJenkinsMasterPod_spec
              (Reason.NewPodRestart Reason.OperatorSource [pluginsChangedMessage]) w6)
    as (failed & fs & ->).
  eexists _, fs. reflexivity.
Qed.

(** The events [filterEvents] keeps are those that pass its three tests. *)
Lemma filterEvents_length (start : Z) (source : list K8sEvent.t) (pod : Pod.t) :
  length (filterEvents start source pod) =
  length (List.filter
            (fun ev => (start <=? K8sEvent.LastTimestamp ev)%Z
                       && negb (String.eqb (K8sEvent.Type_ ev) "Normal")
                       && String.prefix (Pod.Name pod) (K8sEvent.Name ev))
            source).
Proof.
  unfold filterEvents, Go.HasPrefix, EventTypeNormal.
  induction source as [|ev source IH]; [reflexivity |].
  cbn [flat_map List.filter]. rewrite length_app, IH.
  destruct (Z.ltb_spec (K8sEvent.LastTimestamp ev) start) as [Hlt|Hge].
  - rewrite (proj2 (Z.leb_gt _ _) Hlt). reflexivity.
  - rewrite (proj2 (Z.leb_le _ _) Hge).
    destruct (String.eqb (K8sEvent.Type_ ev) "Normal"); [reflexivity |].
    destruct (String.prefix (Pod.Name pod) (K8sEvent.Name ev)); reflexivity.
Qed.

Lemma ClientListEvents_answered (ns : string) (w : World) :
  hd false (faults w) = false ->
  exists fs,
    ClientListEvents ns w =
    ((List.filter (fun ev => String.eqb (K8sEvent.Namespace ev) ns) (events w), None),
     set_faults fs w).
Proof.
  intros Hok. unfold ClientListEvents, gets, mbind, M_bind, mret, M_ret, fault.
  destruct (faults w) as [|b fs] eqn:E.
  - exists []. cbn. rewrite <- E. destruct w; reflexivity.
  - cbn in Hok. subst b. exists fs. reflexivity.
Qed.

Lemma waitForJenkins_not_running (w w' : World) (pod : Pod.t) :
  GetJenkinsMasterPod w = ((pod, None), w') ->
  Pod.Phase pod = PodPending ->
  waitForJenkins w =
  (({| Result.Requeue := true; Result.RequeueAfter := 5 * Second |}, None), w').
Proof.
  intros Hpod Hphase. unfold waitForJenkins, mbind, M_bind. rewrite Hpod, Hphase.
  destruct (IsJenkinsTerminating pod); reflexivity.
Qed.

(** C3. The pod is fetched in phase Pending, the provisioning start is
    recorded and lies more than two minutes back, and the platform answers
    the list request. Of the events of the instance's namespace, take those
    not earlier than the provisioning start, of a type other than Normal,
    whose name has the pod's name as a prefix. With none of them the
    detector answers stop = false, and a cycle that came to the detector
    and fetches the pod in phase Pending again returns a requeue after five
    seconds; with one or more the detector answers stop = true. *)
Theorem pending_timeout_stops_on_matching_events
    (w w1 : World) (pod : Pod.t) (start : Z)
    (Hpod : GetJenkinsMasterPod w = ((pod, None), w1))
    (Hphase : Pod.Phase pod = "Pending")
    (Hstart : JenkinsStatus.ProvisionStartTime (Jenkins.Status (jenkins w1)) = Some start)
    (Hlate : (start + 2 * Minute < now w1)%Z)
    (Hanswered : hd false (faults w1) = false) :
  let matched :=
    List.filter
      (fun ev => (start <=? K8sEvent.LastTimestamp ev)%Z
                 && negb (String.eqb (K8sEvent.Type_ ev) "Normal")
                 && String.prefix (Pod.Name pod) (K8sEvent.Name ev))
      (List.filter
         (fun ev => String.eqb (K8sEvent.Namespace ev) (Jenkins.Namespace (jenkins w1)))
         (events w1)) in
  exists w2,
    (matched = [] ->
     detectJenkinsMasterPodStartingIssues w = ((false, None), w2) /\
     forall w0 pod' w3,
       reachesDetector w0 w ->
       GetJenkinsMasterPod w2 = ((pod', None), w3) ->
       Pod.Phase pod' = "Pending" ->
       Reconcile w0 =
       (({| Result.Requeue := true; Result.RequeueAfter := 5 * Second |}, None, None), w3)) /\
    (matched <> [] ->
     detectJenkinsMasterPodStartingIssues w = ((true, None), w2)).
Proof.
  cbv zeta.
  destruct (ClientListEvents_answered (Jenkins.Namespace (jenkins w1)) w1 Hanswered)
    as (fs & Hlist).
  exists (set_faults fs w1).
  assert (detectJenkinsMasterPodStartingIssues w =
          ((negb (length (filterEvents start
                            (List.filter
                               (fun ev => String.eqb (K8sEvent.Namespace ev)
                                            (Jenkins.Namespace (jenkins w1)))
                               (events w1)) pod) =? 0)%nat, None),
           set_faults fs w1)) as Hrun.
  { unfold detectJenkinsMasterPodStartingIssues.
    unfold mbind at 1, M_bind at 1. rewrite Hpod.
    unfold mbind at 1, M_bind at 1, gets at 1. rewrite Hstart, Hphase.
    cbn [String.eqb PodPending Ascii.eqb Bool.eqb].
    unfold mbind at 1, M_bind at 1, gets at 1.
    assert ((start + Minute * 2 <? now w1)%Z = true) as -> by (apply Z.ltb_lt; lia).
    unfold mbind at 1, M_bind at 1, gets at 1.
    unfold mbind at 1, M_bind at 1. rewrite Hlist.
    destruct (length _ =? 0)%nat; reflexivity. }
  rewrite filterEvents_length in Hrun. split.
  - intros Hnone. rewrite Hnone in Hrun. split; [exact Hrun |].
    intros w0 pod' w3 Hreach Hpod' Hphase'.
    rewrite (Reconcile_from_detector _ _ Hreach), Hrun.
    rewrite (waitForJenkins_not_running _ _ _ Hpod' Hphase'). reflexivity.
  - rewrite Hrun.
    match goal with
    | |- ?l <> [] -> _ => destruct l; [contradiction | reflexivity]
    end.
Qed.

(** C4, as the code has it. The detector answers stop in exactly two cases,
    both with the pod fetched: the provisioning start is missing; or it is
    recorded, the pod is Pending, the start lies more than two minutes back,
    the platform answers the list request, and [filterEvents] keeps an event
    of the namespace. With the start missing the world stays as the fetch
    left it. On stop the detector returns no error, and a cycle that came to
    the detector returns a result with no requeue, no client and no
    error. *)
Theorem detector_stop_cases (w : World) :
  let '((pod, fetchErr), w1) := GetJenkinsMasterPod w in
  let '((stop, err), w') := detectJenkinsMasterPodStartingIssues w in
  (stop = true <->
   fetchErr = None /\
   (JenkinsStatus.ProvisionStartTime (Jenkins.Status (jenkins w1)) = None \/
    exists start,
      JenkinsStatus.ProvisionStartTime (Jenkins.Status (jenkins w1)) = Some start /\
      Pod.Phase pod = "Pending" /\
      (start + 2 * Minute < now w1)%Z /\
      hd false (faults w1) = false /\
      filterEvents start
        (List.filter
           (fun ev => String.eqb (K8sEvent.Namespace ev) (Jenkins.Namespace (jenkins w1)))
           (events w1)) pod <> [])) /\
  (fetchErr = None ->
   JenkinsStatus.ProvisionStartTime (Jenkins.Status (jenkins w1)) = None ->
   w' = w1) /\
  (stop = true ->
   err = None /\
   forall w0,
     reachesDetector w0 w ->
     Reconcile w0 =
     (({| Result.Requeue := false; Result.RequeueAfter := 0 |}, None, None), w')).
Proof.
  destruct (GetJenkinsMasterPod w) as [[pod fetchErr] w1] eqn:Hpod.
  destruct (detectJenkinsMasterPodStartingIssues w) as [[stop err] w'] eqn:Hdet.
  assert (stop = true -> err = None) as Hclean.
  { revert Hdet. unfold detectJenkinsMasterPodStartingIssues.
    unfold mbind at 1, M_bind at 1. rewrite Hpod.
    destruct fetchErr as [e|]; [intros [= <- <- <-]; discriminate |].
    unfold mbind at 1, M_bind at 1, gets at 1.
    destruct (JenkinsStatus.ProvisionStartTime (Jenkins.Status (jenkins w1))) as [start|];
      [| intros [= <- <- <-]; reflexivity].
    destruct (String.eqb (Pod.Phase pod) PodPending); [| intros [= <- <- <-]; discriminate].
    unfold mbind at 1, M_bind at 1, gets at 1.
    destruct (start + Minute * 2 <? now w1)%Z; [| intros [= <- <- <-]; discriminate].
    unfold mbind at 1, M_bind at 1, gets at 1.
    unfold mbind at 1, M_bind at 1.
    destruct (ClientListEvents _ w1) as [[evs [e|]] w2]; [intros [= <- <- <-]; discriminate |].
    destruct (length _ =? 0)%nat; intros [= <- <- <-]; [discriminate | reflexivity]. }
  split; [| split].
  - revert Hdet. unfold detectJenkinsMasterPodStartingIssues.
    unfold mbind at 1, M_bind at 1. rewrite Hpod.
    destruct fetchErr as [e|].
    { intros [= <- <- <-]. split; [discriminate | intros [[=] _]]. }
    unfold mbind at 1, M_bind at 1, gets at 1.
    destruct (JenkinsStatus.ProvisionStartTime (Jenkins.Status (jenkins w1)))
      as [start|] eqn:Hstart.
    2:{ intros [= <- <- <-]. split; auto. }
    destruct (String.eqb_spec (Pod.Phase pod) PodPending) as [Hphase|Hphase].
    2:{ intros [= <- <- <-]. split; [discriminate |].
        intros (_ & [[=] | (s & _ & Hp & _)]). contradiction. }
    unfold mbind at 1, M_bind at 1, gets at 1.
    destruct (Z.ltb_spec (start + Minute * 2) (now w1)) as [Hlate|Hearly].
    2:{ intros [= <- <- <-]. split; [discriminate |].
        intros (_ & [[=] | (s & [= <-] & _ & Hl & _)]). lia. }
    unfold mbind at 1, M_bind at 1, gets at 1.
    unfold mbind at 1, M_bind at 1.
    unfold ClientListEvents, gets, mbind, M_bind, mret, M_ret, fault.
    destruct (faults w1) as [|b fs] eqn:Hfaults.
    + cbn [hd].
      destruct (filterEvents start _ pod) eqn:Hf; cbn [length Nat.eqb];
        intros [= <- <- <-].
      * split; [discriminate |].
        intros (_ & [[=] | (s & [= <-] & _ & _ & _ & Hk)]). contradiction.
      * split; [| reflexivity]. intros _. split; [reflexivity |]. right. exists start.
        split; [reflexivity |]. split; [exact Hphase |]. split; [lia |].
        split; [reflexivity |]. rewrite Hf. discriminate.
    + cbn [hd]. destruct b.
      * intros [= <- <- <-]. split; [discriminate |].
        intros (_ & [[=] | (s & _ & _ & _ & [=] & _)]).
      * cbn [events set_faults].
        destruct (filterEvents start _ pod) eqn:Hf; cbn [length Nat.eqb];
          intros [= <- <- <-].
        -- split; [discriminate |].
           intros (_ & [[=] | (s & [= <-] & _ & _ & _ & Hk)]). contradiction.
        -- split; [| reflexivity]. intros _. split; [reflexivity |]. right. exists start.
           split; [reflexivity |]. split; [exact Hphase |]. split; [lia |].
           split; [reflexivity |]. rewrite Hf. discriminate.
  - intros -> Hnil. revert Hdet. unfold detectJenkinsMasterPodStartingIssues.
    unfold mbind at 1, M_bind at 1. rewrite Hpod.
    unfold mbind at 1, M_bind at 1, gets at 1. rewrite Hnil. intros [= _ _ <-]. reflexivity.
  - intros Hstop. pose proof (Hclean Hstop) as ->. subst stop. split; [reflexivity |].
    intros w0 Hreach. rewrite (Reconcile_from_detector _ _ Hreach), Hdet. reflexivity.
Qed.

End CycleProperties.

(** ** Examples of the cycle *)
Section CycleExamples.
Import Platform Base Samples.

Lemma plugin_mismatch_witness :
  exists err w',
    Reconcile (H1 := drift) quiet =
    (({| Result.Requeue := true; Result.RequeueAfter := 0 |}, None, err), w') /\
    restarts w' =
    [{| Reason.source := Reason.OperatorSource;
        Reason.messages := ["Some plugins have changed, restarting Jenkins"] |}] /\
    Event.Level <$> notifications w' = ["warning"].
Proof.
  pose (w1 := snd (ensureResourcesRequiredForJenkinsPod (H1 := drift)
                     (NewResourceObjectMeta (Collaborators := drift) (jenkins quiet)) quiet)).
  assert (reachesPluginCheck (H1 := drift) quiet tt w1) as Hreach.
  { exists w1, w1, w1, Result.zero. split.
    - exists w1, Result.zero.
      split; [vm_compute; reflexivity |]. split; [vm_compute; reflexivity |].
      split; [vm_compute; reflexivity | reflexivity].
    - split; [vm_compute; reflexivity |]. split; [vm_compute; reflexivity |].
      split; [reflexivity | vm_compute; reflexivity]. }
  assert (verifyPlugins (Collaborators := drift) tt w1 = ((false, None), w1)) as Hd
    by (vm_compute; reflexivity).
  destruct (plugin_mismatch_restarts_and_requeues (H1 := drift) quiet w1 w1 tt Hreach Hd)
    as (err & fs & E).
  eexists _, _. split; [exact E |]. split; vm_compute; reflexivity.
Defined.

Lemma ensureExtraRBAC_witness :
  exists w',
    ensureExtraRBAC (meta "jenkins-operator-example") quiet = (None, w') /\
    roleBindings w' !! ("default", "jenkins-operator-example-r-old") = None /\
    is_Some (roleBindings w' !! ("default", "jenkins-operator-example-cr-admin")) /\
    is_Some (roleBindings w' !! ("default", "unrelated")).
Proof.
  pose proof (ensureExtraRBAC_deletes_stale_managed_only
                (meta "jenkins-operator-example") quiet) as T.
  destruct (ensureExtraRBAC (meta "jenkins-operator-example") quiet) as [err w'] eqn:E.
  cbv zeta in T. destruct T as [_ Tiff].
  assert (err = None) as -> by (vm_compute in E; congruence).
  exists w'. split; [reflexivity |]. split.
  - assert (roleBindings quiet
              !! (Jenkins.Namespace (jenkins quiet), "jenkins-operator-example-r-old") =
            Some (binding "jenkins-operator-example-r-old")) as Hl
      by (vm_compute; reflexivity).
    apply (Tiff eq_refl "jenkins-operator-example-r-old" _ Hl).
    split; [left; vm_compute; reflexivity |].
    intros (roleRef & Hin & Heq). apply list_elem_of_singleton in Hin. subst roleRef.
    vm_compute in Heq. discriminate.
  - vm_compute in E. injection E as <-. split; eexists; vm_compute; reflexivity.
Defined.

Lemma pending_timeout_witness :
  detectJenkinsMasterPodStartingIssues (H1 := pending) quiet = ((false, None), quiet) /\
  detectJenkinsMasterPodStartingIssues (H1 := pending) noisy = ((true, None), noisy).
Proof.
  assert (0 + 2 * Minute < threeMinutes)%Z as Hlate by (vm_compute; reflexivity).
  split.
  - destruct (pending_timeout_stops_on_matching_events (H1 := pending)
                quiet quiet (pod "Pending" []) 0%Z eq_refl eq_refl eq_refl Hlate eq_refl)
      as (w2 & Hnone & _).
    destruct (Hnone eq_refl) as [Hrun _]. rewrite Hrun. f_equal.
    vm_compute in Hrun. injection Hrun as <-. vm_compute. reflexivity.
  - destruct (pending_timeout_stops_on_matching_events (H1 := pending)
                noisy noisy (pod "Pending" []) 0%Z eq_refl eq_refl eq_refl Hlate eq_refl)
      as (w2 & _ & Hsome).
    assert (detectJenkinsMasterPodStartingIssues (H1 := pending) noisy = ((true, None), w2))
      as Hrun by (apply Hsome; vm_compute; intros [=]).
    rewrite Hrun. f_equal. vm_compute in Hrun. injection Hrun as <-. vm_compute. reflexivity.
Defined.

Lemma detector_stop_witness :
  fst (detectJenkinsMasterPodStartingIssues (H1 := pending) unprovisioned) = (true, None) /\
  fst (detectJenkinsMasterPodStartingIssues (H1 := pending) noisy) = (true, None) /\
  fst (fst (detectJenkinsMasterPodStartingIssues (H1 := pending)
              (set_faults [true] noisy))) = false.
Proof.
  split; [| split].
  - pose proof (detector_stop_cases (H1 := pending) unprovisioned) as T.
    assert (GetJenkinsMasterPod (Collaborators := pending) unprovisioned =
            ((pod "Pending" [], None), unprovisioned)) as Hpod
      by (vm_compute; reflexivity).
    rewrite Hpod in T.
    destruct (detectJenkinsMasterPodStartingIssues (H1 := pending) unprovisioned)
      as [[stop err] w'].
    destruct T as (Hiff & _ & Hstop).
    assert (stop = true) as Hs
      by (apply Hiff; split; [reflexivity | left; vm_compute; reflexivity]).
    destruct (Hstop Hs) as [-> _]. rewrite Hs. reflexivity.
  - pose proof (detector_stop_cases (H1 := pending) noisy) as T.
    assert (GetJenkinsMasterPod (Collaborators := pending) noisy =
            ((pod "Pending" [], None), noisy)) as Hpod
      by (vm_compute; reflexivity).
    rewrite Hpod in T.
    destruct (detectJenkinsMasterPodStartingIssues (H1 := pending) noisy)
      as [[stop err] w'].
    destruct T as (Hiff & _ & Hstop).
    assert (stop = true) as Hs.
    { apply Hiff. split; [reflexivity |]. right. exists 0%Z.
      split; [vm_compute; reflexivity |]. split; [vm_compute; reflexivity |].
      split; [vm_compute; reflexivity |]. split; [vm_compute; reflexivity |].
      vm_compute. intros [=]. }
    destruct (Hstop Hs) as [-> _]. rewrite Hs. reflexivity.
  - pose proof (detector_stop_cases (H1 := pending) (set_faults [true] noisy)) as T.
    assert (GetJenkinsMasterPod (Collaborators := pending) (set_faults [true] noisy) =
            ((pod "Pending" [], None), set_faults [true] noisy)) as Hpod
      by (vm_compute; reflexivity).
    rewrite Hpod in T.
    destruct (detectJenkinsMasterPodStartingIssues (H1 := pending) (set_faults [true] noisy))
      as [[stop err] w'].
    destruct T as (Hiff & _ & _).
    destruct stop; [exfalso | reflexivity].
    destruct (proj1 Hiff eq_refl) as (_ & [Hnil | (s & _ & _ & _ & Hans & _)]).
    + vm_compute in Hnil. discriminate Hnil.
    + vm_compute in Hans. discriminate Hans.
Defined.

(** C4 as stated fails: with the provisioning start recorded, a pod that is
    Pending three minutes later and has a warning event of its own makes the
    detector answer stop, and the cycle returns with no requeue, no client
    and no error, the outcome the claim keeps for a missing start. *)
Lemma stop_with_provision_time_recorded :
  exists w1 w',
    reachesDetector (H1 := pending) noisy w1 /\
    JenkinsStatus.ProvisionStartTime (Jenkins.Status (jenkins w1)) = Some 0%Z /\
    detectJenkinsMasterPodStartingIssues (H1 := pending) w1 = ((true, None), w') /\
    Reconcile (H1 := pending) noisy =
    (({| Result.Requeue := false; Result.RequeueAfter := 0 |}, None, None), w').
Proof.
  pose (w1 := snd (ensureResourcesRequiredForJenkinsPod (H1 := pending)
                     (NewResourceObjectMeta (Collaborators := pending) (jenkins noisy)) noisy)).
  exists w1, w1. split; [| split; [| split]].
  - exists w1, Result.zero. split; [vm_compute; reflexivity |].
    split; [vm_compute; reflexivity |]. split; [vm_compute; reflexivity | reflexivity].
  - vm_compute. reflexivity.
  - vm_compute. reflexivity.
  - vm_compute. reflexivity.
Qed.

Lemma createOperatorCredentialsSecret_witness :
  writes (snd (createOperatorCredentialsSecret (H1 := pending)
                 (meta "jenkins-operator-example") provisioned)) = [] /\
  secrets (snd (createOperatorCredentialsSecret (H1 := pending)
                  (meta "jenkins-operator-example") provisioned)) = secrets provisioned.
Proof.
  pose proof (createOperatorCredentialsSecret_writes (H := pending)
                (meta "jenkins-operator-example") provisioned) as T.
  destruct (createOperatorCredentialsSecret (H1 := pending)
              (meta "jenkins-operator-example") provisioned) as [err w'].
  cbv zeta in T. destruct T as (added & Hw & _ & Hcomplete & _).
  assert (secrets provisioned
            !! (Jenkins.Namespace (jenkins provisioned),
                GetOperatorCredentialsSecretName (Collaborators := pending)
                  (jenkins provisioned)) =
          Some (credentials (<["user" := Some [Byte.x61]]>
                               (<["password" := Some [Byte.x62]]> ∅)))) as Hl
    by (vm_compute; reflexivity).
  destruct (Hcomplete _ Hl) as [-> Hs].
  - split; vm_compute; intros [=].
  - cbn [snd]. rewrite Hw. split; [reflexivity | exact Hs].
Defined.

End CycleExamples.

Section CompareProperties.
Import Compare.

Lemma fold_left_append {A : Type} (skip : A -> bool) (l : list A) (acc : Slice A) :
  fold_left (fun (acc : Slice A) x => if skip x then acc else append acc x) l acc =
  match List.filter (fun x => negb (skip x)) l with
  | [] => acc
  | kept => Some (elems acc ++ kept)
  end.
Proof.
  revert acc. induction l as [|x l IH]; intros acc; [reflexivity |].
  cbn [fold_left List.filter]. rewrite IH. destruct (skip x); cbn [negb]; [reflexivity |].
  unfold append. unfold elems; cbn [default from_option id].
  destruct (List.filter _ l); cbn; [reflexivity |]. rewrite <- app_assoc. reflexivity.
Qed.

Lemma fold_left_append_nil {A : Type} (skip : A -> bool) (l : list A) :
  fold_left (fun (acc : Slice A) x => if skip x then acc else append acc x) l None =
  collected (List.filter (fun x => negb (skip x)) l).
Proof. rewrite fold_left_append. destruct (List.filter _ l); reflexivity. Qed.

(** X1. [compareMap] answers true exactly when every key of [expected] is
    in [actual] with the same value; what else [actual] holds is ignored. *)
Theorem compareMap_submap (expected actual : gmap string string) :
  compareMap expected actual = true <-> expected ⊆ actual.
Proof.
  unfold compareMap. rewrite forallb_forall, map_subseteq_spec. split.
  - intros Hall k v Hk. specialize (Hall (k, v)). cbn in Hall.
    assert (In (k, v) (map_to_list expected)) as Hin
      by (apply list_elem_of_In, elem_of_map_to_list; exact Hk).
    specialize (Hall Hin). destruct (actual !! k) as [v'|]; [| discriminate].
    apply String.eqb_eq in Hall. congruence.
  - intros Hsub [k v] Hin. apply list_elem_of_In, elem_of_map_to_list in Hin.
    rewrite (Hsub k v Hin). apply String.eqb_refl.
Qed.

(** X2. [compareImagePullSecrets] answers true exactly when the name of
    every expected secret is the name of some actual secret: order, repeats
    and further actual secrets do not matter. *)
Theorem compareImagePullSecrets_names (expected actual : list LocalObjectReference.t) :
  compareImagePullSecrets expected actual = true <->
  LocalObjectReference.Name <$> expected ⊆ LocalObjectReference.Name <$> actual.
Proof.
  unfold compareImagePullSecrets. rewrite forallb_forall. split.
  - intros Hall name Hin. apply list_elem_of_fmap in Hin as (e & -> & Hin).
    apply list_elem_of_In in Hin. apply Hall, existsb_exists in Hin as (a & Hin & Heq).
    apply String.eqb_eq in Heq. rewrite Heq.
    apply list_elem_of_fmap. exists a. split; [reflexivity | apply list_elem_of_In; exact Hin].
  - intros Hsub e Hin. apply existsb_exists.
    assert (LocalObjectReference.Name e ∈ LocalObjectReference.Name <$> actual) as Ha.
    { apply Hsub, list_elem_of_fmap. exists e. split; [reflexivity |].
      apply list_elem_of_In. exact Hin. }
    apply list_elem_of_fmap in Ha as (a & Heq & Ha). exists a.
    split; [apply list_elem_of_In; exact Ha | apply String.eqb_eq; exact Heq].
Qed.

Lemma compareEnv_spec (expected actual : Slice EnvVar.t) :
  compareEnv expected actual = true <->
  expected =
  collected (List.filter (fun env => negb (isKubernetesEnv (EnvVar.Name env))) (elems actual)).
Proof.
  unfold compareEnv, DeepEqual.
  rewrite (fold_left_append_nil (fun env => isKubernetesEnv (EnvVar.Name env))).
  apply bool_decide_eq_true.
Qed.

(** X3. [compareEnv] ignores the four variables the platform injects,
    wherever they stand in [actual]; without them, a list that is not empty
    equals itself; and an expected slice that is empty but not [nil] equals
    no actual list at all. *)
Theorem compareEnv_ignores_injected (expected : Slice EnvVar.t) :
  (forall before env after,
      isKubernetesEnv (EnvVar.Name env) = true ->
      compareEnv expected (Some (before ++ env :: after)) =
      compareEnv expected (Some (before ++ after))) /\
  (forall envs,
      envs <> [] ->
      (forall env, env ∈ envs -> isKubernetesEnv (EnvVar.Name env) = false) ->
      compareEnv (Some envs) (Some envs) = true) /\
  (forall actual, compareEnv (Some []) actual = false).
Proof.
  split; [| split].
  - intros before env after Henv.
    apply eq_true_iff_eq. rewrite !compareEnv_spec. unfold elems; cbn [default from_option id].
    rewrite !List.filter_app. cbn [List.filter]. rewrite Henv. reflexivity.
  - intros envs Hne Hall. apply compareEnv_spec. unfold elems; cbn [default from_option id].
    assert (List.filter (fun env => negb (isKubernetesEnv (EnvVar.Name env))) envs = envs)
      as ->.
    { clear Hne. induction envs as [|env envs IH]; [reflexivity |].
      cbn [List.filter]. rewrite (Hall env) by left. cbn [negb]. f_equal.
      apply IH. intros env' Hin. apply Hall. right. exact Hin. }
    destruct envs; [contradiction | reflexivity].
  - intros actual. apply not_true_iff_false. rewrite compareEnv_spec.
    destruct (List.filter _ _); discriminate.
Qed.

Definition serviceAccountPath := "/var/run/secrets/kubernetes.io/serviceaccount".

Lemma CompareContainerVolumeMounts_spec (expected actual : Container.t) :
  CompareContainerVolumeMounts expected actual = true <->
  Container.VolumeMounts expected =
  collected (List.filter
               (fun m => negb (String.eqb (VolumeMount.MountPath m) serviceAccountPath))
               (elems (Container.VolumeMounts actual))).
Proof.
  unfold CompareContainerVolumeMounts, DeepEqual.
  rewrite <- (fold_left_append_nil
                (fun m => String.eqb (VolumeMount.MountPath m) serviceAccountPath)).
  rewrite bool_decide_eq_true.
  assert (forall l (acc : Slice VolumeMount.t),
             fold_left (fun (w : Slice VolumeMount.t) m =>
                          if negb (String.eqb (VolumeMount.MountPath m) serviceAccountPath)
                          then append w m else w) l acc =
             fold_left (fun (w : Slice VolumeMount.t) m =>
                          if String.eqb (VolumeMount.MountPath m) serviceAccountPath
                          then w else append w m) l acc) as Hsame.
  { induction l as [|m l IH]; intros acc; [reflexivity |]. cbn [fold_left].
    rewrite IH. destruct (String.eqb _ _); reflexivity. }
  unfold serviceAccountPath in *. rewrite Hsame. reflexivity.
Qed.

(** X4. [CompareContainerVolumeMounts] ignores the mounts of the service
    account token, wherever they stand among the actual mounts; without
    them, a list of mounts that is not empty equals itself; and expected
    mounts that are empty but not [nil] equal no actual mounts at all. *)
Theorem CompareContainerVolumeMounts_ignores_token (expected : Container.t) :
  (forall before m after,
      VolumeMount.MountPath m = "/var/run/secrets/kubernetes.io/serviceaccount" ->
      CompareContainerVolumeMounts expected
        {| Container.VolumeMounts := Some (before ++ m :: after) |} =
      CompareContainerVolumeMounts expected
        {| Container.VolumeMounts := Some (before ++ after) |}) /\
  (forall mounts,
      mounts <> [] ->
      (forall m, m ∈ mounts ->
         VolumeMount.MountPath m <> "/var/run/secrets/kubernetes.io/serviceaccount") ->
      CompareContainerVolumeMounts {| Container.VolumeMounts := Some mounts |}
        {| Container.VolumeMounts := Some mounts |} = true) /\
  (Container.VolumeMounts expected = Some [] ->
   forall actual, CompareContainerVolumeMounts expected actual = false).
Proof.
  split; [| split].
  - intros before m after Hm.
    apply eq_true_iff_eq. rewrite !CompareContainerVolumeMounts_spec.
    cbn [Container.VolumeMounts]. unfold elems; cbn [default from_option id].
    rewrite !List.filter_app. cbn [List.filter]. rewrite Hm.
    unfold serviceAccountPath. rewrite String.eqb_refl. reflexivity.
  - intros mounts Hne Hall. apply CompareContainerVolumeMounts_spec.
    cbn [Container.VolumeMounts]. unfold elems; cbn [default from_option id].
    assert (List.filter
              (fun m => negb (String.eqb (VolumeMount.MountPath m) serviceAccountPath))
              mounts = mounts) as ->.
    { clear Hne. induction mounts as [|m mounts IH]; [reflexivity |].
      cbn [List.filter].
      destruct (String.eqb_spec (VolumeMount.MountPath m) serviceAccountPath) as [He|_].
      - exfalso. apply (Hall m); [left | exact He].
      - cbn [negb]. f_equal. apply IH. intros m' Hin. apply Hall. right. exact Hin. }
    destruct mounts; [contradiction | reflexivity].
  - intros Hempty actual. apply not_true_iff_false.
    rewrite CompareContainerVolumeMounts_spec, Hempty.
    destruct (List.filter _ _); discriminate.
Qed.

Lemma compareVolumes_spec `{VolumeSources} (jenkins : Jenkins.t) (actualPod : PodSpec.t) :
  compareVolumes jenkins actualPod = true <->
  appendAll (GetJenkinsMasterPodBaseVolumes jenkins) (MasterVolumes jenkins) =
  collected (List.filter
               (fun v => negb (Go.HasPrefix (Volume.Name v) (PodSpec.ServiceAccountName actualPod)
                               || Go.HasPrefix (Volume.Name v) kubeAPIAccessPrefix))
               (elems (PodSpec.Volumes actualPod))).
Proof.
  unfold compareVolumes, DeepEqual.
  rewrite <- (fold_left_append_nil
                (fun v => Go.HasPrefix (Volume.Name v) (PodSpec.ServiceAccountName actualPod)
                          || Go.HasPrefix (Volume.Name v) kubeAPIAccessPrefix)).
  rewrite bool_decide_eq_true.
  assert (forall l (acc : Slice Volume.t),
             fold_left (fun (w : Slice Volume.t) v =>
                          if Go.HasPrefix (Volume.Name v) (PodSpec.ServiceAccountName actualPod)
                          then w
                          else if Go.HasPrefix (Volume.Name v) kubeAPIAccessPrefix then w
                          else append w v) l acc =
             fold_left (fun (w : Slice Volume.t) v =>
                          if Go.HasPrefix (Volume.Name v) (PodSpec.ServiceAccountName actualPod)
                             || Go.HasPrefix (Volume.Name v) kubeAPIAccessPrefix
                          then w else append w v) l acc) as Hsame.
  { induction l as [|v l IH]; intros acc; [reflexivity |]. cbn [fold_left].
    rewrite IH. destruct (Go.HasPrefix _ (PodSpec.ServiceAccountName actualPod)); reflexivity. }
  rewrite Hsame. reflexivity.
Qed.

(** X5. [compareVolumes] ignores the volumes whose name starts with
    [kube-api-access-], wherever they stand among the pod's volumes. When
    the pod's service account name is empty every volume counts as the
    account's and is ignored: the answer is then true exactly when the
    expected volumes are the [nil] slice, whatever the pod holds. *)
Theorem compareVolumes_ignores_platform_volumes `{VolumeSources}
    (jenkins : Jenkins.t) (account : string) :
  (forall before v after,
      String.prefix "kube-api-access-" (Volume.Name v) = true ->
      compareVolumes jenkins
        {| PodSpec.ServiceAccountName := account;
           PodSpec.Volumes := Some (before ++ v :: after) |} =
      compareVolumes jenkins
        {| PodSpec.ServiceAccountName := account;
           PodSpec.Volumes := Some (before ++ after) |}) /\
  (forall volumes,
      compareVolumes jenkins
        {| PodSpec.ServiceAccountName := ""; PodSpec.Volumes := volumes |} = true <->
      appendAll (GetJenkinsMasterPodBaseVolumes jenkins) (MasterVolumes jenkins) = None).
Proof.
  split.
  - intros before v after Hv.
    apply eq_true_iff_eq. rewrite !compareVolumes_spec.
    cbn [PodSpec.Volumes PodSpec.ServiceAccountName]. unfold elems; cbn [default from_option id].
    rewrite !List.filter_app. cbn [List.filter].
    change (Go.HasPrefix (Volume.Name v) kubeAPIAccessPrefix = true) in Hv.
    rewrite Hv, orb_true_r. reflexivity.
  - intros volumes. rewrite compareVolumes_spec.
    cbn [PodSpec.Volumes PodSpec.ServiceAccountName].
    assert (List.filter
              (fun v => negb (Go.HasPrefix (Volume.Name v) ""
                              || Go.HasPrefix (Volume.Name v) kubeAPIAccessPrefix))
              (elems volumes) = []) as ->; [| reflexivity].
    induction (elems volumes) as [|v l IH]; [reflexivity |].
    cbn [List.filter]. unfold Go.HasPrefix at 1.
    assert (String.prefix "" (Volume.Name v) = true) as ->
      by (destruct (Volume.Name v); reflexivity).
    exact IH.
Qed.

End CompareProperties.

(** ** The route resource *)
Section RouteResourceProperties.
Context `{Base.Collaborators}.
Import RouteResource.


End RouteResourceProperties.

(** ** The dispatcher's platform events, and the router's queue *)
Section FeedProperties.
Context `{Constants} `{NotificationLevels}.
Import Notifications.

Lemma emitted_channels (e : Event.t) (channels : list Notification.t) :
  emitted (flat_map (notifyChannel e) channels) = [].
Proof.
  induction channels as [|c channels IH]; [reflexivity |].
  cbn [flat_map]. unfold emitted in *. rewrite List.filter_app, IH, app_nil_r.
  unfold notifyChannel. destruct (providerFor c); [| reflexivity].
  destruct (_ && _); reflexivity.
Qed.

(** X15. Over a whole feed, [Listen] emits one platform event for each
    event that carries a message, in the order of the feed and whatever the
    channels are, and none for the others. The platform event is of type
    Warning exactly for the level Warning; any other level, known or not,
    gives type Normal. Its message is the short messages joined by "; ". *)
Theorem Listen_emits_once_per_event (events : list Event.t) :
  emitted (Listen events) =
  map (fun e =>
         Emit (Event.Jenkins e)
              (if String.eqb (Event.Level e) NotificationLevelWarning
               then TypeWarning else TypeNormal)
              (Event.Reason e)
              (String.concat "; " (Reason.messages (Event.Reason e))))
      (List.filter (fun e => match Reason.messages (Event.Reason e) with
                             | [] => false
                             | _ :: _ => true
                             end) events).
Proof.
  unfold Listen. induction events as [|e events IH]; [reflexivity |].
  cbn [flat_map List.filter]. unfold emitted in *. rewrite List.filter_app, IH.
  unfold handleEvent, Reason.HasMessages.
  destruct (Reason.messages (Event.Reason e)) as [|m ms] eqn:Hm; cbn [negb]; [reflexivity |].
  cbn [List.filter app map].
  fold (emitted (flat_map (notifyChannel e)
                   (JenkinsSpec.Notifications (Jenkins.Spec (Event.Jenkins e))))).
  rewrite emitted_channels. cbn [app]. f_equal.
  unfold eventLevelToKubernetesEventType, Go.Join, Reason.Short. rewrite Hm.
  destruct (String.eqb (Event.Level e) NotificationLevelWarning); [reflexivity |].
  destruct (String.eqb (Event.Level e) NotificationLevelInfo); reflexivity.
Qed.

Import Router.

Lemma getOwnerReconcileRequests_named (obj : Object) (req : Request) :
  getOwnerReconcileRequests obj = Some req ->
  Name req <> "" /\ Namespace req = GetNamespace obj.
Proof.
  intros Hreq. apply getOwnerReconcileRequests_Some in Hreq as (_ & _ & Hne & ->). auto.
Qed.

(** X16. Each of the four handlers of the router leaves the requests that
    are queued in place and in order and adds at most one; a request it adds
    has a name that is not empty and the namespace of the event's object
    (for an update, of the old or of the new object). *)
Theorem router_only_appends_named_requests (obj : Object) (evt : UpdateEvent) (q : Queue) :
  let sound (namespaces : list string) (q' : Queue) :=
    exists added,
      q' = q ++ added /\ length added <= 1 /\
      Forall (fun req => Name req <> "" /\ Namespace req ∈ namespaces) added in
  sound [GetNamespace obj] (Create obj q) /\
  sound [GetNamespace obj] (Delete obj q) /\
  sound [GetNamespace obj] (Generic obj q) /\
  sound [GetNamespace (ObjectOld evt); GetNamespace (ObjectNew evt)] (Update evt q).
Proof.
  cbv zeta. unfold Create, Delete, Generic, Update, Add.
  assert (forall o l, In (GetNamespace o) l ->
            exists added,
              match getOwnerReconcileRequests o with
              | Some req => q ++ [req]
              | None => q
              end = q ++ added /\ length added <= 1 /\
              Forall (fun req => Name req <> "" /\ Namespace req ∈ l) added) as Hone.
  { intros o l Hin. destruct (getOwnerReconcileRequests o) as [req|] eqn:Hreq.
    - exists [req]. split; [reflexivity |]. split; [cbn; lia |].
      apply getOwnerReconcileRequests_named in Hreq as [Hn Hns].
      constructor; [| constructor]. split; [exact Hn |]. rewrite Hns.
      apply list_elem_of_In. exact Hin.
    - exists []. rewrite app_nil_r. split; [reflexivity |]. split; [cbn; lia | constructor]. }
  repeat split; try (apply Hone; left; reflexivity).
  destruct (getOwnerReconcileRequests (ObjectOld evt)) as [r1|] eqn:H1.
  - specialize (Hone (ObjectOld evt)
                  [GetNamespace (ObjectOld evt); GetNamespace (ObjectNew evt)]).
    rewrite H1 in Hone. apply Hone. left. reflexivity.
  - specialize (Hone (ObjectNew evt)
                  [GetNamespace (ObjectOld evt); GetNamespace (ObjectNew evt)]).
    apply Hone. right. left. reflexivity.
Qed.

End FeedProperties.

(** ** Waiting for the pod, and the stages of the cycle *)
Section WaitProperties.
Context `{Constants} `{NotificationLevels} `{Base.Collaborators}.
Import Platform Base.

(** The loop over the container statuses stops at the first terminated
    container; with none, it counts the ready ones. *)
Lemma countReadyContainers_inr (statuses : list ContainerStatus.t) (n k : nat) :
  countReadyContainers statuses n = inr k <->
  Forall (fun cs => ContainerStatus.Terminated cs = None) statuses /\
  k = n + length (List.filter ContainerStatus.Ready statuses).
Proof.
  revert n. induction statuses as [|cs statuses IH]; intros n; cbn [countReadyContainers].
  - cbn. split.
    + intros [= <-]. split; [constructor | lia].
    + intros [_ ->]. f_equal. lia.
  - destruct (ContainerStatus.Terminated cs) as [t|] eqn:Ht.
    + split; [discriminate |]. intros [Hall _]. inversion Hall; congruence.
    + cbn [List.filter]. destruct (ContainerStatus.Ready cs); cbn [negb];
        rewrite IH; cbn [length]; split; intros [Hall ->];
        (split; [first [constructor; assumption | inversion Hall; assumption] | lia]).
Qed.

Lemma countReadyContainers_inl (before after : list ContainerStatus.t)
    (cs : ContainerStatus.t) (n : nat) :
  Forall (fun c => ContainerStatus.Terminated c = None) before ->
  ContainerStatus.Terminated cs <> None ->
  countReadyContainers (before ++ cs :: after) n =
  inl ("Container '" +:+ ContainerStatus.Name cs +:+ "' is terminated, status '"
         +:+ showContainerStatus cs +:+ "'").
Proof.
  intros Hbefore Hcs. revert n.
  induction Hbefore as [|c before Hc _ IH]; intros n; cbn [app countReadyContainers].
  - destruct (ContainerStatus.Terminated cs); [reflexivity | contradiction].
  - rewrite Hc. destruct (ContainerStatus.Ready c); apply IH.
Qed.

Lemma filter_all_length {A : Type} (f : A -> bool) (l : list A) :
  length (List.filter f l) = length l <-> Forall (fun x => f x = true) l.
Proof.
  induction l as [|x l IH]; cbn [List.filter length].
  - split; [constructor | reflexivity].
  - pose proof (List.filter_length_le f l) as Hle. destruct (f x) eqn:Hx; cbn [length].
    + split.
      * intros [= Hl]. constructor; [exact Hx | apply IH; exact Hl].
      * intros Hall. inversion Hall; subst. f_equal. apply IH. assumption.
    + split; [lia |]. intros Hall. inversion Hall; congruence.
Qed.

(** X6. [waitForJenkins] returns without requeue and without error exactly
    when the pod is fetched, is not terminating, is in phase Running, and
    each of its containers is ready and not terminated; it then returns the
    zero result and leaves the world as the fetch left it. *)
Theorem waitForJenkins_ready_iff (w : World) :
  let '((pod, fetchErr), w1) := GetJenkinsMasterPod w in
  let '((result, err), w') := waitForJenkins w in
  (Result.Requeue result = false /\ err = None <->
   fetchErr = None /\
   IsJenkinsTerminating pod = false /\
   Pod.Phase pod = "Running" /\
   Forall (fun cs => ContainerStatus.Terminated cs = None /\
                     ContainerStatus.Ready cs = true)
          (Pod.ContainerStatuses pod)) /\
  (Result.Requeue result = false -> err = None -> result = Result.zero /\ w' = w1).
Proof.
  unfold waitForJenkins, mbind, M_bind.
  destruct (GetJenkinsMasterPod w) as [[pod [e|]] w1].
  { cbn. split; [| intros _ [=]]. split; [intros [_ [=]] | intros [[=] _]]. }
  destruct (IsJenkinsTerminating pod).
  { cbn. split; [| intros [=]]. split; [intros [[=] _] | intros (_ & [=] & _)]. }
  destruct (String.eqb_spec (Pod.Phase pod) PodRunning) as [Hphase|Hphase]; cbn [negb].
  2:{ cbn. split; [| intros [=]].
      split; [intros [[=] _] | intros (_ & _ & Hp & _); contradiction]. }
  destruct (countReadyContainers (Pod.ContainerStatuses pod) 0) as [message|k] eqn:Hcount.
  { destruct (RestartJenkinsMasterPod _ w1) as [err w'] eqn:Hrestart. cbn.
    split; [| intros [=]]. split; [intros [[=] _] |].
    intros (_ & _ & _ & Hall).
    assert (exists k, countReadyContainers (Pod.ContainerStatuses pod) 0 = inr k)
      as [k Hk]; [| congruence].
    eexists. apply countReadyContainers_inr. split; [| reflexivity].
    eapply Forall_impl; [exact Hall |]. cbn. tauto. }
  apply countReadyContainers_inr in Hcount as [Hterm ->]. cbn [Nat.add].
  destruct (Nat.eqb_spec (length (List.filter ContainerStatus.Ready (Pod.ContainerStatuses pod)))
              (length (Pod.ContainerStatuses pod))) as [Heq|Hne]; cbn [negb].
  - cbn. split; [| auto]. split; [| auto]. intros _.
    repeat split; auto. apply filter_all_length in Heq.
    apply Forall_and; split; assumption.
  - cbn. split; [| intros [=]]. split; [intros [[=] _] |].
    intros (_ & _ & _ & Hall). exfalso. apply Hne, filter_all_length.
    eapply Forall_impl; [exact Hall |]. cbn. tauto.
Qed.

(** X7. In a pod that is fetched, not terminating and Running, the first
    terminated container, whether or not the containers before it are
    ready, makes [waitForJenkins] ask for one restart, with the reason
    [Kubernetes] and the one message that names the container, and return a
    requeue with no delay together with the error of the restart. *)
Theorem waitForJenkins_restarts_on_terminated
    (w w1 : World) (pod : Pod.t) (before after : list ContainerStatus.t)
    (cs : ContainerStatus.t)
    (Hpod : GetJenkinsMasterPod w = ((pod, None), w1))
    (Halive : IsJenkinsTerminating pod = false)
    (Hphase : Pod.Phase pod = "Running")
    (Hstatuses : Pod.ContainerStatuses pod = before ++ cs :: after)
    (Hbefore : Forall (fun c => ContainerStatus.Terminated c = None) before)
    (Hterminated : ContainerStatus.Terminated cs <> None) :
  waitForJenkins w =
  (let '(err, w') :=
     RestartJenkinsMasterPod
       {| Reason.source := Reason.KubernetesSource;
          Reason.messages :=
            ["Container '" +:+ ContainerStatus.Name cs +:+ "' is terminated, status '"
               +:+ showContainerStatus cs +:+ "'"] |} w1 in
   (({| Result.Requeue := true; Result.RequeueAfter := 0 |}, err), w')).
Proof.
  unfold waitForJenkins. unfold mbind at 1, M_bind at 1. rewrite Hpod, Halive, Hphase.
  cbn [String.eqb PodRunning Ascii.eqb Bool.eqb negb].
  rewrite Hstatuses, (countReadyContainers_inl _ _ _ _ Hbefore Hterminated).
  unfold mbind, M_bind, Reason.NewPodRestart.
  destruct (RestartJenkinsMasterPod _ w1). reflexivity.
Qed.

(** X8. The detector never answers stop together with an error. With the
    pod fetched and the provisioning start recorded, as long as the pod is
    not Pending or the two minutes have not passed it answers stop = false
    with no error and sends no request to the platform: the world stays as
    the fetch left it. *)
Theorem detector_waits_inside_window (w : World) :
  let '((pod, fetchErr), w1) := GetJenkinsMasterPod w in
  let '((stop, err), w') := detectJenkinsMasterPodStartingIssues w in
  (err <> None -> stop = false) /\
  (fetchErr = None ->
   forall start,
     JenkinsStatus.ProvisionStartTime (Jenkins.Status (jenkins w1)) = Some start ->
     Pod.Phase pod <> "Pending" \/ (now w1 <= start + 2 * Minute)%Z ->
     stop = false /\ err = None /\ w' = w1).
Proof.
  unfold detectJenkinsMasterPodStartingIssues.
  unfold mbind at 1, M_bind at 1.
  destruct (GetJenkinsMasterPod w) as [[pod [e|]] w1].
  { cbn. split; [reflexivity | intros [=]]. }
  unfold mbind at 1, M_bind at 1, gets at 1.
  destruct (JenkinsStatus.ProvisionStartTime (Jenkins.Status (jenkins w1))) as [start|].
  2:{ cbn. split; [intros Hc; contradiction | intros _ start [=]]. }
  destruct (String.eqb_spec (Pod.Phase pod) PodPending) as [Hphase|Hphase].
  2:{ cbn. split; [intros Hc; contradiction | auto]. }
  unfold mbind at 1, M_bind at 1, gets at 1.
  destruct (Z.ltb_spec (start + Minute * 2) (now w1)) as [Hlate|Hearly].
  2:{ cbn. split; [intros Hc; contradiction | auto]. }
  unfold mbind at 1, M_bind at 1, gets at 1.
  unfold mbind at 1, M_bind at 1.
  destruct (ClientListEvents (Jenkins.Namespace (jenkins w1)) w1) as [[evs [e|]] w2].
  - cbn. split; [reflexivity |]. intros _ start' [= <-] [Hp | Hn]; [contradiction | lia].
  - destruct (length _ =? 0)%nat; cbn;
      (split; [intros Hc; contradiction |
               intros _ start' [= <-] [Hp | Hn]; [contradiction | lia]]).
Qed.

(** X9. [Reconcile] returns a client only from its last stage: the stages
    up to the plugin check have run with no error, stop or requeue, the
    plugin check has found no mismatch, and the result and the error are
    those of [ensureBaseConfiguration]. *)
Theorem Reconcile_client_only_after_plugin_check
    (w0 w' : World) (result : Result.t) (client : JenkinsClient) (err : error)
    (Hrun : Reconcile w0 = ((result, Some client, err), w')) :
  exists w5 w6,
    reachesPluginCheck w0 client w5 /\
    verifyPlugins client w5 = ((true, None), w6) /\
    ensureBaseConfiguration client w6 = ((result, err), w').
Proof.
  revert Hrun. unfold Reconcile.
  unfold mbind at 1, M_bind at 1, gets at 1.
  unfold mbind at 1, M_bind at 1.
  destruct (ensureResourcesRequiredForJenkinsPod _ w0) as [[e|] w1] eqn:Hres;
    [intros [=] |].
  unfold mbind at 1, M_bind at 1, gets at 1.
  destruct (useDeploymentForJenkinsMaster (jenkins w1)) eqn:Hdep.
  { unfold mbind at 1, M_bind at 1.
    destruct (ensureJenkinsDeployment _ w1) as [[r [e|]] w2]; [intros [=] |].
    destruct (Result.Requeue r); intros [=]. }
  unfold mbind at 1, M_bind at 1.
  destruct (ensureJenkinsMasterPod _ w1) as [[r2 [e|]] w2] eqn:Hpod; [intros [=] |].
  destruct (Result.Requeue r2) eqn:Hrq2; [intros [=] |].
  unfold mbind at 1, M_bind at 1.
  destruct (detectJenkinsMasterPodStartingIssues w2) as [[stop [e|]] w3] eqn:Hdet;
    [intros [=] |].
  destruct stop; [intros [=] |].
  unfold mbind at 1, M_bind at 1.
  destruct (waitForJenkins w3) as [[r4 [e|]] w4] eqn:Hwait; [intros [=] |].
  destruct (Result.Requeue r4) eqn:Hrq4; [intros [=] |].
  unfold mbind at 1, M_bind at 1.
  destruct (GetJenkinsClient w4) as [[c [e|]] w5] eqn:Hcli; [intros [=] |].
  unfold mbind at 1, M_bind at 1.
  destruct (verifyPlugins c w5) as [[ok [e|]] w6] eqn:Hver; [intros [=] |].
  destruct ok; cbn [negb]; unfold mbind at 1, M_bind at 1.
  2:{ destruct (RestartJenkinsMasterPod _ w6). intros [=]. }
  destruct (ensureBaseConfiguration c w6) as [[r7 e7] w7] eqn:Hbase.
  intros [= <- <- <- <-].
  exists w5, w6. split; [| split; [exact Hver | exact Hbase]].
  exists w2, w3, w4, r4. split; [| auto].
  exists w1, r2. auto.
Qed.

End WaitProperties.

(** ** Role bindings: names, convergence and repeated passes *)
Section RoleBindingProperties.
Context `{Base.Collaborators}.
Import Platform Base.

Lemma prefix_app (s t : string) : String.prefix s (s +:+ t) = true.
Proof.
  induction s as [|c s IH]; [destruct t; reflexivity |].
  change (String.prefix (String c s) (String c (s +:+ t)) = true).
  cbn. destruct (Ascii.ascii_dec c c); [exact IH | contradiction].
Qed.

Lemma prefix_length (s t : string) :
  String.prefix s t = true -> String.length s <= String.length t.
Proof.
  revert t. induction s as [|c s IH]; intros t; [cbn; lia |].
  destruct t as [|d t]; cbn; [discriminate |].
  destruct (Ascii.ascii_dec c d); [| discriminate]. intros Hp. apply IH in Hp. lia.
Qed.

Lemma length_app_string (s t : string) :
  String.length (s +:+ t) = String.length s + String.length t.
Proof.
  induction s as [|c s IH]; [reflexivity |].
  change (S (String.length (s +:+ t)) = S (String.length s + String.length t)).
  rewrite IH. reflexivity.
Qed.

(** X10. The name of an extra binding depends on the account, on whether
    the role is a cluster role and on the role's name, and on nothing else:
    for one account, two roles get the same name exactly when they agree on
    both. Every such name carries one of the two prefixes the cleanup looks
    for, and the account's own name carries neither. *)
Theorem getExtraRoleBindingName_distinct (account : string) (r1 r2 : RoleRef.t) :
  (getExtraRoleBindingName account r1 = getExtraRoleBindingName account r2 <->
   String.eqb (RoleRef.Kind r1) "ClusterRole" = String.eqb (RoleRef.Kind r2) "ClusterRole" /\
   RoleRef.Name r1 = RoleRef.Name r2) /\
  (forall meta,
      ObjectMeta.Name meta = account ->
      hasExtraRoleBindingPrefix meta (getExtraRoleBindingName account r1) = true /\
      hasExtraRoleBindingPrefix meta account = false).
Proof.
  split.
  - rewrite !getExtraRoleBindingName_eq. split.
    + intros Heq. apply String.app_inj in Heq.
      change ("-" +:+ ?x) with (String "-" x) in Heq. injection Heq as Heq.
      destruct (String.eqb (RoleRef.Kind r1) "ClusterRole"),
        (String.eqb (RoleRef.Kind r2) "ClusterRole");
        cbv [String.append] in Heq; try discriminate;
        injection Heq as Heq; auto.
    + intros [-> ->]. reflexivity.
  - intros meta <-. split.
    + apply hasExtraRoleBindingPrefix_true. rewrite getExtraRoleBindingName_eq.
      destruct (String.eqb (RoleRef.Kind r1) "ClusterRole").
      * right.
        change (ObjectMeta.Name meta +:+ "-" +:+ "cr" +:+ "-" +:+ RoleRef.Name r1)
          with (ObjectMeta.Name meta +:+ ("-cr-" +:+ RoleRef.Name r1)).
        assert (forall a b c, a +:+ (b +:+ c) = (a +:+ b) +:+ c) as Hassoc.
        { intros a b c. induction a as [|x a IH]; [reflexivity |].
          change (String x (a +:+ (b +:+ c)) = String x ((a +:+ b) +:+ c)).
          rewrite IH. reflexivity. }
        rewrite Hassoc. apply prefix_app.
      * left.
        change (ObjectMeta.Name meta +:+ "-" +:+ "r" +:+ "-" +:+ RoleRef.Name r1)
          with (ObjectMeta.Name meta +:+ ("-r-" +:+ RoleRef.Name r1)).
        assert (forall a b c, a +:+ (b +:+ c) = (a +:+ b) +:+ c) as Hassoc.
        { intros a b c. induction a as [|x a IH]; [reflexivity |].
          change (String x (a +:+ (b +:+ c)) = String x ((a +:+ b) +:+ c)).
          rewrite IH. reflexivity. }
        rewrite Hassoc. apply prefix_app.
    + destruct (hasExtraRoleBindingPrefix meta (ObjectMeta.Name meta)) eqn:Hp; [| reflexivity].
      apply hasExtraRoleBindingPrefix_true in Hp as [Hp | Hp];
        apply prefix_length in Hp; rewrite length_app_string in Hp; cbn in Hp; lia.
Qed.

Lemma ClientCreate_RoleBinding_outcome (rb : RoleBinding.t) (w : World) :
  exists err w',
    ClientCreate rb w = (err, w') /\
    jenkins w' = jenkins w /\
    ((err = Some transient /\ roleBindings w' = roleBindings w) \/
     (err = Some ErrAlreadyExists /\ roleBindings w' = roleBindings w /\
      is_Some (roleBindings w !! keyOf rb)) \/
     (err = None /\ roleBindings w !! keyOf rb = None /\
      roleBindings w' = <[keyOf rb := rb]> (roleBindings w))).
Proof.
  unfold ClientCreate, record, modify, gets, mbind, M_bind, mret, M_ret.
  destruct (fault_frame (set_writes (writes w ++ [{| verb := VerbCreate; kind := kindOf;
      namespace := (keyOf rb).1; name := (keyOf rb).2 |}]) w)) as (b & fs & Hf).
  cbn in *. rewrite Hf. destruct b.
  - eexists _, _. split; [reflexivity |]. cbn. split; [reflexivity |]. left. auto.
  - cbn. destruct (roleBindings w !! keyOf rb) eqn:E.
    + eexists _, _. split; [reflexivity |]. cbn. split; [reflexivity |].
      right. left. split; [reflexivity |]. split; [reflexivity | eexists; reflexivity].
    + eexists _, _. split; [reflexivity |]. cbn. split; [reflexivity |].
      right. right. auto.
Qed.

(** The key under which the first loop creates the binding of a role. *)
Definition extraKey (meta : ObjectMeta.t) (roleRef : RoleRef.t) : string * string :=
  (ObjectMeta.Namespace meta, getExtraRoleBindingName (ObjectMeta.Name meta) roleRef).

Lemma createExtraRoleBindings_outcome (meta : ObjectMeta.t) (roles : list RoleRef.t)
    (w : World) :
  exists err w',
    createExtraRoleBindings meta roles w = (err, w') /\
    (err = None ->
     forall roleRef, roleRef ∈ roles -> is_Some (roleBindings w' !! extraKey meta roleRef)) /\
    ((forall roleRef, roleRef ∈ roles -> is_Some (roleBindings w !! extraKey meta roleRef)) ->
     roleBindings w' = roleBindings w).
Proof.
  revert w. induction roles as [|roleRef roles IH]; intros w; cbn [createExtraRoleBindings].
  - exists None, w. repeat split; auto. intros _ r Hin. inversion Hin.
  - unfold mbind, M_bind.
    destruct (ClientCreate_RoleBinding_outcome
                (NewRoleBinding (getExtraRoleBindingName (ObjectMeta.Name meta) roleRef)
                   (ObjectMeta.Namespace meta) (ObjectMeta.Name meta) roleRef) w)
      as (err & w1 & -> & Hj & Hcases).
    change (keyOf (NewRoleBinding (getExtraRoleBindingName (ObjectMeta.Name meta) roleRef)
                     (ObjectMeta.Namespace meta) (ObjectMeta.Name meta) roleRef))
      with (extraKey meta roleRef) in Hcases.
    destruct (createExtraRoleBindings_frame meta roles w1) as (err' & w' & Hrun & _ & Hkeep).
    destruct (IH w1) as (err'' & w'' & Hrun' & Hall & Hsame).
    rewrite Hrun in Hrun'. injection Hrun' as <- <-.
    destruct Hcases as [[-> Hrb] | [(-> & Hrb & Hthere) | (-> & Hnone & Hrb)]]; cbn.
    + exists (Some transient), w1. split; [reflexivity |]. split; [discriminate | auto].
    + exists err', w'. split; [exact Hrun |]. split.
      * intros He r Hin. apply elem_of_cons in Hin as [-> | Hin]; [| auto].
        destruct Hthere as [rb Hthere]. exists rb. apply Hkeep. rewrite Hrb. exact Hthere.
      * intros Hpresent. rewrite <- Hrb. apply Hsame. intros r Hin. rewrite Hrb.
        apply Hpresent. right. exact Hin.
    + exists err', w'. split; [exact Hrun |]. split.
      * intros He r Hin. apply elem_of_cons in Hin as [-> | Hin]; [| auto].
        eexists. apply Hkeep. rewrite Hrb. apply lookup_insert_eq.
      * intros Hpresent. destruct (Hpresent roleRef) as [rb Hrb']; [left |]. congruence.
Qed.

Lemma deleteExtraRoleBindings_nothing (meta : ObjectMeta.t) (items : list RoleBinding.t)
    (w : World) :
  (forall item, item ∈ items ->
     hasExtraRoleBindingPrefix meta (RoleBinding.Name item) = true ->
     foundAmong meta (JenkinsSpec.Roles (Jenkins.Spec (jenkins w)))
       (RoleBinding.Name item) = true) ->
  roleBindings (snd (deleteExtraRoleBindings meta items w)) = roleBindings w.
Proof.
  intros Hkept.
  destruct (deleteExtraRoleBindings_spec meta items w) as (err & w' & -> & _ & Hsafe & _).
  cbn [snd]. apply map_eq. intros key.
  destruct (Hsafe key) as [Hsame | (_ & item & Hin & _ & Hp & Hf)]; [exact Hsame |].
  rewrite (Hkept item Hin Hp) in Hf. discriminate.
Qed.

(** What a pass of [ensureExtraRBAC] does to the bindings, in three parts:
    a binding that is there and is not stale stays as it is; after a pass
    with no error every binding of the namespace is of that kind; and after
    a pass with no error every role has its binding. *)
Lemma ensureExtraRBAC_outcome (meta : ObjectMeta.t) (w : World) :
  exists err w',
    ensureExtraRBAC meta w = (err, w') /\
    jenkins w' = jenkins w /\
    (forall key rb,
        roleBindings w !! key = Some rb ->
        hasExtraRoleBindingPrefix meta key.2 = false \/
        foundAmong meta (JenkinsSpec.Roles (Jenkins.Spec (jenkins w))) key.2 = true ->
        roleBindings w' !! key = Some rb) /\
    (err = None ->
     (forall name rb,
         roleBindings w' !! (Jenkins.Namespace (jenkins w), name) = Some rb ->
         hasExtraRoleBindingPrefix meta name = true ->
         foundAmong meta (JenkinsSpec.Roles (Jenkins.Spec (jenkins w))) name = true) /\
     (forall roleRef,
         roleRef ∈ JenkinsSpec.Roles (Jenkins.Spec (jenkins w)) ->
         is_Some (roleBindings w' !! extraKey meta roleRef))) /\
    ((forall roleRef,
         roleRef ∈ JenkinsSpec.Roles (Jenkins.Spec (jenkins w)) ->
         is_Some (roleBindings w !! extraKey meta roleRef)) ->
     (forall name rb,
         roleBindings w !! (Jenkins.Namespace (jenkins w), name) = Some rb ->
         hasExtraRoleBindingPrefix meta name = true ->
         foundAmong meta (JenkinsSpec.Roles (Jenkins.Spec (jenkins w))) name = true) ->
     roleBindings w' = roleBindings w).
Proof.
  unfold ensureExtraRBAC, check.
  unfold mbind at 1, M_bind at 1, gets at 1.
  unfold mbind at 1, M_bind at 1.
  destruct (createExtraRoleBindings_frame meta
              (JenkinsSpec.Roles (Jenkins.Spec (jenkins w))) w)
    as (err1 & w1 & Hrun1 & Hj1 & Hkeep1).
  destruct (createExtraRoleBindings_outcome meta
              (JenkinsSpec.Roles (Jenkins.Spec (jenkins w))) w)
    as (err1' & w1' & Hrun1' & Hall1 & Hsame1).
  rewrite Hrun1 in Hrun1'. injection Hrun1' as <- <-. rewrite Hrun1.
  destruct err1 as [e1|].
  { exists (Some e1), w1. split; [reflexivity |]. split; [exact Hj1 |].
    split; [intros key rb Hk _; auto |]. split; [discriminate |]. auto. }
  unfold mbind at 1, M_bind at 1, gets at 1.
  unfold mbind at 1, M_bind at 1.
  destruct (ClientList_RoleBinding (Jenkins.Namespace (jenkins w1)) w1)
    as (items & err2 & w2 & -> & Hj2 & Hrb2 & Hitems & Hlisted).
  rewrite Hj1 in Hitems, Hlisted.
  destruct err2 as [e2|].
  { exists (Some e2), w2. split; [reflexivity |]. split; [congruence |].
    split; [intros key rb Hk _; rewrite Hrb2; auto |]. split; [discriminate |].
    intros Hpresent _. rewrite Hrb2. auto. }
  destruct (deleteExtraRoleBindings_spec meta items w2)
    as (err & w' & Hrun & Hj & Hsafe & Hdone).
  rewrite Hrun. rewrite Hj2, Hj1 in Hsafe, Hdone. rewrite Hrb2 in Hsafe.
  exists err, w'. split; [reflexivity |]. split; [congruence |].
  assert (forall key,
             roleBindings w' !! key = None ->
             is_Some (roleBindings w1 !! key) ->
             hasExtraRoleBindingPrefix meta key.2 = true /\
             foundAmong meta (JenkinsSpec.Roles (Jenkins.Spec (jenkins w))) key.2 = false)
    as Hgone.
  { intros key Hnone [rb Hk].
    destruct (Hsafe key) as [Hsame | (_ & item & Hin & Hkey & Hp & Hf)]; [congruence |].
    destruct (Hitems item Hin) as (key' & rb' & _ & _ & ->).
    destruct (keyOf_stored_RoleBinding key' rb') as [Hkey' Hname].
    rewrite Hname in Hp, Hf. rewrite Hkey' in Hkey. subst key'. auto. }
  split; [| split].
  - intros key rb Hk Hfresh. apply Hkeep1 in Hk.
    destruct (Hsafe key) as [Hsame | [Hnone _]]; [congruence |].
    destruct (Hgone key Hnone (ex_intro _ rb Hk)) as [Hp Hf].
    destruct Hfresh; congruence.
  - intros ->. split.
    + intros name rb Hk Hp.
      destruct (foundAmong meta _ name) eqn:Hf; [reflexivity |]. exfalso.
      destruct (Hsafe (Jenkins.Namespace (jenkins w), name)) as [Hsame | [Hnone _]];
        [| congruence].
      rewrite Hsame in Hk. pose proof (Hlisted eq_refl name rb Hk) as Hin.
      destruct (keyOf_stored_RoleBinding (Jenkins.Namespace (jenkins w), name) rb)
        as [Hkey Hname].
      assert (roleBindings w' !! (Jenkins.Namespace (jenkins w), name) = None) as Hnone.
      { rewrite <- Hkey. apply (Hdone eq_refl _ Hin); rewrite Hname; assumption. }
      congruence.
    + intros roleRef Hin. destruct (Hall1 eq_refl roleRef Hin) as [rb Hk].
      destruct (Hsafe (extraKey meta roleRef)) as [Hsame | [Hnone _]];
        [rewrite Hsame; eauto |].
      destruct (Hgone _ Hnone (ex_intro _ rb Hk)) as [_ Hf].
      unfold extraKey in Hf. cbn [snd] in Hf.
      assert (foundAmong meta (JenkinsSpec.Roles (Jenkins.Spec (jenkins w)))
                (getExtraRoleBindingName (ObjectMeta.Name meta) roleRef) = true) as Hf'.
      { apply existsb_exists. exists roleRef.
        split; [apply list_elem_of_In; exact Hin | apply String.eqb_refl]. }
      congruence.
  - intros Hpresent Hclean. rewrite <- (Hsame1 Hpresent).
    apply map_eq. intros key.
    destruct (Hsafe key) as [Hsame | (_ & item & Hin & Hkey & Hp & Hf)]; [exact Hsame |].
    exfalso. destruct (Hitems item Hin) as (key' & rb' & Hk' & Hns & ->).
    destruct (keyOf_stored_RoleBinding key' rb') as [_ Hname]. rewrite Hname in Hp, Hf.
    rewrite (Hsame1 Hpresent) in Hk'. destruct key' as [ns name]. cbn in Hns, Hp, Hf.
    subst ns. rewrite (Hclean name rb' Hk' Hp) in Hf. discriminate.
Qed.

(** A binding found after the first loop was there before it, as it is, or
    is the binding the loop built for one of the roles, under a name that
    was free. *)
Lemma createExtraRoleBindings_stored (meta : ObjectMeta.t) (roles : list RoleRef.t)
    (w : World) (key : string * string) (rb : RoleBinding.t) :
  roleBindings (snd (createExtraRoleBindings meta roles w)) !! key = Some rb ->
  roleBindings w !! key = Some rb \/
  (roleBindings w !! key = None /\
   exists roleRef,
     roleRef ∈ roles /\ key = extraKey meta roleRef /\
     rb = NewRoleBinding (getExtraRoleBindingName (ObjectMeta.Name meta) roleRef)
            (ObjectMeta.Namespace meta) (ObjectMeta.Name meta) roleRef).
Proof.
  revert w. induction roles as [|roleRef roles IH]; intros w; cbn [createExtraRoleBindings].
  - cbn. auto.
  - unfold mbind, M_bind.
    destruct (ClientCreate_RoleBinding_outcome
                (NewRoleBinding (getExtraRoleBindingName (ObjectMeta.Name meta) roleRef)
                   (ObjectMeta.Namespace meta) (ObjectMeta.Name meta) roleRef) w)
      as (err & w1 & -> & _ & Hcases).
    change (keyOf (NewRoleBinding (getExtraRoleBindingName (ObjectMeta.Name meta) roleRef)
                     (ObjectMeta.Namespace meta) (ObjectMeta.Name meta) roleRef))
      with (extraKey meta roleRef) in Hcases.
    destruct Hcases as [[-> Hrb] | [(-> & Hrb & _) | (-> & Hnone & Hrb)]]; cbn.
    + rewrite Hrb. auto.
    + intros Hk. destruct (IH w1 Hk) as [Hold | (Hfree & r & Hin & Hrest)].
      * left. rewrite <- Hrb. exact Hold.
      * right. split; [rewrite <- Hrb; exact Hfree |].
        exists r. split; [right; exact Hin | exact Hrest].
    + intros Hk. destruct (IH w1 Hk) as [Hold | (Hfree & r & Hin & Hrest)].
      * rewrite Hrb in Hold. destruct (decide (extraKey meta roleRef = key)) as [<- | Hne].
        -- rewrite lookup_insert_eq in Hold. injection Hold as <-.
           right. split; [exact Hnone |]. exists roleRef. split; [left |]. auto.
        -- rewrite lookup_insert_ne in Hold by exact Hne. auto.
      * right. rewrite Hrb in Hfree. apply lookup_insert_None in Hfree as [Hfree _].
        split; [exact Hfree |]. exists r. split; [right; exact Hin | exact Hrest].
Qed.

(** The same of a whole pass of [ensureExtraRBAC], whatever its outcome: the
    pass changes no binding, and the bindings it adds are those the first
    loop builds. *)
Lemma ensureExtraRBAC_stored (meta : ObjectMeta.t) (w : World)
    (key : string * string) (rb : RoleBinding.t) :
  roleBindings (snd (ensureExtraRBAC meta w)) !! key = Some rb ->
  roleBindings w !! key = Some rb \/
  (roleBindings w !! key = None /\
   exists roleRef,
     roleRef ∈ JenkinsSpec.Roles (Jenkins.Spec (jenkins w)) /\ key = extraKey meta roleRef /\
     rb = NewRoleBinding (getExtraRoleBindingName (ObjectMeta.Name meta) roleRef)
            (ObjectMeta.Namespace meta) (ObjectMeta.Name meta) roleRef).
Proof.
  pose proof (createExtraRoleBindings_stored meta
                (JenkinsSpec.Roles (Jenkins.Spec (jenkins w))) w key rb) as Hfirst.
  unfold ensureExtraRBAC, check.
  unfold mbind at 1, M_bind at 1, gets at 1.
  unfold mbind at 1, M_bind at 1.
  destruct (createExtraRoleBindings meta _ w) as [[e1|] w1]; [exact Hfirst |].
  cbn [snd] in Hfirst.
  unfold mbind at 1, M_bind at 1, gets at 1.
  unfold mbind at 1, M_bind at 1.
  destruct (ClientList_RoleBinding (Jenkins.Namespace (jenkins w1)) w1)
    as (items & err2 & w2 & -> & _ & Hrb2 & _).
  destruct err2 as [e2|]; [cbn; rewrite Hrb2; exact Hfirst |].
  destruct (deleteExtraRoleBindings_spec meta items w2) as (err & w' & -> & _ & Hsafe & _).
  cbn [snd]. intros Hk. apply Hfirst.
  destruct (Hsafe key) as [Hsame | [Hgone _]]; [| congruence].
  rewrite <- Hrb2, <- Hsame. exact Hk.
Qed.

(** X11. After a pass of [ensureExtraRBAC] that returns no error, a binding
    is stored under the computed name of every role of the instance, in the
    namespace of [meta]. A binding that was stored under that name before
    the pass is kept as it was: on [AlreadyExists] the pass neither compares
    nor updates, so the binding may refer to another role. Where the name
    was free, the binding is the one [NewRoleBinding] builds for a role of
    the instance with that computed name. And every binding of the
    instance's namespace whose name carries one of the two prefixes bears
    the computed name of one of the roles. *)
Theorem ensureExtraRBAC_converges (meta : ObjectMeta.t) (w w' : World)
    (Hpass : ensureExtraRBAC meta w = (None, w')) :
  (forall roleRef,
      roleRef ∈ JenkinsSpec.Roles (Jenkins.Spec (jenkins w)) ->
      let key := (ObjectMeta.Namespace meta,
                  getExtraRoleBindingName (ObjectMeta.Name meta) roleRef) in
      match roleBindings w !! key with
      | Some found => roleBindings w' !! key = Some found
      | None =>
          exists built,
            built ∈ JenkinsSpec.Roles (Jenkins.Spec (jenkins w)) /\
            getExtraRoleBindingName (ObjectMeta.Name meta) built =
              getExtraRoleBindingName (ObjectMeta.Name meta) roleRef /\
            roleBindings w' !! key =
              Some (NewRoleBinding
                      (getExtraRoleBindingName (ObjectMeta.Name meta) roleRef)
                      (ObjectMeta.Namespace meta) (ObjectMeta.Name meta) built)
      end) /\
  (forall name rb,
      roleBindings w' !! (Jenkins.Namespace (jenkins w), name) = Some rb ->
      String.prefix (ObjectMeta.Name meta +:+ "-r-") name = true \/
      String.prefix (ObjectMeta.Name meta +:+ "-cr-") name = true ->
      exists roleRef,
        roleRef ∈ JenkinsSpec.Roles (Jenkins.Spec (jenkins w)) /\
        name = getExtraRoleBindingName (ObjectMeta.Name meta) roleRef).
Proof.
  destruct (ensureExtraRBAC_outcome meta w) as (err & w1 & Hrun & _ & _ & Hdone & _).
  rewrite Hpass in Hrun. injection Hrun as <- <-.
  destruct (Hdone eq_refl) as [Hclean Hpresent]. split.
  - intros roleRef Hin key. destruct (Hpresent roleRef Hin) as [rb Hk].
    fold key in Hk. change (extraKey meta roleRef) with key in Hk.
    pose proof (ensureExtraRBAC_stored meta w key rb) as Hstored.
    rewrite Hpass in Hstored. cbn [snd] in Hstored.
    destruct (Hstored Hk) as [Hold | (Hfree & built & Hb & Hkey & ->)].
    + rewrite Hold. exact Hk.
    + rewrite Hfree. exists built. injection Hkey as Hname.
      split; [exact Hb |]. split; [symmetry; exact Hname |].
      rewrite Hk, Hname. reflexivity.
  - intros name rb Hk Hp. apply hasExtraRoleBindingPrefix_true in Hp.
    pose proof (Hclean name rb Hk Hp) as Hf. apply foundAmong_true in Hf as (r & Hin & ->).
    exists r. split; [exact Hin |]. symmetry. apply getExtraRoleBindingName_eq.
Qed.

(** X12. Once a pass of [ensureExtraRBAC] has returned no error, a further
    pass over the same bindings and the same instance changes no binding,
    whatever else the world holds and whichever of its requests fail. *)
Theorem ensureExtraRBAC_second_pass_changes_nothing (meta : ObjectMeta.t)
    (w w1 w2 : World)
    (Hpass : ensureExtraRBAC meta w = (None, w1))
    (Hbindings : roleBindings w2 = roleBindings w1)
    (Hinstance : jenkins w2 = jenkins w1) :
  roleBindings (snd (ensureExtraRBAC meta w2)) = roleBindings w1.
Proof.
  destruct (ensureExtraRBAC_outcome meta w) as (err & w1' & Hrun & Hj & _ & Hdone & _).
  rewrite Hpass in Hrun. injection Hrun as <- <-.
  destruct (Hdone eq_refl) as [Hclean Hpresent].
  destruct (ensureExtraRBAC_outcome meta w2) as (err2 & w3 & -> & _ & _ & _ & Hsame).
  cbn [snd]. rewrite <- Hbindings. apply Hsame; rewrite Hinstance, Hj, Hbindings.
  - exact Hpresent.
  - exact Hclean.
Qed.

Lemma CreateOrUpdateResource_RoleBinding (rb : RoleBinding.t) (w w' : World) :
  CreateOrUpdateResource rb w = (None, w') ->
  jenkins w' = jenkins w /\ roleBindings w' !! keyOf rb = Some rb.
Proof.
  unfold CreateOrUpdateResource. unfold mbind at 1, M_bind at 1.
  destruct (ClientCreate_RoleBinding_outcome rb w) as (err & w1 & -> & Hj & Hcases).
  destruct Hcases as [[-> Hrb] | [(-> & Hrb & Hthere) | (-> & Hnone & Hrb)]]; cbn.
  - intros [=].
  - unfold UpdateResource, ClientUpdate, record, modify, gets, mbind, M_bind, mret, M_ret.
    match goal with
    | |- context [fault ?w0] => destruct (fault_frame w0) as (b & fs & ->)
    end.
    destruct b; [intros [=] |]. cbn.
    destruct (roleBindings w1 !! keyOf rb); [| intros [=]].
    intros [= <-]. cbn. split; [exact Hj | apply lookup_insert_eq].
  - intros [= <-]. split; [exact Hj |]. rewrite Hrb. apply lookup_insert_eq.
Qed.

(** X13. The binding of the operator's own role, which [createRBAC] stores
    under the account's name, is out of reach of the cleanup: when
    [createRBAC] has returned no error, a pass of [ensureExtraRBAC] for the
    same account, whatever its outcome, leaves that binding as [createRBAC]
    built it. *)
Theorem createRBAC_binding_survives_cleanup (meta : ObjectMeta.t) (w w1 : World)
    (Hcreated : createRBAC meta w = (None, w1)) :
  roleBindings (snd (ensureExtraRBAC meta w1))
    !! (ObjectMeta.Namespace meta, ObjectMeta.Name meta) =
  Some (NewRoleBinding (ObjectMeta.Name meta) (ObjectMeta.Namespace meta)
          (ObjectMeta.Name meta)
          {| RoleRef.APIGroup := "rbac.authorization.k8s.io"; RoleRef.Kind := "Role";
             RoleRef.Name := ObjectMeta.Name meta |}).
Proof.
  revert Hcreated. unfold createRBAC, check.
  unfold mbind at 1, M_bind at 1.
  destruct (createServiceAccount meta w) as [[e|] wa]; [intros [=] |].
  unfold mbind at 1, M_bind at 1.
  destruct (CreateOrUpdateResource (NewRole meta) wa) as [[e|] wb]; [intros [=] |].
  unfold mbind at 1, M_bind at 1.
  destruct (CreateOrUpdateResource (NewRoleBinding _ _ _ _) wb) as [[e|] wc] eqn:Hrb;
    [intros [=] |].
  intros [= <-]. apply CreateOrUpdateResource_RoleBinding in Hrb as [_ Hstored].
  destruct (ensureExtraRBAC_outcome meta wc) as (err & w' & -> & _ & Hkeep & _).
  cbn [snd]. apply (Hkeep _ _ Hstored). left. cbn.
  destruct (hasExtraRoleBindingPrefix meta (ObjectMeta.Name meta)) eqn:Hp; [| reflexivity].
  apply hasExtraRoleBindingPrefix_true in Hp as [Hp | Hp];
    apply prefix_length in Hp; rewrite length_app_string in Hp; cbn in Hp; lia.
Qed.

End RoleBindingProperties.

(** ** The config map's keys and name *)
Section ConfigMapKeys.
Context `{Constants} `{Resources.Helpers}.
Import Resources.

(** X17. The keys of a config map built by [NewBaseConfigurationConfigMap]
    are among the seven script names, all of which end in [.groovy], the
    suffix by which [ensureBaseConfiguration] picks the scripts to apply;
    the map has seven entries, or six when CSRF protection is disabled. A
    call that builds no config map returns an error, and one that builds a
    config map returns none. *)
Theorem base_configuration_keys
    (meta : ObjectMeta.t) (jenkins : Jenkins.t) (domain : string) :
  match NewBaseConfigurationConfigMap meta jenkins domain with
  | (Some cm, err) =>
      err = None /\
      (forall key,
          is_Some (ConfigMap.Data cm !! key) ->
          key ∈ ["1-basic-settings.groovy"; "2-enable-csrf.groovy";
                 "3-disable-usage-stats.groovy"; "4-disable-insecure-features.groovy";
                 "5-configure-kubernetes-plugin.groovy"; "6-configure-views.groovy";
                 "7-disable-job-dsl-script-approval.groovy"] /\
          Go.HasSuffix key ".groovy" = true) /\
      size (ConfigMap.Data cm) =
        (if JenkinsMaster.DisableCSRFProtection (JenkinsSpec.Master (Jenkins.Spec jenkins))
         then 6 else 7)%nat
  | (None, err) => err <> None
  end.
Proof.
  unfold NewBaseConfigurationConfigMap.
  destruct (getClusterDomain domain) as [cd [e|]]; [discriminate |].
  destruct (GetJenkinsHTTPServiceFQDN jenkins domain) as [h [e|]]; [discriminate |].
  destruct (GetJenkinsSlavesServiceFQDN jenkins domain) as [sl [e|]]; [discriminate |].
  cbn [ConfigMap.Data].
  unfold basicSettingsGroovyScriptName, enableCSRFGroovyScriptName,
    disableUsageStatsGroovyScriptName, disableInsecureFeaturesGroovyScriptName,
    configureKubernetesPluginGroovyScriptName, configureViewsGroovyScriptName,
    disableJobDslScriptApprovalGroovyScriptName.
  split; [reflexivity |]. split.
  - intros key Hkey.
    assert (key ∈ ["1-basic-settings.groovy"; "2-enable-csrf.groovy";
                   "3-disable-usage-stats.groovy"; "4-disable-insecure-features.groovy";
                   "5-configure-kubernetes-plugin.groovy"; "6-configure-views.groovy";
                   "7-disable-job-dsl-script-approval.groovy"]) as Hin.
    { destruct (JenkinsMaster.DisableCSRFProtection _);
        [apply lookup_delete_is_Some in Hkey as [_ Hkey] |];
        repeat (apply lookup_insert_is_Some in Hkey as [<- | [_ Hkey]];
                [set_solver |]);
        rewrite lookup_empty in Hkey; destruct Hkey; discriminate. }
    split; [exact Hin |].
    repeat (apply elem_of_cons in Hin as [-> | Hin]; [vm_compute; reflexivity |]).
    inversion Hin.
  - destruct (JenkinsMaster.DisableCSRFProtection _).
    + rewrite map_size_delete_Some by (simplify_map_eq; eauto).
      repeat (rewrite map_size_insert_None by (simplify_map_eq; reflexivity)).
      rewrite map_size_empty. reflexivity.
    + repeat (rewrite map_size_insert_None by (simplify_map_eq; reflexivity)).
      rewrite map_size_empty. reflexivity.
Qed.

(** X18. The config map's name is the operator's name, the text
    [-base-configuration-] and the instance's name: two instances share it
    exactly when they have the same name. *)
Theorem GetBaseConfigurationConfigMapName_distinct (j1 j2 : Jenkins.t) :
  GetBaseConfigurationConfigMapName j1 =
    OperatorName +:+ "-base-configuration-" +:+ Jenkins.Name j1 /\
  (GetBaseConfigurationConfigMapName j1 = GetBaseConfigurationConfigMapName j2 <->
   Jenkins.Name j1 = Jenkins.Name j2).
Proof.
  assert (forall j, GetBaseConfigurationConfigMapName j =
                    OperatorName +:+ "-base-configuration-" +:+ Jenkins.Name j) as Hname.
  { intros j. unfold GetBaseConfigurationConfigMapName. cbn.
    rewrite string_app_nil_r. reflexivity. }
  split; [apply Hname |]. rewrite !Hname. split.
  - intros Heq. apply String.app_inj in Heq. apply String.app_inj in Heq. exact Heq.
  - intros ->. reflexivity.
Qed.

End ConfigMapKeys.

(** ** Services, the credentials secret and deployment mode *)
Section ServiceProperties.
Context `{Constants} `{NotificationLevels} `{Base.Collaborators}.
Import Platform Base.

Definition writeOf (v : Verb) (k : Kind) (key : string * string) : Write :=
  {| verb := v; kind := k; namespace := key.1; name := key.2 |}.

Lemma ClientCreate_Service (obj : K8sService.t) (w : World) :
  exists err w',
    ClientCreate obj w = (err, w') /\
    writes w' = writes w ++ [writeOf VerbCreate KindService (keyOf obj)] /\
    ((err <> None /\ services w' = services w) \/
     (err = None /\ services w' = <[keyOf obj := obj]> (services w))).
Proof.
  unfold ClientCreate, record, modify, gets, mbind, M_bind, mret, M_ret.
  match goal with
  | |- context [fault ?w0] => destruct (fault_frame w0) as (b & fs & Hf)
  end.
  cbn in *. rewrite Hf. destruct b.
  - eexists _, _. split; [reflexivity |]. cbn. split; [reflexivity |].
    left. split; [discriminate | reflexivity].
  - cbn. destruct (services w !! keyOf obj) eqn:E.
    + eexists _, _. split; [reflexivity |]. cbn. split; [reflexivity |].
      left. split; [discriminate | reflexivity].
    + eexists _, _. split; [reflexivity |]. cbn. split; [reflexivity |]. right. auto.
Qed.

Lemma ClientUpdate_Service (obj : K8sService.t) (w : World) :
  exists err w',
    ClientUpdate obj w = (err, w') /\
    writes w' = writes w ++ [writeOf VerbUpdate KindService (keyOf obj)] /\
    ((err <> None /\ services w' = services w) \/
     (err = None /\ services w' = <[keyOf obj := obj]> (services w))).
Proof.
  unfold ClientUpdate, record, modify, gets, mbind, M_bind, mret, M_ret.
  match goal with
  | |- context [fault ?w0] => destruct (fault_frame w0) as (b & fs & Hf)
  end.
  cbn in *. rewrite Hf. destruct b.
  - eexists _, _. split; [reflexivity |]. cbn. split; [reflexivity |].
    left. split; [discriminate | reflexivity].
  - cbn. destruct (services w !! keyOf obj) eqn:E.
    + eexists _, _. split; [reflexivity |]. cbn. split; [reflexivity |]. right. auto.
    + eexists _, _. split; [reflexivity |]. cbn. split; [reflexivity |].
      left. split; [discriminate | reflexivity].
Qed.

Lemma ClientGet_Service (namespace name : string) (w : World) :
  exists got w',
    ClientGet (V := K8sService.t) namespace name w = (got, w') /\
    writes w' = writes w /\ services w' = services w.
Proof.
  unfold ClientGet, gets, mbind, M_bind, mret, M_ret.
  destruct (fault_frame w) as (b & fs & ->). destruct b.
  - eexists _, _. split; [reflexivity |]. auto.
  - cbn. destruct (services w !! (namespace, name));
      (eexists _, _; split; [reflexivity |]; auto).
Qed.

(** X19. [createService] sends at most two write requests, each for a
    service and none a delete. When it returns no error, the request it
    sent last is an update, sent also for a service that was there
    already, and the service then stored is [UpdateService] applied to a
    service whose selector is the labels of [meta]. *)
Theorem createService_ends_with_update
    (meta : ObjectMeta.t) (name : string) (config : Service.t) (targetPort : Z)
    (w : World) :
  let '(err, w') := createService meta name config targetPort w in
  exists added,
    writes w' = writes w ++ added /\
    length added <= 2 /\
    Forall (fun wr => kind wr = KindService /\ verb wr <> VerbDelete) added /\
    (err = None ->
     exists base,
       let service :=
         UpdateService
           {| K8sService.ObjectMeta := K8sService.ObjectMeta base;
              K8sService.Selector := ObjectMeta.Labels meta;
              K8sService.Ports := K8sService.Ports base |} config targetPort in
       last added = Some {| verb := VerbUpdate; kind := KindService;
                            namespace := (keyOf service).1;
                            name := (keyOf service).2 |} /\
       services w' !! keyOf service = Some service).
Proof.
  unfold createService. unfold mbind at 1, M_bind at 1.
  destruct (ClientGet_Service (ObjectMeta.Namespace meta) name w)
    as (got & w1 & -> & Hw1 & Hs1).
  assert (forall base w0 pre,
             writes w0 = writes w ++ pre ->
             length pre <= 1 ->
             Forall (fun wr => kind wr = KindService /\ verb wr <> VerbDelete) pre ->
             let '(err, w') :=
               UpdateResource
                 (UpdateService
                    {| K8sService.ObjectMeta := K8sService.ObjectMeta base;
                       K8sService.Selector := ObjectMeta.Labels meta;
                       K8sService.Ports := K8sService.Ports base |} config targetPort) w0 in
             exists added,
               writes w' = writes w ++ added /\
               length added <= 2 /\
               Forall (fun wr => kind wr = KindService /\ verb wr <> VerbDelete) added /\
               (err = None ->
                exists base,
                  let service :=
                    UpdateService
                      {| K8sService.ObjectMeta := K8sService.ObjectMeta base;
                         K8sService.Selector := ObjectMeta.Labels meta;
                         K8sService.Ports := K8sService.Ports base |} config targetPort in
                  last added = Some {| verb := VerbUpdate; kind := KindService;
                                       namespace := (keyOf service).1;
                                       name := (keyOf service).2 |} /\
                  services w' !! keyOf service = Some service)) as Hupdate.
  { intros base w0 pre Hpre Hlen Hall. unfold UpdateResource.
    destruct (ClientUpdate_Service
                (UpdateService
                   {| K8sService.ObjectMeta := K8sService.ObjectMeta base;
                      K8sService.Selector := ObjectMeta.Labels meta;
                      K8sService.Ports := K8sService.Ports base |} config targetPort) w0)
      as (err & w' & -> & Hw & Hcases).
    exists (pre ++ [writeOf VerbUpdate KindService
                      (keyOf (UpdateService
                                {| K8sService.ObjectMeta := K8sService.ObjectMeta base;
                                   K8sService.Selector := ObjectMeta.Labels meta;
                                   K8sService.Ports := K8sService.Ports base |}
                                config targetPort))]).
    split; [rewrite Hw, Hpre, app_assoc; reflexivity |].
    split; [rewrite length_app; cbn; lia |].
    split; [apply Forall_app; split; [exact Hall |];
            constructor; [split; [reflexivity | discriminate] | constructor] |].
    intros ->. destruct Hcases as [[Hne _] | [_ Hs]]; [congruence |].
    exists base. cbv zeta. split; [apply last_snoc |]. rewrite Hs. apply lookup_insert_eq. }
  destruct got as [e | service].
  - destruct (IsNotFound e).
    + unfold check, CreateResource. unfold mbind at 1, M_bind at 1.
      match goal with
      | |- context [ClientCreate ?o w1] =>
          destruct (ClientCreate_Service o w1) as (err & w2 & -> & Hw2 & _);
          set (created := o) in *
      end.
      destruct err as [e'|].
      * cbn. exists [writeOf VerbCreate KindService (keyOf created)].
        split; [rewrite Hw2, Hw1; reflexivity |]. split; [cbn; lia |].
        split; [constructor; [split; [reflexivity | discriminate] | constructor] |].
        discriminate.
      * apply (Hupdate created w2 [writeOf VerbCreate KindService (keyOf created)]).
        -- rewrite Hw2, Hw1. reflexivity.
        -- cbn. lia.
        -- constructor; [split; [reflexivity | discriminate] | constructor].
    + cbn. exists []. rewrite app_nil_r. split; [exact Hw1 |]. split; [cbn; lia |].
      split; [constructor | discriminate].
  - apply (Hupdate service w1 []).
    + rewrite app_nil_r. exact Hw1.
    + cbn. lia.
    + constructor.
Qed.

(** X20. When [createOperatorCredentialsSecret] returns no error, the secret
    is stored. If it was missing, or was there with [nil] data under one of
    the two keys, what is stored is the secret [NewOperatorCredentialsSecret]
    builds, in place of whatever was there: an incomplete secret is replaced
    whole. This needs the built secret to have the name and the namespace
    under which the secret is looked up. *)
Theorem createOperatorCredentialsSecret_replaces_incomplete
    (meta : ObjectMeta.t) (w w' : World)
    (Hkey : keyOf (NewOperatorCredentialsSecret meta (jenkins w)) =
            (Jenkins.Namespace (jenkins w), GetOperatorCredentialsSecretName (jenkins w)))
    (Hok : createOperatorCredentialsSecret meta w = (None, w')) :
  let key := (Jenkins.Namespace (jenkins w), GetOperatorCredentialsSecretName (jenkins w)) in
  is_Some (secrets w' !! key) /\
  ((forall found,
       secrets w !! key = Some found ->
       Secret.data found OperatorCredentialsSecretUserNameKey = None \/
       Secret.data found OperatorCredentialsSecretPasswordKey = None) ->
   secrets w' = <[key := NewOperatorCredentialsSecret meta (jenkins w)]> (secrets w)).
Proof.
  cbv zeta. revert Hok. unfold createOperatorCredentialsSecret.
  unfold mbind at 1, M_bind at 1, gets at 1.
  unfold mbind at 1, M_bind at 1. unfold ClientGet.
  unfold mbind at 1, M_bind at 1.
  destruct (fault_frame w) as (b & fs & ->).
  destruct b; [intros [=] |].
  unfold mbind at 1, M_bind at 1, gets at 1. cbn [store Stored_Secret secrets set_faults].
  destruct (secrets w !! (Jenkins.Namespace (jenkins w),
                          GetOperatorCredentialsSecretName (jenkins w)))
    as [found|] eqn:Hfound.
  - cbn [mret M_ret].
    set (fnd := stored _ found).
    assert (forall k, Secret.data fnd k = Secret.data found k) as Hdata by reflexivity.
    rewrite !Hdata.
    destruct (bool_decide (Secret.data found OperatorCredentialsSecretUserNameKey <> None))
      eqn:Hu;
      [destruct (bool_decide (Secret.data found OperatorCredentialsSecretPasswordKey <> None))
         eqn:Hp |]; cbn [andb].
    + intros [= <-]. cbn. split; [rewrite Hfound; eauto |].
      intros Hincomplete. apply bool_decide_eq_true in Hu, Hp.
      destruct (Hincomplete found eq_refl); contradiction.
    + unfold UpdateResource, ClientUpdate, record, modify, gets, mbind, M_bind, mret, M_ret.
      cbn [jenkins set_faults].
      match goal with
      | |- context [fault ?w0] => destruct (fault_frame w0) as (b' & fs' & ->)
      end.
      destruct b'; [intros [=] |]. cbn. rewrite Hkey.
      rewrite Hfound. intros [= <-]. cbn. rewrite lookup_insert_eq. eauto.
    + unfold UpdateResource, ClientUpdate, record, modify, gets, mbind, M_bind, mret, M_ret.
      cbn [jenkins set_faults].
      match goal with
      | |- context [fault ?w0] => destruct (fault_frame w0) as (b' & fs' & ->)
      end.
      destruct b'; [intros [=] |]. cbn. rewrite Hkey.
      rewrite Hfound. intros [= <-]. cbn. rewrite lookup_insert_eq. eauto.
  - cbn [mret M_ret IsNotFound].
    unfold CreateResource, ClientCreate, record, modify, gets, mbind, M_bind, mret, M_ret.
    cbn [jenkins set_faults].
    match goal with
    | |- context [fault ?w0] => destruct (fault_frame w0) as (b' & fs' & ->)
    end.
    destruct b'; [intros [=] |]. cbn. rewrite Hkey.
    rewrite Hfound. intros [= <-]. cbn. rewrite lookup_insert_eq. eauto.
Qed.

(** X21. Deployment mode is chosen by the annotation
    [jenkins.io/use-deployment] holding exactly [true]. In that mode, once
    the resources are in place, the cycle ends with [ensureJenkinsDeployment]:
    it returns that stage's error, its result when there is no error, and
    never a client. *)
Theorem deployment_mode_returns_no_client (w0 w1 : World)
    (Hres : ensureResourcesRequiredForJenkinsPod (NewResourceObjectMeta (jenkins w0)) w0 =
            (None, w1)) :
  (useDeploymentForJenkinsMaster (jenkins w1) = true <->
   Jenkins.Annotations (jenkins w1) !! "jenkins.io/use-deployment" = Some "true") /\
  (useDeploymentForJenkinsMaster (jenkins w1) = true ->
   Reconcile w0 =
   (let '((result, err), w2) :=
      ensureJenkinsDeployment (NewResourceObjectMeta (jenkins w0)) w1 in
    ((match err with Some _ => Result.zero | None => result end, None, err), w2))).
Proof.
  split.
  - unfold useDeploymentForJenkinsMaster.
    destruct (Jenkins.Annotations (jenkins w1) !! "jenkins.io/use-deployment") as [val|].
    + rewrite String.eqb_eq. split; [intros -> | intros [= ->]]; reflexivity.
    + split; discriminate.
  - intros Hdep. unfold Reconcile.
    unfold mbind at 1, M_bind at 1, gets at 1.
    unfold mbind at 1, M_bind at 1. rewrite Hres.
    unfold mbind at 1, M_bind at 1, gets at 1. rewrite Hdep.
    unfold mbind at 1, M_bind at 1.
    destruct (ensureJenkinsDeployment _ w1) as [[result [e|]] w2]; [reflexivity |].
    destruct (Result.Requeue result); reflexivity.
Qed.

End ServiceProperties.

(** ** Where the cycle ends, and what the dispatcher sends *)
Section OutcomeProperties.
Context `{Constants} `{NotificationLevels} `{Base.Collaborators}.
Import Platform Base.

(** X22. A cycle that returns no error, no client and no requeue has ended
    in one of two places: in deployment mode, with the result of
    [ensureJenkinsDeployment]; or in single-pod mode at the starting-issue
    detector, which answered stop. *)
Theorem Reconcile_ends_without_requeue
    (w0 w' : World) (result : Result.t)
    (Hrun : Reconcile w0 = ((result, None, None), w'))
    (Hdone : Result.Requeue result = false) :
  (exists w1,
      ensureResourcesRequiredForJenkinsPod (NewResourceObjectMeta (jenkins w0)) w0 =
        (None, w1) /\
      useDeploymentForJenkinsMaster (jenkins w1) = true /\
      ensureJenkinsDeployment (NewResourceObjectMeta (jenkins w0)) w1 =
        ((result, None), w')) \/
  (exists w2,
      reachesDetector w0 w2 /\
      detectJenkinsMasterPodStartingIssues w2 = ((true, None), w') /\
      result = Result.zero).
Proof.
  revert Hrun. unfold Reconcile.
  unfold mbind at 1, M_bind at 1, gets at 1.
  unfold mbind at 1, M_bind at 1.
  destruct (ensureResourcesRequiredForJenkinsPod _ w0) as [[e|] w1] eqn:Hres;
    [intros [=] |].
  unfold mbind at 1, M_bind at 1, gets at 1.
  destruct (useDeploymentForJenkinsMaster (jenkins w1)) eqn:Hdep.
  { unfold mbind at 1, M_bind at 1.
    destruct (ensureJenkinsDeployment _ w1) as [[r [e|]] w2] eqn:Hd; [intros [=] |].
    destruct (Result.Requeue r) eqn:Hr; intros [= <- <-]; [congruence |].
    left. exists w1. auto. }
  unfold mbind at 1, M_bind at 1.
  destruct (ensureJenkinsMasterPod _ w1) as [[r2 [e|]] w2] eqn:Hpod; [intros [=] |].
  destruct (Result.Requeue r2) eqn:Hrq2; [intros [= <- <-]; congruence |].
  unfold mbind at 1, M_bind at 1.
  destruct (detectJenkinsMasterPodStartingIssues w2) as [[stop [e|]] w3] eqn:Hdet;
    [intros [=] |].
  destruct stop.
  { intros [= <- <-]. right. exists w2. split; [| auto]. exists w1, r2. auto. }
  unfold mbind at 1, M_bind at 1.
  destruct (waitForJenkins w3) as [[r4 [e|]] w4] eqn:Hwait; [intros [=] |].
  destruct (Result.Requeue r4) eqn:Hrq4; [intros [= <- <-]; congruence |].
  unfold mbind at 1, M_bind at 1.
  destruct (GetJenkinsClient w4) as [[c [e|]] w5] eqn:Hcli; [intros [=] |].
  unfold mbind at 1, M_bind at 1.
  destruct (verifyPlugins c w5) as [[ok [e|]] w6] eqn:Hver; [intros [=] |].
  destruct ok; cbn [negb]; unfold mbind at 1, M_bind at 1.
  - destruct (ensureBaseConfiguration c w6) as [[r7 e7] w7]. intros [=].
  - destruct (RestartJenkinsMasterPod _ w6). intros [= <- <-]. discriminate.
Qed.

End OutcomeProperties.

Section SendProperties.
Context `{NotificationLevels}.
Import Notifications.

(** X23. Every goroutine that [Listen] starts for a [Send] is started in
    the round of an event of the feed that carries a message, with the
    provider of a channel of that event's own instance, and never in the
    round of an Info event for a channel that asks for Warning. This is
    about the [go] statement; which event the call is handed when it runs
    is not stated. *)
Theorem Listen_sends_only_to_own_channels
    (events : list Event.t) (provider : Provider) (e : Event.t)
    (Hsent : GoSend provider e ∈ Listen events) :
  e ∈ events /\
  Reason.messages (Event.Reason e) <> [] /\
  configOf provider ∈ JenkinsSpec.Notifications (Jenkins.Spec (Event.Jenkins e)) /\
  providerFor (configOf provider) = Some provider /\
  ~ (Event.Level e = NotificationLevelInfo /\
     Notification.LoggingLevel (configOf provider) = NotificationLevelWarning).
Proof.
  unfold Listen in Hsent. apply list_elem_of_In, in_flat_map in Hsent as (e' & Hin & Hsent).
  unfold handleEvent, Reason.HasMessages in Hsent.
  destruct (Reason.messages (Event.Reason e')) as [|m ms] eqn:Hm; cbn [negb] in Hsent;
    [destruct Hsent |].
  destruct Hsent as [[=] | Hsent].
  apply in_flat_map in Hsent as (c & Hc & Hsent).
  unfold notifyChannel in Hsent.
  destruct (providerFor c) as [p|] eqn:Hp; [| destruct Hsent].
  destruct (String.eqb_spec (Event.Level e') NotificationLevelInfo) as [Hi|Hi];
    [destruct (String.eqb_spec (Notification.LoggingLevel c) NotificationLevelWarning)
       as [Hw|Hw] |];
    cbn [andb] in Hsent; try (destruct Hsent; fail);
    (destruct Hsent as [[= <- <-] | []];
     pose proof (providerFor_configOf _ _ Hp) as Hcfg; rewrite Hcfg;
     split; [apply list_elem_of_In; exact Hin |];
     split; [rewrite Hm; discriminate |];
     split; [apply list_elem_of_In; exact Hc |];
     split; [exact Hp | tauto]).
Qed.

End SendProperties.

(** ** Examples of the further properties *)
Section FurtherExamples.
Import Platform Base Samples Cases.

Lemma waitForJenkins_restart_witness :
  fst (waitForJenkins (H1 := crashed) quiet) =
    ({| Result.Requeue := true; Result.RequeueAfter := 0 |}, None) /\
  restarts (snd (waitForJenkins (H1 := crashed) quiet)) =
    [{| Reason.source := Reason.KubernetesSource;
        Reason.messages := ["Container 'backup' is terminated, status 'backup'"] |}].
Proof.
  assert (ContainerStatus.Terminated dead <> None) as Hdead by (intros [=]).
  assert (Forall (fun c => ContainerStatus.Terminated c = None) [waiting]) as Hbefore
    by (repeat constructor).
  rewrite (waitForJenkins_restarts_on_terminated (H1 := crashed) quiet quiet
             (pod "Running" [waiting; dead]) [waiting] [] dead
             eq_refl eq_refl eq_refl eq_refl
             Hbefore Hdead).
  split; vm_compute; reflexivity.
Defined.

Lemma Reconcile_client_witness :
  exists w5 w6,
    reachesPluginCheck (H1 := healthy) quiet tt w5 /\
    verifyPlugins (Collaborators := healthy) tt w5 = ((true, None), w6).
Proof.
  assert (Reconcile (H1 := healthy) quiet =
          ((Result.zero, Some tt, None), snd (Reconcile (H1 := healthy) quiet))) as Hrun
    by (vm_compute; reflexivity).
  destruct (Reconcile_client_only_after_plugin_check (H1 := healthy) _ _ _ _ _ Hrun)
    as (w5 & w6 & Hreach & Hplugins & _).
  exists w5, w6. split; assumption.
Defined.

Lemma ensureExtraRBAC_converges_witness :
  roleBindings (snd (ensureExtraRBAC (meta "jenkins-operator-example") quiet))
    !! ("default", "jenkins-operator-example-cr-admin") =
    Some (binding "jenkins-operator-example-cr-admin") /\
  roleBindings (snd (ensureExtraRBAC (meta "jenkins-operator-example") bare))
    !! ("default", "jenkins-operator-example-cr-admin") =
    Some (NewRoleBinding "jenkins-operator-example-cr-admin" "default"
            "jenkins-operator-example" adminRole).
Proof.
  assert (adminRole ∈ JenkinsSpec.Roles (Jenkins.Spec (jenkins quiet))) as Hin
    by (apply list_elem_of_singleton; reflexivity).
  assert ((ObjectMeta.Namespace (meta "jenkins-operator-example"),
           getExtraRoleBindingName (ObjectMeta.Name (meta "jenkins-operator-example"))
             adminRole) =
          ("default", "jenkins-operator-example-cr-admin")) as Hkey
    by (vm_compute; reflexivity).
  split.
  - assert (ensureExtraRBAC (meta "jenkins-operator-example") quiet =
            (None, snd (ensureExtraRBAC (meta "jenkins-operator-example") quiet))) as Hpass
      by (vm_compute; reflexivity).
    pose proof (proj1 (ensureExtraRBAC_converges _ _ _ Hpass) adminRole Hin) as T.
    cbv zeta in T. rewrite Hkey in T.
    assert (roleBindings quiet !! ("default", "jenkins-operator-example-cr-admin") =
            Some (binding "jenkins-operator-example-cr-admin")) as Hfound
      by (vm_compute; reflexivity).
    rewrite Hfound in T. exact T.
  - assert (ensureExtraRBAC (meta "jenkins-operator-example") bare =
            (None, snd (ensureExtraRBAC (meta "jenkins-operator-example") bare))) as Hpass
      by (vm_compute; reflexivity).
    pose proof (proj1 (ensureExtraRBAC_converges _ _ _ Hpass) adminRole Hin) as T.
    cbv zeta in T. rewrite Hkey in T.
    assert (roleBindings bare !! ("default", "jenkins-operator-example-cr-admin") = None)
      as Hfree by (vm_compute; reflexivity).
    rewrite Hfree in T. destruct T as (built & Hbuilt & _ & Hstored).
    apply list_elem_of_singleton in Hbuilt. subst built.
    rewrite Hstored. vm_compute. reflexivity.
Defined.

Lemma ensureExtraRBAC_second_pass_witness :
  roleBindings
    (snd (ensureExtraRBAC (meta "jenkins-operator-example")
            (snd (ensureExtraRBAC (meta "jenkins-operator-example") quiet)))) =
  roleBindings (snd (ensureExtraRBAC (meta "jenkins-operator-example") quiet)).
Proof.
  assert (ensureExtraRBAC (meta "jenkins-operator-example") quiet =
          (None, snd (ensureExtraRBAC (meta "jenkins-operator-example") quiet))) as Hpass
    by (vm_compute; reflexivity).
  exact (ensureExtraRBAC_second_pass_changes_nothing _ _ _ _ Hpass eq_refl eq_refl).
Defined.

Lemma createRBAC_binding_witness :
  is_Some
    (roleBindings
       (snd (ensureExtraRBAC (meta "jenkins-operator-example")
               (snd (createRBAC (H1 := healthy) (meta "jenkins-operator-example") quiet))))
       !! ("default", "jenkins-operator-example")).
Proof.
  assert (createRBAC (H1 := healthy) (meta "jenkins-operator-example") quiet =
          (None, snd (createRBAC (H1 := healthy) (meta "jenkins-operator-example") quiet)))
    as Hcreated by (vm_compute; reflexivity).
  pose proof (createRBAC_binding_survives_cleanup (H := healthy) _ _ _ Hcreated) as Hkept.
  cbn [ObjectMeta.Namespace ObjectMeta.Name meta] in Hkept. rewrite Hkept. eauto.
Defined.

Lemma createOperatorCredentialsSecret_replace_witness :
  secrets (snd (createOperatorCredentialsSecret (H1 := healthy)
                  (meta "jenkins-operator-example") halfProvisioned))
    !! ("default", "jenkins-operator-credentials-example") =
  Some (credentials (<["user" := Some [Byte.x6a]]> (<["password" := Some [Byte.x70]]> ∅))).
Proof.
  assert (createOperatorCredentialsSecret (H1 := healthy)
            (meta "jenkins-operator-example") halfProvisioned =
          (None, snd (createOperatorCredentialsSecret (H1 := healthy)
                        (meta "jenkins-operator-example") halfProvisioned))) as Hok
    by (vm_compute; reflexivity).
  assert (keyOf (NewOperatorCredentialsSecret (Collaborators := healthy)
                   (meta "jenkins-operator-example") (jenkins halfProvisioned)) =
          (Jenkins.Namespace (jenkins halfProvisioned),
           GetOperatorCredentialsSecretName (Collaborators := healthy)
             (jenkins halfProvisioned))) as Hkey
    by (vm_compute; reflexivity).
  destruct (createOperatorCredentialsSecret_replaces_incomplete (H1 := healthy)
              _ _ _ Hkey Hok) as [_ Hreplaced].
  rewrite Hreplaced.
  - vm_compute. reflexivity.
  - intros found Hfound. right. vm_compute in Hfound. injection Hfound as <-.
    vm_compute. reflexivity.
Defined.

Lemma deployment_mode_witness :
  fst (Reconcile (H1 := healthy) deployed) = (Result.zero, None, None).
Proof.
  assert (ensureResourcesRequiredForJenkinsPod (H1 := healthy)
            (NewResourceObjectMeta (Collaborators := healthy) (jenkins deployed)) deployed =
          (None, snd (ensureResourcesRequiredForJenkinsPod (H1 := healthy)
                        (NewResourceObjectMeta (Collaborators := healthy) (jenkins deployed))
                        deployed))) as Hres
    by (vm_compute; reflexivity).
  destruct (deployment_mode_returns_no_client (H1 := healthy) _ _ Hres) as [_ Hmode].
  rewrite Hmode; [reflexivity | vm_compute; reflexivity].
Defined.

Lemma Reconcile_ends_witness :
  exists w2,
    reachesDetector (H1 := pending) noisy w2 /\
    detectJenkinsMasterPodStartingIssues (H1 := pending) w2 =
      ((true, None), snd (Reconcile (H1 := pending) noisy)).
Proof.
  assert (Reconcile (H1 := pending) noisy =
          ((Result.zero, None, None), snd (Reconcile (H1 := pending) noisy))) as Hrun
    by (vm_compute; reflexivity).
  destruct (Reconcile_ends_without_requeue (H1 := pending) _ _ _ Hrun eq_refl)
    as [(w1 & Hres & Hdep & _) | (w2 & Hreach & Hstop & _)].
  - exfalso. clear Hrun.
    assert (w1 = snd (ensureResourcesRequiredForJenkinsPod (H1 := pending)
                        (NewResourceObjectMeta (Collaborators := pending) (jenkins noisy))
                        noisy)) as -> by (rewrite Hres; reflexivity).
    clear Hres. vm_compute in Hdep. discriminate Hdep.
  - exists w2. split; assumption.
Defined.

Lemma Listen_sends_witness :
  Samples.slack "warning" ∈
    JenkinsSpec.Notifications
      (Jenkins.Spec (Event.Jenkins (event "warning" ["restart"] [slack "warning"]))) /\
  Notifications.providerFor (slack "warning") =
    Some (Notifications.SlackProvider (slack "warning")).
Proof.
  assert (Notifications.GoSend (Notifications.SlackProvider (slack "warning"))
            (event "warning" ["restart"] [slack "warning"])
          ∈ Notifications.Listen [event "warning" ["restart"] [slack "warning"]]) as Hsent.
  { apply list_elem_of_In. right. left. reflexivity. }
  destruct (Listen_sends_only_to_own_channels _ _ _ Hsent) as (_ & _ & Hc & Hp & _).
  split; assumption.
Defined.

End FurtherExamples.
